(** * LandscapeVision: the iteration lineage and its durable storage

    A shallow embedding of the session handlers of [App] (App.tsx), of the
    record types of types.ts and of the cloud storage service
    (services/storageService.ts), with the properties of the lineage engine
    stated and proved over them.

    Conventions.
    - A JavaScript string is a [string] of 8-bit code units; [null] and
      [undefined] are [None].
    - A React state variable is a field of [AppModel]; a handler reads the
      fields of the render it closed over and issues absolute [setX] calls,
      so a handler is a composition of setters applied to that state.
    - [crypto.randomUUID()] and [Date.now()] are inputs of the handler that
      calls them.
    - Firestore, Firebase Storage and the idb-keyval draft slot are the
      explicit [Cloud] state; every call to them is logged, and an [Env]
      decides which calls throw. *)

From Stdlib Require Import ZArith Ascii String.
From stdpp Require Import base option list strings gmap pretty sorting.

Local Open Scope string_scope.
Local Open Scope Z_scope.
Local Open Scope list_scope.

(** ** JavaScript strings *)

Module Js.

(** [!s] for a string: only the empty string is falsy. *)
Definition isEmpty (s : string) : bool :=
  match s with
  | EmptyString => true
  | String _ _ => false
  end.

(** [!v] for an object reference or [null]. *)
Definition isNull {A} (v : option A) : bool :=
  match v with
  | None => true
  | Some _ => false
  end.

(** Truthiness of a [string | null] value. *)
Definition truthy (v : option string) : bool :=
  match v with
  | None => false
  | Some s => negb (isEmpty s)
  end.

(** [a || b] on [string | null] values. *)
Definition orElse (a b : option string) : option string :=
  if truthy a then a else b.

(** [s.startsWith(p)]. *)
Fixpoint startsWith (p s : string) : bool :=
  match p, s with
  | EmptyString, _ => true
  | String a p', String b s' => if Ascii.eqb a b then startsWith p' s' else false
  | String _ _, EmptyString => false
  end.

(** [s.includes(p)]. *)
Fixpoint includes (p s : string) : bool :=
  startsWith p s ||
  match s with
  | EmptyString => false
  | String _ s' => includes p s'
  end.

(** White space and line terminators among the code units below 256:
    TAB, LF, VT, FF, CR, SP and NBSP. *)
Definition isWhiteSpace (c : ascii) : bool :=
  let n := nat_of_ascii c in
  (Nat.leb 9 n && Nat.leb n 13) || Nat.eqb n 32 || Nat.eqb n 160.

Fixpoint trimStart (s : string) : string :=
  match s with
  | EmptyString => EmptyString
  | String c s' => if isWhiteSpace c then trimStart s' else s
  end.

(** [trimEnd] drops the trailing white space: a character stays when it is
    not white space or when something stays after it. *)
Fixpoint trimEnd (s : string) : string :=
  match s with
  | EmptyString => EmptyString
  | String c s' =>
      match trimEnd s' with
      | EmptyString => if isWhiteSpace c then EmptyString else String c EmptyString
      | t => String c t
      end
  end.

(** [s.trim()]. *)
Definition trim (s : string) : string := trimEnd (trimStart s).

End Js.

(** ** types.ts *)

Inductive AppState := IDLE | LOADING | SUCCESS | ERROR.

Module DesignIteration.
Record t := mk {
  id : string;
  prompt : string;
  image : string;
  timestamp : Z
}.
End DesignIteration.

Module SavedDesign.
Record t := mk {
  id : string;
  userId : option string;
  timestamp : Z;
  originalImage : string;
  generatedImage : string;
  prompt : string;
  iterations : option (list DesignIteration.t)
}.
End SavedDesign.

Module AutoSaveState.
Record t := mk {
  timestamp : Z;
  prompt : string;
  imagePreview : option string;
  generatedImage : option string;
  pastIterations : list DesignIteration.t;
  originalImageRef : option string;
  appState : AppState
}.
End AutoSaveState.

Module User.
Record t := mk { id : string; name : string; email : string }.
End User.

(** A browser [File]: its MIME type, its size in bytes and the data URL a
    [FileReader] delivers for it. *)
Module File.
Record t := mk { type : string; size : Z; dataURL : string }.
End File.

#[global] Instance AppState_eq_dec : EqDecision AppState.
Proof. solve_decision. Defined.
#[global] Instance DesignIteration_eq_dec : EqDecision DesignIteration.t.
Proof. solve_decision. Defined.
#[global] Instance SavedDesign_eq_dec : EqDecision SavedDesign.t.
Proof. solve_decision. Defined.
#[global] Instance File_eq_dec : EqDecision File.t.
Proof. solve_decision. Defined.

(** ** hooks/useUndoRedo *)

Module UndoRedo.

(** Modelled from the spec: the hook [useUndoRedo] (hooks/useUndoRedo),
    whose source is not part of the sources at hand.  The edit history
    buffer keeps a committed baseline, a live value, an undo stack of prior
    committed values and a redo stack (both with the most recent entry
    first). *)
Record t := mk {
  value : string;
  baseline : string;
  undoStack : list string;
  redoStack : list string
}.

(** Modelled from the spec: [useUndoRedo('')]. *)
Definition init (v : string) : t := mk v v [] [].

(** Modelled from the spec: [update(v)] sets the live value and does not
    touch the stacks. *)
Definition updateValue (v : string) (h : t) : t :=
  mk v (baseline h) (undoStack h) (redoStack h).

(** Modelled from the spec: [commit()] pushes the baseline, clears the redo
    stack and moves the baseline to the live value, when they differ. *)
Definition commit (h : t) : t :=
  if String.eqb (value h) (baseline h) then h
  else mk (value h) (value h) (baseline h :: undoStack h) [].

(** Modelled from the spec: [undo()]. *)
Definition undo (h : t) : t :=
  match undoStack h with
  | [] => h
  | v :: rest => mk v v rest (baseline h :: redoStack h)
  end.

(** Modelled from the spec: [redo()], symmetric to [undo()]. *)
Definition redo (h : t) : t :=
  match redoStack h with
  | [] => h
  | v :: rest => mk v v (baseline h :: undoStack h) rest
  end.

(** Modelled from the spec: [setAndSave(v)] sets live value and baseline to
    [v] and pushes the previous baseline onto the undo stack, in one step.
    The spec names no effect on the redo stack, which is left as it is. *)
Definition setAndSave (v : string) (h : t) : t :=
  mk v v (baseline h :: undoStack h) (redoStack h).

(** Modelled from the spec: [canUndo] and [canRedo] say that the stack is
    not empty. *)
Definition canUndo (h : t) : bool := negb (bool_decide (undoStack h = [])).
Definition canRedo (h : t) : bool := negb (bool_decide (redoStack h = [])).

End UndoRedo.

(** ** The cloud: Firestore, Firebase Storage and the local draft slot *)

(** What a rejected promise carries: Firebase Storage's
    ['storage/object-not-found'], or any other error. *)
Inductive Exn :=
| ObjectNotFound
| Error (msg : string).

(** Every call to a collaborator, with its outcome ([ok = false], or an
    absent URL: the call threw). *)
Inductive Event :=
| EvUploadString (path data : string) (ok : bool)
| EvGetDownloadURL (path : string) (url : option string)
| EvDeleteObject (path : string) (outcome : option Exn)
| EvSetDoc (id : string) (d : SavedDesign.t) (ok : bool)
| EvGetDoc (id : string) (ok : bool)
| EvDeleteDoc (id : string) (ok : bool)
| EvGetDocs (userId : string) (ok : bool)
| EvDraftSet (ok : bool)
| EvDraftGet (ok : bool)
| EvDraftDel (ok : bool).

Record Cloud := mkCloud {
  docs : gmap string SavedDesign.t;      (* collection(db, 'designs') *)
  objects : gmap string string;          (* Firebase Storage, by path *)
  draft : option AutoSaveState.t;        (* idb-keyval, under DRAFT_KEY *)
  log : list Event                       (* calls issued so far, oldest first *)
}.

Definition setDocs (v : gmap string SavedDesign.t) (c : Cloud) : Cloud :=
  mkCloud v (objects c) (draft c) (log c).
Definition setObjects (v : gmap string string) (c : Cloud) : Cloud :=
  mkCloud (docs c) v (draft c) (log c).
Definition setDraftSlot (v : option AutoSaveState.t) (c : Cloud) : Cloud :=
  mkCloud (docs c) (objects c) v (log c).
Definition emit (e : Event) (c : Cloud) : Cloud :=
  mkCloud (docs c) (objects c) (draft c) (log c ++ [e]).

(** The faults of the collaborators: each oracle sees the cloud (and with it
    the whole history of calls) at the time of the call. *)
Record Env := mkEnv {
  uploadString_throws : Cloud -> string -> bool;
  downloadURL : Cloud -> string -> option string;   (* [None]: the call throws *)
  deleteObject_throws : Cloud -> string -> bool;    (* an error other than not-found *)
  setDoc_throws : Cloud -> string -> bool;
  getDoc_throws : Cloud -> string -> bool;
  deleteDoc_throws : Cloud -> string -> bool;
  getDocs_throws : Cloud -> string -> bool;
  idb_throws : Cloud -> bool
}.

(** *** Promises: state and exceptions *)

Inductive Res (A : Type) :=
| Ok (a : A)
| Throw (e : Exn).
Arguments Ok {A} a.
Arguments Throw {A} e.

Definition M (A : Type) : Type := Cloud -> Cloud * Res A.

Definition ret {A} (a : A) : M A := fun c => (c, Ok a).

Definition throw {A} (e : Exn) : M A := fun c => (c, Throw e).

Definition bind {A B} (m : M A) (k : A -> M B) : M B :=
  fun c =>
    match m c with
    | (c1, Ok a) => k a c1
    | (c1, Throw e) => (c1, Throw e)
    end.

(** [try { m } catch (e) { h e }]: what [m] did before it threw stays done. *)
Definition tryCatch {A} (m : M A) (h : Exn -> M A) : M A :=
  fun c =>
    match m c with
    | (c1, Ok a) => (c1, Ok a)
    | (c1, Throw e) => h e c1
    end.

Declare Scope promise_scope.
Delimit Scope promise_scope with promise.
Notation "'await' x <- m ;; k" := (bind m (fun x => k))
  (at level 100, x name, m at next level, right associativity) : promise_scope.
Local Open Scope promise_scope.

(** [Promise.all(ps)] over promises that were all started, in the order of
    the list: every one of them runs, whether or not an earlier one rejects;
    the join resolves with all the values or rejects with the first
    rejection. *)
Fixpoint promiseAll {A} (ps : list (M A)) : M (list A) :=
  fun c =>
    match ps with
    | [] => (c, Ok [])
    | p :: ps' =>
        let '(c1, r) := p c in
        let '(c2, rs) := promiseAll ps' c1 in
        (c2, match r, rs with
             | Ok a, Ok l => Ok (a :: l)
             | Throw e, _ => Throw e
             | Ok _, Throw e => Throw e
             end)
    end.

Definition value_of {A} (x : Cloud * Res A) : Res A := snd x.
Definition cloud_of {A} (x : Cloud * Res A) : Cloud := fst x.

(** ** services/storageService.ts *)

Module storageService.
Section WithEnv.

Variable env : Env.

(** *** The SDK calls *)

Definition uploadString (path data : string) : M unit :=
fun c =>
  if uploadString_throws env c path
  then (emit (EvUploadString path data false) c, Throw (Error "storage/unknown"))
  else (setObjects (<[path := data]> (objects c))
          (emit (EvUploadString path data true) c), Ok tt).

Definition getDownloadURL (path : string) : M string :=
fun c =>
  match downloadURL env c path with
  | Some url => (emit (EvGetDownloadURL path (Some url)) c, Ok url)
  | None => (emit (EvGetDownloadURL path None) c, Throw (Error "storage/unknown"))
  end.

Definition deleteObject (path : string) : M unit :=
fun c =>
  if deleteObject_throws env c path
  then let e := Error "storage/unknown" in
       (emit (EvDeleteObject path (Some e)) c, Throw e)
  else match objects c !! path with
       | None => (emit (EvDeleteObject path (Some ObjectNotFound)) c,
                  Throw ObjectNotFound)
       | Some _ => (setObjects (delete path (objects c))
                      (emit (EvDeleteObject path None) c), Ok tt)
       end.

Definition setDoc (id : string) (d : SavedDesign.t) : M unit :=
fun c =>
  if setDoc_throws env c id
  then (emit (EvSetDoc id d false) c, Throw (Error "firestore"))
  else (setDocs (<[id := d]> (docs c)) (emit (EvSetDoc id d true) c), Ok tt).

(** [getDoc]: the snapshot is the record, or nothing when
  [docSnap.exists()] is false. *)
Definition getDoc (id : string) : M (option SavedDesign.t) :=
fun c =>
  if getDoc_throws env c id
  then (emit (EvGetDoc id false) c, Throw (Error "firestore"))
  else (emit (EvGetDoc id true) c, Ok (docs c !! id)).

Definition deleteDoc (id : string) : M unit :=
fun c =>
  if deleteDoc_throws env c id
  then (emit (EvDeleteDoc id false) c, Throw (Error "firestore"))
  else (setDocs (delete id (docs c)) (emit (EvDeleteDoc id true) c), Ok tt).

(** [getDocs(query(designsRef, where('userId', '==', userId)))]; the store
  gives no order, the one of [map_to_list] stands for it. *)
Definition getDocs (userId : string) : M (list SavedDesign.t) :=
fun c =>
  if getDocs_throws env c userId
  then (emit (EvGetDocs userId false) c, Throw (Error "firestore"))
  else (emit (EvGetDocs userId true) c,
        Ok (filter (fun d => SavedDesign.userId d = Some userId)
              (snd <$> map_to_list (docs c)))).

Definition idbSet (state : AutoSaveState.t) : M unit :=
fun c =>
  if idb_throws env c then (emit (EvDraftSet false) c, Throw (Error "idb"))
  else (setDraftSlot (Some state) (emit (EvDraftSet true) c), Ok tt).

Definition idbGet : M (option AutoSaveState.t) :=
fun c =>
  if idb_throws env c then (emit (EvDraftGet false) c, Throw (Error "idb"))
  else (emit (EvDraftGet true) c, Ok (draft c)).

Definition idbDel : M unit :=
fun c =>
  if idb_throws env c then (emit (EvDraftDel false) c, Throw (Error "idb"))
  else (setDraftSlot None (emit (EvDraftDel true) c), Ok tt).

(** *** The service *)

Definition uploadImageToStorage (path imageString : string) : M string :=
if Js.isEmpty imageString || Js.startsWith "http" imageString
then ret imageString
else
  tryCatch
    (await _ <- uploadString path imageString ;;
     await downloadUrl <- getDownloadURL path ;;
     ret downloadUrl)
    (fun _ => throw (Error "Failed to upload image to cloud storage")).

(** [designs.sort((a, b) => b.timestamp - a.timestamp)]: newest first, and
  stable. *)
Fixpoint insertNewestFirst (x : SavedDesign.t) (l : list SavedDesign.t)
: list SavedDesign.t :=
match l with
| [] => [x]
| y :: l' =>
    if (SavedDesign.timestamp x <? SavedDesign.timestamp y)%Z
    then y :: insertNewestFirst x l'
    else x :: y :: l'
end.

Definition sortNewestFirst (l : list SavedDesign.t) : list SavedDesign.t :=
foldr insertNewestFirst [] l.

Definition getSavedDesigns (userId : option string) : M (list SavedDesign.t) :=
match userId with
| None => ret []
| Some u =>
    if Js.isEmpty u then ret []
    else
      tryCatch
        (await designs <- getDocs u ;;
         ret (sortNewestFirst designs))
        (fun _ => ret [])
end.

Definition originalPath (userId id : string) : string :=
"users/" +:+ userId +:+ "/" +:+ id +:+ "/original.png".
Definition generatedPath (userId id : string) : string :=
"users/" +:+ userId +:+ "/" +:+ id +:+ "/generated.png".
Definition iterationPath (userId id iterId : string) : string :=
"users/" +:+ userId +:+ "/" +:+ id +:+ "/iterations/" +:+ iterId +:+ ".png".

Definition uploadIteration (userId id : string) (iter : DesignIteration.t)
: M DesignIteration.t :=
await iterUrl <- uploadImageToStorage
                   (iterationPath userId id (DesignIteration.id iter))
                   (DesignIteration.image iter) ;;
ret (DesignIteration.mk (DesignIteration.id iter) (DesignIteration.prompt iter)
       iterUrl (DesignIteration.timestamp iter)).

Definition saveDesign (design : SavedDesign.t) (userId : string) : M bool :=
tryCatch
  (await originalUrl <- uploadImageToStorage
                          (originalPath userId (SavedDesign.id design))
                          (SavedDesign.originalImage design) ;;
   await generatedUrl <- uploadImageToStorage
                           (generatedPath userId (SavedDesign.id design))
                           (SavedDesign.generatedImage design) ;;
   await processedIterations <-
     match SavedDesign.iterations design with
     | Some ((_ :: _) as iterations) =>
         promiseAll (map (uploadIteration userId (SavedDesign.id design)) iterations)
     | _ => ret []
     end ;;
   let designToSave :=
     SavedDesign.mk (SavedDesign.id design) (Some userId)
       (SavedDesign.timestamp design) originalUrl generatedUrl
       (SavedDesign.prompt design) (Some processedIterations) in
   await _ <- setDoc (SavedDesign.id design) designToSave ;;
   ret true)
  (fun _ => ret false).

(** [safeDelete]: the [catch] swallows every rejection (and prints the
  ones that are not 'object-not-found'). *)
Definition safeDelete (path : string) : M unit :=
tryCatch (deleteObject path) (fun _ => ret tt).

Definition uploaded (image : string) : bool :=
negb (Js.isEmpty image) && Js.includes "firebasestorage" image.

Definition deletePromises (design : SavedDesign.t) (id userId : string)
: list (M unit) :=
(if uploaded (SavedDesign.originalImage design)
 then [safeDelete (originalPath userId id)] else [])
++ (if uploaded (SavedDesign.generatedImage design)
    then [safeDelete (generatedPath userId id)] else [])
++ match SavedDesign.iterations design with
   | Some iterations =>
       flat_map (fun iter =>
                   if uploaded (DesignIteration.image iter)
                   then [safeDelete (iterationPath userId id (DesignIteration.id iter))]
                   else [])
         iterations
   | None => []
   end.

Definition deleteDesign (id userId : string) : M (list SavedDesign.t) :=
tryCatch
  (await docSnap <- getDoc id ;;
   await _ <- match docSnap with
              | Some design =>
                  await _ <- promiseAll (deletePromises design id userId) ;;
                  ret tt
              | None => ret tt
              end ;;
   await _ <- deleteDoc id ;;
   getSavedDesigns (Some userId))
  (fun _ => ret []).

Definition saveDraft (state : AutoSaveState.t) : M unit :=
tryCatch (idbSet state) (fun _ => ret tt).

Definition getDraft : M (option AutoSaveState.t) :=
tryCatch idbGet (fun _ => ret None).

Definition clearDraft : M unit :=
tryCatch idbDel (fun _ => ret tt).

End WithEnv.
End storageService.

(** ** App.tsx *)

Module App.

(** The state variables of [App] ([isDragging] and [showAuthModal], which
    only drive the display, are left out); [prompt] is the live value of
    the [useUndoRedo] hook. *)
Record AppModel := mkApp {
  appState : AppState;
  selectedFile : option File.t;
  imagePreview : option string;
  originalImageRef : option string;
  generatedImage : option string;
  pastIterations : list DesignIteration.t;
  lastAutoSave : option Z;
  promptHistory : UndoRedo.t;
  errorMsg : option string;
  savedDesigns : list SavedDesign.t;
  isSaving : bool;
  showSaveDialog : bool
}.

Definition prompt (s : AppModel) : string := UndoRedo.value (promptHistory s).

Definition setAppState v s :=
  mkApp v (selectedFile s) (imagePreview s) (originalImageRef s) (generatedImage s)
    (pastIterations s) (lastAutoSave s) (promptHistory s) (errorMsg s)
    (savedDesigns s) (isSaving s) (showSaveDialog s).
Definition setSelectedFile v s :=
  mkApp (appState s) v (imagePreview s) (originalImageRef s) (generatedImage s)
    (pastIterations s) (lastAutoSave s) (promptHistory s) (errorMsg s)
    (savedDesigns s) (isSaving s) (showSaveDialog s).
Definition setImagePreview v s :=
  mkApp (appState s) (selectedFile s) v (originalImageRef s) (generatedImage s)
    (pastIterations s) (lastAutoSave s) (promptHistory s) (errorMsg s)
    (savedDesigns s) (isSaving s) (showSaveDialog s).
Definition setOriginalImageRef v s :=
  mkApp (appState s) (selectedFile s) (imagePreview s) v (generatedImage s)
    (pastIterations s) (lastAutoSave s) (promptHistory s) (errorMsg s)
    (savedDesigns s) (isSaving s) (showSaveDialog s).
Definition setGeneratedImage v s :=
  mkApp (appState s) (selectedFile s) (imagePreview s) (originalImageRef s) v
    (pastIterations s) (lastAutoSave s) (promptHistory s) (errorMsg s)
    (savedDesigns s) (isSaving s) (showSaveDialog s).
Definition setPastIterations v s :=
  mkApp (appState s) (selectedFile s) (imagePreview s) (originalImageRef s)
    (generatedImage s) v (lastAutoSave s) (promptHistory s) (errorMsg s)
    (savedDesigns s) (isSaving s) (showSaveDialog s).
Definition setLastAutoSave v s :=
  mkApp (appState s) (selectedFile s) (imagePreview s) (originalImageRef s)
    (generatedImage s) (pastIterations s) v (promptHistory s) (errorMsg s)
    (savedDesigns s) (isSaving s) (showSaveDialog s).
Definition setPromptHistory v s :=
  mkApp (appState s) (selectedFile s) (imagePreview s) (originalImageRef s)
    (generatedImage s) (pastIterations s) (lastAutoSave s) v (errorMsg s)
    (savedDesigns s) (isSaving s) (showSaveDialog s).
Definition setErrorMsg v s :=
  mkApp (appState s) (selectedFile s) (imagePreview s) (originalImageRef s)
    (generatedImage s) (pastIterations s) (lastAutoSave s) (promptHistory s) v
    (savedDesigns s) (isSaving s) (showSaveDialog s).
Definition setSavedDesigns v s :=
  mkApp (appState s) (selectedFile s) (imagePreview s) (originalImageRef s)
    (generatedImage s) (pastIterations s) (lastAutoSave s) (promptHistory s)
    (errorMsg s) v (isSaving s) (showSaveDialog s).
Definition setIsSaving v s :=
  mkApp (appState s) (selectedFile s) (imagePreview s) (originalImageRef s)
    (generatedImage s) (pastIterations s) (lastAutoSave s) (promptHistory s)
    (errorMsg s) (savedDesigns s) v (showSaveDialog s).
Definition setShowSaveDialog v s :=
  mkApp (appState s) (selectedFile s) (imagePreview s) (originalImageRef s)
    (generatedImage s) (pastIterations s) (lastAutoSave s) (promptHistory s)
    (errorMsg s) (savedDesigns s) (isSaving s) v.

(** The hook's [updateValue] (bound to [setPrompt]) and [setAndSave]
    (bound to [setPromptAndSave]). *)
Definition setPrompt (v : string) (s : AppModel) : AppModel :=
  setPromptHistory (UndoRedo.updateValue v (promptHistory s)) s.
Definition setPromptAndSave (v : string) (s : AppModel) : AppModel :=
  setPromptHistory (UndoRedo.setAndSave v (promptHistory s)) s.

(** The state of the first render. *)
Definition initial : AppModel :=
  mkApp IDLE None None None None [] None (UndoRedo.init "") None [] false false.

(** *** Selecting a root image *)

Definition fileAccepted (file : File.t) : bool :=
  Js.startsWith "image/" (File.type file) && negb (10 * 1024 * 1024 <? File.size file).

(** [processFile], up to [reader.readAsDataURL(file)]. *)
Definition processFile (file : File.t) (s : AppModel) : AppModel :=
  if negb (Js.startsWith "image/" (File.type file)) then
    setErrorMsg (Some "Please upload a valid image file (JPG, PNG).") s
  else if 10 * 1024 * 1024 <? File.size file then
    setErrorMsg (Some "Image size should be less than 10MB.") s
  else
    setGeneratedImage None (setErrorMsg None (setSelectedFile (Some file) s)).

(** [reader.onload], with the data URL the reader produced. *)
Definition processFile_onload (result : string) (s : AppModel) : AppModel :=
  setPastIterations [] (setOriginalImageRef (Some result) (setImagePreview (Some result) s)).

(** A file selected and read to its end. *)
Definition selectFile (file : File.t) (s : AppModel) : AppModel :=
  if fileAccepted file
  then processFile_onload (File.dataURL file) (processFile file s)
  else processFile file s.

(** *** Generation *)

(** The call [generateLandscapeVisualization(inputSource, prompt)]. *)
Record GenRequest := mkReq {
  inputSource : File.t + string;
  instruction : string
}.

(** [handleGenerate] up to its [await]: nothing when the guard returns,
    else the state with its two updates and the call that was issued.
    [selectedFile || imagePreview!] is a string only when there is no file,
    and then the guard has seen that [imagePreview] is set. *)
Definition handleGenerate (s : AppModel) : option (AppModel * GenRequest) :=
  if (Js.isNull (selectedFile s) && negb (Js.truthy (imagePreview s)))
     || Js.isEmpty (Js.trim (prompt s))
  then None
  else
    let inputSource :=
      match selectedFile s with
      | Some file => inl file
      | None => inr (default "" (imagePreview s))
      end in
    Some (setErrorMsg None (setAppState LOADING s), mkReq inputSource (prompt s)).

(** What the main area renders: the loading screen, the comparison of the
    result, or the form with the upload zone, the prompt and the
    "Generate Vision" button. *)
Inductive View := LoadingView | ResultView | FormView.

Definition view (s : AppModel) : View :=
  match appState s with
  | LOADING => LoadingView
  | SUCCESS =>
      if Js.truthy (generatedImage s) && Js.truthy (imagePreview s)
      then ResultView else FormView
  | _ => FormView
  end.

(** A click on "Generate Vision": the button is there in the form only,
    and is disabled under the very condition of the guard of
    [handleGenerate]. *)
Definition clickGenerate (s : AppModel) : option (AppModel * GenRequest) :=
  match view s with
  | FormView =>
      if (Js.isNull (selectedFile s) && negb (Js.truthy (imagePreview s)))
         || Js.isEmpty (Js.trim (prompt s))
      then None
      else handleGenerate s
  | _ => None
  end.

Section WithEnv.

Variable env : Env.

(** [handleGenerate] after its [await]: [snapshot] is the state the
    handler closed over, [s] the state the updates land on, [result] the
    generated image or the message of the error. *)
Definition handleGenerate_settled (snapshot : AppModel) (now1 now2 : Z)
    (result : string + option string) (s : AppModel) : M AppModel :=
  match result with
  | inl resultImage =>
      await _ <- storageService.saveDraft env
                   (AutoSaveState.mk now1 (prompt snapshot) (imagePreview snapshot)
                      (Some resultImage) (pastIterations snapshot)
                      (originalImageRef snapshot) SUCCESS) ;;
      ret (setLastAutoSave (Some now2)
             (setAppState SUCCESS (setGeneratedImage (Some resultImage) s)))
  | inr message =>
      ret (setAppState ERROR
             (setErrorMsg
                (Js.orElse message
                   (Some "An unexpected error occurred while generating the vision."))
                s))
  end.

Definition handleReset (s : AppModel) : M AppModel :=
  let s :=
    setLastAutoSave None
      (setErrorMsg None
         (setPromptAndSave ""
            (setPastIterations []
               (setGeneratedImage None
                  (setOriginalImageRef None
                     (setImagePreview None
                        (setSelectedFile None
                           (setAppState IDLE s)))))))) in
  await _ <- storageService.clearDraft env ;;
  ret s.

End WithEnv.

Definition handleRetry (s : AppModel) : AppModel :=
  setAppState IDLE (setGeneratedImage None s).

(** [handleRefine]; [uuid] is [crypto.randomUUID()] and [now] is
    [Date.now()]. *)
Definition handleRefine (uuid : string) (now : Z) (s : AppModel) : AppModel :=
  match generatedImage s with
  | None => s
  | Some result =>
      if Js.isEmpty result then s
      else
        let iteration := DesignIteration.mk uuid (prompt s) result now in
        setAppState IDLE
          (setPromptAndSave ""
             (setSelectedFile None
                (setGeneratedImage None
                   (setImagePreview (Some result)
                      (setPastIterations (pastIterations s ++ [iteration]) s)))))
  end.

Definition handleCropUpdate (newImage : string) (s : AppModel) : AppModel :=
  setGeneratedImage (Some newImage) s.

(** *** Promotion to a lineage *)

(** The values [confirmSaveDesign] draws: two UUIDs and two clock reads. *)
Record Fresh := mkFresh {
  iterationId : string;
  iterationTime : Z;
  designId : string;
  designTime : Z
}.

(** The [newDesign] that [confirmSaveDesign] builds, or nothing when its
    guard [!generatedImage || !imagePreview || !user] returns. *)
Definition promote (fresh : Fresh) (user : option User.t) (s : AppModel)
  : option SavedDesign.t :=
  match generatedImage s, imagePreview s, user with
  | Some result, Some input, Some u =>
      if Js.isEmpty result || Js.isEmpty input then None
      else
        let currentIteration :=
          DesignIteration.mk (iterationId fresh) (prompt s) result (iterationTime fresh) in
        let allIterations := pastIterations s ++ [currentIteration] in
        Some (SavedDesign.mk (designId fresh) (Some (User.id u)) (designTime fresh)
                (default input (Js.orElse (originalImageRef s) (Some input)))
                result (prompt s) (Some allIterations))
  | _, _, _ => None
  end.

Section WithEnv.

Variable env : Env.

(** [confirmSaveDesign], up to the timer that closes the dialog. *)
Definition confirmSaveDesign (fresh : Fresh) (user : option User.t) (s : AppModel)
  : M AppModel :=
  match promote fresh user s, user with
  | Some newDesign, Some u =>
      let s := setIsSaving true s in
      await success <- storageService.saveDesign env newDesign (User.id u) ;;
      if success : bool then
        await updatedDesigns <- storageService.getSavedDesigns env (Some (User.id u)) ;;
        await _ <- storageService.clearDraft env ;;
        ret (setLastAutoSave None (setSavedDesigns updatedDesigns s))
      else
        ret (setErrorMsg (Some "Failed to save. Storage limit reached.")
               (setShowSaveDialog false (setIsSaving false s)))
  | _, _ => ret s
  end.

(** The callback of [setTimeout(..., 500)] after a successful save. *)
Definition confirmSaveDesign_timer (s : AppModel) : AppModel :=
  setShowSaveDialog false (setIsSaving false s).

Definition handleDeleteDesign (user : option User.t) (confirmed : bool)
    (id : string) (s : AppModel) : M AppModel :=
  match user with
  | None => ret s
  | Some u =>
      if confirmed then
        await updated <- storageService.deleteDesign env id (User.id u) ;;
        ret (setSavedDesigns updated s)
      else ret s
  end.

End WithEnv.

(** *** Reconstruction of a session from a lineage *)

(** [iterations.slice(0, -1)]. *)
Definition slice_0_minus1 {A} (l : list A) : list A :=
  take (length l - 1)%nat l.

Definition handleLoadDesign (design : SavedDesign.t) (s : AppModel) : AppModel :=
  let s := setOriginalImageRef (Some (SavedDesign.originalImage design)) s in
  let iterations := default [] (SavedDesign.iterations design) in
  let iterations :=
    if (length iterations =? 0)%nat
       && negb (Js.isEmpty (SavedDesign.generatedImage design))
    then [DesignIteration.mk "legacy" (SavedDesign.prompt design)
            (SavedDesign.generatedImage design) (SavedDesign.timestamp design)]
    else iterations in
  let s :=
    match last iterations with
    | Some lastIteration =>
        let previousIterations := slice_0_minus1 iterations in
        let s := setPastIterations previousIterations s in
        let inputImage :=
          match last previousIterations with
          | Some previous => DesignIteration.image previous
          | None => SavedDesign.originalImage design
          end in
        setPromptAndSave (DesignIteration.prompt lastIteration)
          (setGeneratedImage (Some (DesignIteration.image lastIteration))
             (setImagePreview (Some inputImage) s))
    | None =>
        setPromptAndSave (SavedDesign.prompt design)
          (setGeneratedImage (Some (SavedDesign.generatedImage design))
             (setImagePreview (Some (SavedDesign.originalImage design)) s))
    end in
  setAppState SUCCESS (setSelectedFile None s).

Definition handleEditDesign (design : SavedDesign.t) (s : AppModel) : AppModel :=
  let s := setOriginalImageRef (Some (SavedDesign.originalImage design)) s in
  let s :=
    match SavedDesign.iterations design ≫= last with
    | Some lastIteration =>
        let previousIterations :=
          slice_0_minus1 (default [] (SavedDesign.iterations design)) in
        let inputImage :=
          match last previousIterations with
          | Some previous => DesignIteration.image previous
          | None => SavedDesign.originalImage design
          end in
        setPromptAndSave (DesignIteration.prompt lastIteration)
          (setImagePreview (Some inputImage)
             (setPastIterations previousIterations s))
    | None =>
        setPastIterations []
          (setPromptAndSave (SavedDesign.prompt design)
             (setImagePreview (Some (SavedDesign.originalImage design)) s))
    end in
  setAppState IDLE (setSelectedFile None (setGeneratedImage None s)).

End App.

(** ** Properties of the lineage engine: what they are stated with *)

Module Lineage.
Import App.

(** The working image is the root while no step is completed, and the
    image of the last completed step afterwards. *)
Definition workingImageInvariant (s : AppModel) : Prop :=
  imagePreview s =
  match last (pastIterations s) with
  | None => originalImageRef s
  | Some step => Some (DesignIteration.image step)
  end.

#[global] Instance workingImageInvariant_dec s : Decision (workingImageInvariant s).
Proof. unfold workingImageInvariant. apply _. Defined.

(** [iterations || []]. *)
Definition iterationsOf (d : SavedDesign.t) : list DesignIteration.t :=
  default [] (SavedDesign.iterations d).

(** A session that failed to generate: the form is back on screen with the
    error above it, the input image and the prompt are still there. *)
Definition failedSession : AppModel :=
  mkApp ERROR None (Some "data:image/png;base64,AAAA")
    (Some "data:image/png;base64,AAAA") None [] None
    (UndoRedo.mk "add a pool" "add a pool" [""] []) (Some "Quota exceeded")
    [] false false.

(** A session one step into its lineage. *)
Definition stepA : DesignIteration.t :=
  DesignIteration.mk "a" "add a pool" "data:image/png;base64,BBBB" 1000.

Definition refinedSession : AppModel :=
  mkApp IDLE None (Some "data:image/png;base64,BBBB")
    (Some "data:image/png;base64,AAAA") None [stepA] None
    (UndoRedo.mk "" "" ["add a pool"] []) None [] false false.

(** The same session with a result on screen. *)
Definition succeededSession : AppModel :=
  mkApp SUCCESS None (Some "data:image/png;base64,BBBB")
    (Some "data:image/png;base64,AAAA") (Some "data:image/png;base64,CCCC")
    [stepA] None (UndoRedo.mk "add a hedge" "add a hedge" [""; "add a pool"] [])
    None [] false false.

(** A stored record with no history and no result (the case the fallback
    of [handleLoadDesign] is written for). *)
Definition degenerateDesign : SavedDesign.t :=
  SavedDesign.mk "d0" (Some "u1") 500 "https://firebasestorage.example/o/root.png"
    "" "a lawn" None.

(** A record saved before the history existed. *)
Definition legacyDesign : SavedDesign.t :=
  SavedDesign.mk "d1" (Some "u1") 500 "https://firebasestorage.example/o/root.png"
    "https://firebasestorage.example/o/gen.png" "a lawn" (Some []).

Definition stepB : DesignIteration.t :=
  DesignIteration.mk "b" "add a hedge" "data:image/png;base64,CCCC" 2000.

Definition twoStepDesign : SavedDesign.t :=
  SavedDesign.mk "d2" None 3000 "data:image/png;base64,AAAA"
    "data:image/png;base64,CCCC" "add a hedge" (Some [stepA; stepB]).

Definition someUser : User.t := User.mk "u1" "Ada" "ada@example.org".

Definition someFresh : Fresh := mkFresh "it-9" 4000 "d-9" 4001.

End Lineage.

(** ** Properties of the storage service: what they are stated with *)

Module Sync.

(** The two tests the service itself applies to an artifact reference:
    [isLocator] is the one of [uploadImageToStorage] (a reference that is
    kept as it is), [isInline] its contrary on the references that are set
    (the ones [uploadString] is called for). *)
Definition isLocator (image : string) : bool := Js.startsWith "http" image.
Definition isInline (image : string) : bool :=
  negb (Js.isEmpty image) && negb (Js.startsWith "http" image).

Definition allInline (d : SavedDesign.t) : bool :=
  isInline (SavedDesign.originalImage d)
  && isInline (SavedDesign.generatedImage d)
  && forallb (fun it => isInline (DesignIteration.image it)) (Lineage.iterationsOf d).

Definition allLocators (d : SavedDesign.t) : bool :=
  isLocator (SavedDesign.originalImage d)
  && isLocator (SavedDesign.generatedImage d)
  && forallb (fun it => isLocator (DesignIteration.image it)) (Lineage.iterationsOf d).

(** Classes of events. *)
Definition isUploadCall (e : Event) : bool :=
  match e with EvUploadString _ _ _ => true | _ => false end.
Definition isArtifactEvent (e : Event) : bool :=
  match e with EvUploadString _ _ _ | EvGetDownloadURL _ _ => true | _ => false end.
Definition isFailedUpload (e : Event) : bool :=
  match e with
  | EvUploadString _ _ false | EvGetDownloadURL _ None => true
  | _ => false
  end.
Definition isMetadataWrite (e : Event) : bool :=
  match e with EvSetDoc _ _ _ => true | _ => false end.
Definition isDeleteDocOf (id : string) (e : Event) : bool :=
  match e with EvDeleteDoc i _ => bool_decide (i = id) | _ => false end.

(** The records handed to [setDoc], in order. *)
Definition writtenRecords (evs : list Event) : list SavedDesign.t :=
  omap (fun e => match e with EvSetDoc _ d _ => Some d | _ => None end) evs.

Definition count (p : Event -> bool) (evs : list Event) : nat :=
  length (filter (fun e => p e = true) evs).

(** The calls a promise issued when run from the cloud [c]. *)
Definition eventsOf {A} (m : M A) (c : Cloud) : list Event :=
  drop (length (log c)) (log (cloud_of (m c))).

Definition emptyCloud : Cloud := mkCloud ∅ ∅ None [].

(** A backend on which nothing throws. *)
Definition reliable : Env :=
  mkEnv (fun _ _ => false)
    (fun _ path => Some ("https://firebasestorage.googleapis.com/v0/b/app/o/" +:+ path))
    (fun _ _ => false) (fun _ _ => false) (fun _ _ => false) (fun _ _ => false)
    (fun _ _ => false) (fun _ => false).

(** A backend whose storage rejects the upload of the second iteration. *)
Definition quotaHit : Env :=
  mkEnv (fun _ path => bool_decide (path = "users/u1/d2/iterations/b.png"))
    (downloadURL reliable)
    (fun _ _ => false) (fun _ _ => false) (fun _ _ => false) (fun _ _ => false)
    (fun _ _ => false) (fun _ => false).

(** Backends whose Firestore throws on [getDoc], on [deleteDoc] and on
    [getDocs]. *)
Definition getDocDown : Env :=
  mkEnv (fun _ _ => false) (downloadURL reliable) (fun _ _ => false)
    (fun _ _ => false) (fun _ _ => true) (fun _ _ => false) (fun _ _ => false)
    (fun _ => false).
Definition deleteDocDown : Env :=
  mkEnv (fun _ _ => false) (downloadURL reliable) (fun _ _ => false)
    (fun _ _ => false) (fun _ _ => false) (fun _ _ => true) (fun _ _ => false)
    (fun _ => false).
Definition getDocsDown : Env :=
  mkEnv (fun _ _ => false) (downloadURL reliable) (fun _ _ => false)
    (fun _ _ => false) (fun _ _ => false) (fun _ _ => false) (fun _ _ => true)
    (fun _ => false).

(** A stored lineage whose original was uploaded and whose result is
    still inline, and a cloud that holds it. *)
Definition halfUploaded : SavedDesign.t :=
  SavedDesign.mk "d3" (Some "u1") 700
    "https://firebasestorage.googleapis.com/v0/b/app/o/users/u1/d3/original.png"
    "data:image/png;base64,CCCC" "add a hedge" (Some []).



(** A second lineage of the same owner, and a cloud that holds both. *)
Definition otherDesign : SavedDesign.t :=
  SavedDesign.mk "d4" (Some "u1") 900
    "https://firebasestorage.googleapis.com/v0/b/app/o/users/u1/d4/original.png"
    "https://firebasestorage.googleapis.com/v0/b/app/o/users/u1/d4/generated.png"
    "a pergola" (Some []).

Definition cloudWithTwo : Cloud :=
  mkCloud {[ "d3" := halfUploaded; "d4" := otherDesign ]}
    {[ "users/u1/d3/original.png" := "data:image/png;base64,AAAA" ]} None [].

(** What [uploadImageToStorage] answers for the reference [image]: the
    reference itself when it is not inline, a URL given by
    [getDownloadURL] when it is. *)
Definition rewritten (env : Env) (image url : string) : Prop :=
  if isInline image
  then exists c path, downloadURL env c path = Some url
  else url = image.

Definition rewrittenIteration (env : Env) (it it' : DesignIteration.t) : Prop :=
  DesignIteration.id it' = DesignIteration.id it
  /\ DesignIteration.prompt it' = DesignIteration.prompt it
  /\ DesignIteration.timestamp it' = DesignIteration.timestamp it
  /\ rewritten env (DesignIteration.image it) (DesignIteration.image it').

(** The record [saveDesign] hands to [setDoc] for [design]. *)
Definition savedFrom (env : Env) (userId : string) (design d : SavedDesign.t) : Prop :=
  SavedDesign.id d = SavedDesign.id design
  /\ SavedDesign.userId d = Some userId
  /\ SavedDesign.timestamp d = SavedDesign.timestamp design
  /\ SavedDesign.prompt d = SavedDesign.prompt design
  /\ rewritten env (SavedDesign.originalImage design) (SavedDesign.originalImage d)
  /\ rewritten env (SavedDesign.generatedImage design) (SavedDesign.generatedImage d)
  /\ exists its, SavedDesign.iterations d = Some its
                 /\ Forall2 (rewrittenIteration env) (Lineage.iterationsOf design) its.

(** The number of inline references of a lineage. *)
Definition inlineCount (d : SavedDesign.t) : nat :=
  ((if isInline (SavedDesign.originalImage d) then 1 else 0)
   + ((if isInline (SavedDesign.generatedImage d) then 1 else 0)
      + sum_list (map (fun it => if isInline (DesignIteration.image it) then 1 else 0)
                    (Lineage.iterationsOf d))))%nat.

(** A run [x], started from [c], that only uploaded artifacts: it issued
    the calls [ups], left the metadata store alone, and ended either well,
    after [n] uploads none of which failed, with a value in [P], or with a
    rejection after a failed upload. *)
Definition UploadsOnly {A} (c : Cloud) (x : Cloud * Res A) (n : nat)
    (P : A -> Prop) (ups : list Event) : Prop :=
  log (cloud_of x) = log c ++ ups
  /\ docs (cloud_of x) = docs c
  /\ forallb isArtifactEvent ups = true
  /\ match value_of x with
     | Ok a => existsb isFailedUpload ups = false /\ count isUploadCall ups = n /\ P a
     | Throw _ => existsb isFailedUpload ups = true
     end.

(** The calls of one successful [uploadImageToStorage]: none for a
    reference that is not inline, else the upload of [image] at [path] and
    the request of its download URL, answered [url]. *)
Definition uploadEvents (path image url : string) : list Event :=
  if isInline image
  then [EvUploadString path image true; EvGetDownloadURL path (Some url)]
  else [].

(** The calls of the fan-out over the iterations, when every one of them
    went through: [processed] are the iterations it answers. *)
Definition iterationEvents (userId id : string)
    (iterations processed : list DesignIteration.t) : list Event :=
  concat (zip_with
            (fun it it' =>
               uploadEvents (storageService.iterationPath userId id (DesignIteration.id it))
                 (DesignIteration.image it) (DesignIteration.image it'))
            iterations processed).

(** An iteration with its image replaced. *)
Definition withImage (url : string) (it : DesignIteration.t) : DesignIteration.t :=
  DesignIteration.mk (DesignIteration.id it) (DesignIteration.prompt it) url
    (DesignIteration.timestamp it).



(** The storage paths [deleteDesign] asks to delete for a record. *)
Definition deletePaths (design : SavedDesign.t) (id userId : string) : list string :=
  (if storageService.uploaded (SavedDesign.originalImage design)
   then [storageService.originalPath userId id] else [])
  ++ (if storageService.uploaded (SavedDesign.generatedImage design)
      then [storageService.generatedPath userId id] else [])
  ++ flat_map (fun iter =>
                 if storageService.uploaded (DesignIteration.image iter)
                 then [storageService.iterationPath userId id (DesignIteration.id iter)]
                 else [])
       (Lineage.iterationsOf design).

(** A call to [deleteObject] for one of the paths [paths]. *)
Definition deletesAmong (paths : list string) (e : Event) : Prop :=
  exists path outcome, e = EvDeleteObject path outcome /\ path ∈ paths.

End Sync.

(** ** More of the code: strings *)

Module JsString.

(** [s] without the prefix [p], when it starts with it. *)
Fixpoint stripPrefix (p s : string) : option string :=
  match p, s with
  | EmptyString, _ => Some s
  | String a p', String b s' => if Ascii.eqb a b then stripPrefix p' s' else None
  | String _ _, EmptyString => None
  end.

(** What precedes and what follows the first [c] of [s]. *)
Fixpoint breakAt (c : ascii) (s : string) : option (string * string) :=
  match s with
  | EmptyString => None
  | String a s' =>
      if Ascii.eqb a c then Some (EmptyString, s')
      else match breakAt c s' with
           | Some (before, after) => Some (String a before, after)
           | None => None
           end
  end.

(** [s.split(c)[0]]. *)
Definition splitHead (c : ascii) (s : string) : string :=
  match breakAt c s with
  | Some (before, _) => before
  | None => s
  end.

(** [s.split(c)[1]]: undefined when [c] does not occur. *)
Definition splitSecond (c : ascii) (s : string) : option string :=
  match breakAt c s with
  | Some (_, after) => Some (splitHead c after)
  | None => None
  end.

(** The line terminators among the code units below 256: LF and CR; the
    [.] of a regular expression matches every other code unit. *)
Definition isLineTerminator (c : ascii) : bool :=
  let n := nat_of_ascii c in Nat.eqb n 10 || Nat.eqb n 13.

Fixpoint hasLineTerminator (s : string) : bool :=
  match s with
  | EmptyString => false
  | String c s' => isLineTerminator c || hasLineTerminator s'
  end.

Fixpoint contains (c : ascii) (s : string) : bool :=
  match s with
  | EmptyString => false
  | String a s' => Ascii.eqb a c || contains c s'
  end.

(** [toLowerCase] on the code units below 256: A-Z, and the capital
    letters of Latin-1 (192 to 222, the multiplication sign 215 apart). *)
Definition toLowerCaseUnit (c : ascii) : ascii :=
  let n := nat_of_ascii c in
  if (Nat.leb 65 n && Nat.leb n 90)
     || (Nat.leb 192 n && Nat.leb n 222 && negb (Nat.eqb n 215))
  then ascii_of_nat (n + 32) else c.

Fixpoint toLowerCase (s : string) : string :=
  match s with
  | EmptyString => EmptyString
  | String c s' => String (toLowerCaseUnit c) (toLowerCase s')
  end.

(** [s.padStart(2, '0')]. *)
Definition padStart2 (s : string) : string :=
  match String.length s with
  | 0%nat => "00"
  | 1%nat => "0" +:+ s
  | _ => s
  end.

Definition newline : string := String (ascii_of_nat 10) EmptyString.

End JsString.

(** ** More of App.tsx: the effects and the inline callbacks *)

Module AppEffects.
Import App.

(** The "Clear image" button over the preview:
    [setImagePreview(null); setOriginalImageRef(null); setSelectedFile(null);
    setGeneratedImage(null)]. *)
Definition clearImage (s : AppModel) : AppModel :=
  setGeneratedImage None
    (setSelectedFile None (setOriginalImageRef None (setImagePreview None s))).

(** The button is in the form, over a preview, and only while
    [pastIterations.length === 0]. *)
Definition clickClearImage (s : AppModel) : option AppModel :=
  match view s with
  | FormView =>
      if Js.truthy (imagePreview s) && (length (pastIterations s) =? 0)%nat
      then Some (clearImage s) else None
  | _ => None
  end.

(** The upload zone (click or drop) replaces the preview: it is in the
    form while [!imagePreview]. *)
Definition clickUpload (file : File.t) (s : AppModel) : option AppModel :=
  match view s with
  | FormView => if Js.truthy (imagePreview s) then None else Some (selectFile file s)
  | _ => None
  end.

(** The buttons of [ResultComparison], which is rendered in the result view
    only. *)
Definition clickRefine (uuid : string) (now : Z) (s : AppModel) : option AppModel :=
  match view s with
  | ResultView => Some (handleRefine uuid now s)
  | _ => None
  end.

Definition clickRetry (s : AppModel) : option AppModel :=
  match view s with
  | ResultView => Some (handleRetry s)
  | _ => None
  end.

Section WithEnv.

Variable env : Env.

(** The callback of the auto-save interval (every 30 s); [now1] and [now2]
    are its two reads of [Date.now()]. *)
Definition autoSave (now1 now2 : Z) (s : AppModel) : M AppModel :=
  if Js.truthy (imagePreview s) || negb (Js.isEmpty (prompt s)) then
    let currentState :=
      AutoSaveState.mk now1 (prompt s) (imagePreview s) (generatedImage s)
        (pastIterations s) (originalImageRef s) (appState s) in
    await _ <- storageService.saveDraft env currentState ;;
    ret (setLastAutoSave (Some now2) s)
  else ret s.

(** What [init] restores from a draft. *)
Definition restoreDraft (draft : AutoSaveState.t) (s : AppModel) : AppModel :=
  setLastAutoSave (Some (AutoSaveState.timestamp draft))
    (setAppState (AutoSaveState.appState draft)
       (setOriginalImageRef (AutoSaveState.originalImageRef draft)
          (setPastIterations (AutoSaveState.pastIterations draft)
             (setGeneratedImage (AutoSaveState.generatedImage draft)
                (setImagePreview (AutoSaveState.imagePreview draft)
                   (setPromptAndSave (AutoSaveState.prompt draft) s)))))).

(** [init], the effect run on mount and when the user changes: the saved
    designs of the user, then the draft, restored when it has a timestamp
    (a number that is not 0) and the session is clean.

    [render] is the render the effect closed over: [user], [selectedFile],
    [imagePreview] and [prompt] are read from it, whenever the test runs.
    The setters land on the state of their moment: [whileLoading] is what
    the session's handlers did to the state while [getSavedDesigns] was
    awaited (with nobody signed in [setSavedDesigns([])] runs at once), and
    [whileReading] what they did while [getDraft] was awaited. *)
Definition init (user : option User.t) (render : AppModel)
    (whileLoading whileReading : AppModel -> AppModel) : M AppModel :=
  await s1 <- match user with
              | Some u =>
                  await designs <- storageService.getSavedDesigns env (Some (User.id u)) ;;
                  ret (setSavedDesigns designs (whileLoading render))
              | None => ret (setSavedDesigns [] render)
              end ;;
  await draft <- storageService.getDraft env ;;
  let s2 := whileReading s1 in
  match draft with
  | Some d =>
      if negb (AutoSaveState.timestamp d =? 0)
      then if Js.isNull (selectedFile render) && negb (Js.truthy (imagePreview render))
              && Js.isEmpty (prompt render)
           then ret (restoreDraft d s2)
           else ret s2
      else ret s2
  | None => ret s2
  end.

End WithEnv.

End AppEffects.

(** ** services/geminiService.ts *)

Module geminiService.

(** [{ inlineData: { data, mimeType } }], the image sent to the model;
    [data] is undefined when [fileToPart] finds no comma in what the reader
    gave. *)
Record ImagePart := mkPart {
  mimeType : string;
  data : option string
}.

(** A part of the response: [part.inlineData?.data]. *)
Record ResponsePart := mkResponsePart {
  inlineData : option string
}.

(** The two calls to the outside: [ai.models.generateContent] with the image
    and the text, answering [response.candidates?.[0]?.content?.parts], and
    [urlToBase64] (a [fetch] and a [FileReader]). *)
Record Backend := mkBackend {
  generateContent : ImagePart -> string -> Res (option (list ResponsePart));
  urlToBase64 : string -> Res string
}.

(** [fileToPart]: the reader's result must be a string that is set. *)
Definition fileToPart (file : File.t) : Res ImagePart :=
  if Js.isEmpty (File.dataURL file) then Throw (Error "Failed to read file")
  else Ok (mkPart (File.type file)
             (JsString.splitSecond ","%char (File.dataURL file))).

(** [base64ToPart]: the match of [/^data:([^;]+);base64,(.+)$/].  The
    first group cannot hold a [;], so it is what lies between [data:] and
    the first [;], and must not be empty; [;base64,] must follow; the
    second group is the rest, not empty and free of line terminators. *)
Definition base64ToPart (base64String : string) : Res ImagePart :=
  match JsString.stripPrefix "data:" base64String with
  | Some rest =>
      match JsString.breakAt ";"%char rest with
      | Some (mime, after) =>
          match JsString.stripPrefix "base64," after with
          | Some payload =>
              if Js.isEmpty mime || Js.isEmpty payload
                 || JsString.hasLineTerminator payload
              then Throw (Error "Invalid image data format")
              else Ok (mkPart mime (Some payload))
          | None => Throw (Error "Invalid image data format")
          end
      | None => Throw (Error "Invalid image data format")
      end
  | None => Throw (Error "Invalid image data format")
  end.

Definition enhancedPrompt (instruction : string) : string :=
  JsString.newline
  +:+ "      Act as a professional landscape architect and architectural visualizer."
  +:+ JsString.newline
  +:+ "      Edit the provided image of a property to show the following landscaping changes: "
  +:+ instruction +:+ "." +:+ JsString.newline
  +:+ "      " +:+ JsString.newline
  +:+ "      Maintain the perspective, lighting, and structural integrity of the house/building in the original photo."
  +:+ JsString.newline
  +:+ "      Ensure the new landscaping elements (plants, hardscape, pools, etc.) look photorealistic and naturally integrated into the scene."
  +:+ JsString.newline
  +:+ "      High resolution, detailed, professional quality."
  +:+ JsString.newline +:+ "    ".

(** The loop over the parts: the first one with image data. *)
Fixpoint firstImage (parts : list ResponsePart) : Res string :=
  match parts with
  | [] => Throw (Error "No image data found in response")
  | part :: parts' =>
      if Js.truthy (inlineData part)
      then Ok ("data:image/png;base64," +:+ default "" (inlineData part))
      else firstImage parts'
  end.

Definition bindRes {A B} (r : Res A) (k : A -> Res B) : Res B :=
  match r with
  | Ok a => k a
  | Throw e => Throw e
  end.

(** [generateLandscapeVisualization]; its [catch] prints the error and
    throws it again. *)
Definition generateLandscapeVisualization (ai : Backend)
    (imageSource : File.t + string) (instruction : string) : Res string :=
  bindRes
    (match imageSource with
     | inl file => fileToPart file
     | inr source =>
         bindRes
           (if Js.startsWith "http" source then urlToBase64 ai source else Ok source)
           base64ToPart
     end)
    (fun imagePart =>
       bindRes (generateContent ai imagePart (enhancedPrompt instruction))
         (fun parts =>
            match parts with
            | None => Throw (Error "No content generated")
            | Some parts => firstImage parts
            end)).

End geminiService.

(** ** contexts/AuthContext.tsx and components/AuthModal.tsx *)

Module Auth.

(** The calls to Firebase Authentication. *)
Inductive Call :=
| SignIn (email password : string)
| CreateUser (email password : string)
| UpdateProfile (uid displayName : string).

(** What Firebase answers: whether the sign-in goes through, the uid of the
    account created (or a rejection), whether the profile update goes
    through. *)
Record Backend := mkBackend {
  signInWithEmailAndPassword : string -> string -> bool;
  createUserWithEmailAndPassword : string -> string -> option string;
  updateProfile : string -> string -> bool
}.

(** The user Firebase reports to [onAuthStateChanged]. *)
Record FirebaseUser := mkFirebaseUser {
  uid : string;
  displayName : option string;
  email : option string
}.

(** The listener of [onAuthStateChanged]: a user gets the display name, or
    what precedes the [@] of the email, or ['User']. *)
Definition onAuthStateChanged (firebaseUser : option FirebaseUser) : option User.t :=
  match firebaseUser with
  | Some fu =>
      Some (User.mk (uid fu)
              (default "User"
                 (Js.orElse
                    (Js.orElse (displayName fu)
                       (JsString.splitHead "@"%char <$> email fu))
                    (Some "User")))
              (default "" (Js.orElse (email fu) (Some ""))))
  | None => None
  end.

(** [login]: the calls it issued and its answer. *)
Definition login (fb : Backend) (email : string) (password : option string)
  : list Call * bool :=
  match password with
  | Some pw =>
      if Js.isEmpty pw then ([], false)
      else ([SignIn email pw], signInWithEmailAndPassword fb email pw)
  | None => ([], false)
  end.

(** [register]: the calls it issued, the user it set, its answer. *)
Definition register (fb : Backend) (name email : string) (password : option string)
  : list Call * option User.t * bool :=
  match password with
  | Some pw =>
      if Js.isEmpty pw then ([], None, false)
      else
        match createUserWithEmailAndPassword fb email pw with
        | Some newUid =>
            if updateProfile fb newUid name
            then ([CreateUser email pw; UpdateProfile newUid name],
                  Some (User.mk newUid name email), true)
            else ([CreateUser email pw; UpdateProfile newUid name], None, false)
        | None => ([CreateUser email pw], None, false)
        end
  | None => ([], None, false)
  end.

(** The form of [AuthModal] and what [handleSubmit] leaves behind. *)
Record Form := mkForm {
  isLogin : bool;
  name : string;
  formEmail : string;
  password : string
}.

Record Outcome := mkOutcome {
  error : option string;
  loading : bool;
  onSuccessCalled : bool;
  calls : list Call;
  userSet : option User.t
}.

(** [handleSubmit]; the [finally] sets [loading] to false on every path. *)
Definition handleSubmit (fb : Backend) (f : Form) : Outcome :=
  if (String.length (password f) <? 6)%nat then
    mkOutcome (Some "Password must be at least 6 characters") false false [] None
  else if isLogin f then
    let '(cs, success) := login fb (formEmail f) (Some (password f)) in
    mkOutcome (if success then None else Some "Invalid email or password.")
      false success cs None
  else if Js.isEmpty (Js.trim (name f)) then
    mkOutcome (Some "Name is required") false false [] None
  else
    let '(cs, u, success) := register fb (name f) (formEmail f) (Some (password f)) in
    mkOutcome (if success then None
               else Some "Failed to create account. Email may be in use.")
      false success cs u.

End Auth.

(** ** components/SavedDesignsGallery.tsx and components/ResultComparison.tsx *)

Module Gallery.
Section WithClock.

(** The local calendar date of a timestamp, as [Date] gives it:
    [getFullYear()], [getMonth()] (from 0) and [getDate()]. *)
Variable localDate : Z -> Z * Z * Z.

Definition designDateStr (timestamp : Z) : string :=
  let '(year, month, day) := localDate timestamp in
  pretty year +:+ "-" +:+ JsString.padStart2 (pretty (month + 1))
  +:+ "-" +:+ JsString.padStart2 (pretty day).

(** [filteredDesigns]. *)
Definition filteredDesigns (designs : list SavedDesign.t) (searchTerm dateFilter : string)
  : list SavedDesign.t :=
  List.filter
    (fun design =>
       let matchesSearch :=
         Js.includes (JsString.toLowerCase searchTerm)
           (JsString.toLowerCase (SavedDesign.prompt design)) in
       let matchesDate :=
         if Js.isEmpty dateFilter then true
         else String.eqb (designDateStr (SavedDesign.timestamp design)) dateFilter in
       matchesSearch && matchesDate)
    designs.

End WithClock.

(** [handleRotate] of [ResultComparison]: [(prev + 90) % 360]. *)
Definition handleRotate (rotation : Z) : Z := (rotation + 90) mod 360.

End Gallery.

(** ** What a promise leaves alone *)

Module Frame.

(** The promise [m] never changes the part [view] of the cloud. *)
Definition Keeps {A X} (view : Cloud -> X) (m : M A) : Prop :=
  forall c, view (cloud_of (m c)) = view c.

(** The promise [m] never rejects. *)
Definition NeverRejects {A} (m : M A) : Prop :=
  forall c, exists a, value_of (m c) = Ok a.

(** Newest first. *)
Definition newerOrEqual (a b : SavedDesign.t) : Prop :=
  (SavedDesign.timestamp b <= SavedDesign.timestamp a)%Z.

(** The records of [userId] in the metadata store. *)
Definition ownedBy (userId : string) (c : Cloud) : list SavedDesign.t :=
  filter (fun d => SavedDesign.userId d = Some userId) (snd <$> map_to_list (docs c)).

(** The storage paths [saveDesign] may write for a lineage. *)
Definition savePaths (design : SavedDesign.t) (userId : string) : list string :=
  storageService.originalPath userId (SavedDesign.id design)
  :: storageService.generatedPath userId (SavedDesign.id design)
  :: map (fun it => storageService.iterationPath userId (SavedDesign.id design)
                      (DesignIteration.id it))
       (Lineage.iterationsOf design).

(** A lineage as [promote] builds it: a history that is not empty, whose
    last step carries the result and the prompt of the lineage. *)
Definition wellFormed (d : SavedDesign.t) : Prop :=
  exists last_step,
    last (Lineage.iterationsOf d) = Some last_step
    /\ DesignIteration.image last_step = SavedDesign.generatedImage d
    /\ DesignIteration.prompt last_step = SavedDesign.prompt d.

(** A view of the cloud that does not read the log, or the draft. *)
Definition blindToLog {X} (view : Cloud -> X) : Prop :=
  forall e c, view (emit e c) = view c.
Definition blindToDraft {X} (view : Cloud -> X) : Prop :=
  forall d c, view (setDraftSlot d c) = view c.

(** The folder of a lineage in the storage. *)
Definition designFolder (userId id : string) : string :=
  "users/" +:+ userId +:+ "/" +:+ id +:+ "/".

(** A lineage none of whose references is inline: nothing to upload. *)
Definition noInline (d : SavedDesign.t) : bool :=
  negb (Sync.isInline (SavedDesign.originalImage d))
  && negb (Sync.isInline (SavedDesign.generatedImage d))
  && forallb (fun it => negb (Sync.isInline (DesignIteration.image it)))
       (Lineage.iterationsOf d).

(** A healthy browser store. *)
Definition idbHealthy (env : Env) : Prop := forall c, idb_throws env c = false.

(** A backend whose storage rejects every upload. *)
Definition storageDown : Env :=
  mkEnv (fun _ _ => true) (downloadURL Sync.reliable)
    (fun _ _ => false) (fun _ _ => false) (fun _ _ => false) (fun _ _ => false)
    (fun _ _ => false) (fun _ => false).

(** A cloud that holds nothing but a draft. *)
Definition cloudWithDraft : Cloud :=
  mkCloud ∅ ∅
    (Some (AutoSaveState.mk 6000 "add a hedge" (Some "data:image/png;base64,BBBB")
             (Some "data:image/png;base64,CCCC") [Lineage.stepA]
             (Some "data:image/png;base64,AAAA") SUCCESS)) [].

End Frame.

(** ** The session state machine and the lineage model *)

Module AppFacts.
Import App Lineage.

(** *** Strings *)

Lemma isEmpty_true (s : string) : Js.isEmpty s = true <-> s = "".
Proof. destruct s; simpl; split; congruence. Qed.

Lemma isEmpty_false (s : string) : Js.isEmpty s = false <-> s <> "".
Proof. destruct s; simpl; split; congruence. Qed.

Lemma truthy_Some (s : string) : s <> "" -> Js.truthy (Some s) = true.
Proof. intros H. simpl. apply isEmpty_false in H. now rewrite H. Qed.

(** *** Lists: the last element and what precedes it *)

Lemma last_slice {A} (l : list A) (x : A) :
  last l = Some x -> l = slice_0_minus1 l ++ [x].
Proof.
  intros H. unfold slice_0_minus1.
  destruct (last_Some l x) as [Hl _]. destruct (Hl H) as [l' ->].
  rewrite length_app; simpl.
  replace (length l' + 1 - 1)%nat with (length l') by lia.
  now rewrite take_app_length.
Qed.

Lemma slice_snoc {A} (l : list A) (x : A) : slice_0_minus1 (l ++ [x]) = l.
Proof.
  unfold slice_0_minus1. rewrite length_app; simpl.
  replace (length l + 1 - 1)%nat with (length l) by lia.
  apply take_app_length.
Qed.

Lemma last_slice_lookup {A} (l : list A) :
  last (slice_0_minus1 l) = if (2 <=? length l)%nat then l !! (length l - 2)%nat else None.
Proof.
  destruct l as [|x l _] using rev_ind; [reflexivity|].
  rewrite slice_snoc, length_app. cbn [length].
  destruct l as [|a p _] using rev_ind; [reflexivity|].
  rewrite last_snoc, length_app. cbn [length].
  destruct (Nat.leb_spec 2 (length p + 1 + 1)); [|lia].
  replace (length p + 1 + 1 - 2)%nat with (length p) by lia.
  rewrite <- app_assoc. symmetry. now apply list_lookup_middle.
Qed.

(** *** Operations that keep the working image in step with the history *)

Lemma processFile_invariant file s :
  workingImageInvariant s -> workingImageInvariant (processFile file s).
Proof.
  unfold workingImageInvariant, processFile.
  destruct (negb _); [trivial|]. destruct (_ <? _); trivial.
Qed.

Lemma processFile_onload_invariant result s :
  workingImageInvariant (processFile_onload result s).
Proof. reflexivity. Qed.

Lemma selectFile_invariant file s :
  workingImageInvariant s -> workingImageInvariant (selectFile file s).
Proof.
  intros H. unfold selectFile. destruct (fileAccepted file).
  - apply processFile_onload_invariant.
  - now apply processFile_invariant.
Qed.

Lemma handleRefine_invariant uuid now s :
  workingImageInvariant s -> workingImageInvariant (handleRefine uuid now s).
Proof.
  intros H. unfold handleRefine.
  destruct (generatedImage s) as [r|]; [|exact H].
  destruct (Js.isEmpty r); [exact H|].
  unfold workingImageInvariant; cbn. now rewrite last_snoc.
Qed.

Lemma handleRetry_invariant s :
  workingImageInvariant s -> workingImageInvariant (handleRetry s).
Proof. intros H; exact H. Qed.

Lemma handleReset_invariant env s c :
  match value_of (handleReset env s c) with
  | Ok s' => workingImageInvariant s'
  | Throw _ => False
  end.
Proof.
  unfold handleReset, bind, storageService.clearDraft, tryCatch, storageService.idbDel, ret.
  destruct (idb_throws env c); reflexivity.
Qed.

Lemma handleEditDesign_invariant design s :
  workingImageInvariant (handleEditDesign design s).
Proof.
  unfold handleEditDesign, workingImageInvariant.
  destruct (SavedDesign.iterations design ≫= last) as [l|];
    cbn -[slice_0_minus1]; [|reflexivity].
  now destruct (last (slice_0_minus1 _)).
Qed.

(** Viewing keeps the invariant for every record that has a history or a
    result, and for every record at all when the session has no history of
    its own. *)
Lemma handleLoadDesign_invariant design s :
  iterationsOf design <> [] \/ SavedDesign.generatedImage design <> ""
  \/ pastIterations s = [] ->
  workingImageInvariant (handleLoadDesign design s).
Proof.
  intros H. unfold handleLoadDesign, workingImageInvariant.
  unfold iterationsOf in H.
  destruct (default [] (SavedDesign.iterations design)) as [|i its] eqn:E.
  - destruct (Js.isEmpty (SavedDesign.generatedImage design)) eqn:Hg; cbn.
    + destruct H as [H | [H | H]]; [congruence | | now rewrite H].
      apply isEmpty_true in Hg. congruence.
    + reflexivity.
  - cbn [length Nat.eqb andb].
    destruct (last (i :: its)) as [l|] eqn:Hl.
    + cbn -[slice_0_minus1]. now destruct (last (slice_0_minus1 (i :: its))).
    + apply last_None in Hl. congruence.
Qed.

End AppFacts.

Module Engine.
Import App Lineage AppFacts.

(** C1, as stated, fails: "only the IDLE state accepts a start-generation
    event".  In the FAILED state ([ERROR]) the form is on screen; with an
    input image and a prompt, the "Generate Vision" button calls
    [handleGenerate], which has no test of the state: the request is
    accepted, the call is issued and the session moves to GENERATING
    ([LOADING]). *)
Lemma start_generation_accepted_when_failed :
  appState failedSession = ERROR
  /\ clickGenerate failedSession = handleGenerate failedSession
  /\ handleGenerate failedSession =
     Some (setErrorMsg None (setAppState LOADING failedSession),
           mkReq (inr "data:image/png;base64,AAAA") "add a pool")
  /\ setErrorMsg None (setAppState LOADING failedSession) <> failedSession.
Proof. repeat split; try reflexivity. intros H. discriminate H. Qed.

(** C1, amended: a start-generation request is rejected, and the session
    left as it is, exactly when there is neither a selected file nor a
    working image or when the trimmed prompt is empty; otherwise
    [handleGenerate] accepts it in whatever state it is called, issues the
    call and moves the session to GENERATING.  While GENERATING the button
    is not on screen, so no request reaches the handler; in IDLE and in
    FAILED a click is the handler's answer; in SUCCEEDED the button is on
    screen only when the result or the working image is missing. *)
Theorem start_generation_gate (s : AppModel) :
  (handleGenerate s = None <->
     (selectedFile s = None /\ Js.truthy (imagePreview s) = false)
     \/ Js.trim (prompt s) = "")
  /\ (forall s' req, handleGenerate s = Some (s', req) ->
        s' = setErrorMsg None (setAppState LOADING s)
        /\ appState s' = LOADING
        /\ instruction req = prompt s)
  /\ (appState s = LOADING -> clickGenerate s = None)
  /\ (appState s = IDLE \/ appState s = ERROR ->
        clickGenerate s = handleGenerate s)
  /\ (appState s = SUCCESS ->
        clickGenerate s =
        if Js.truthy (generatedImage s) && Js.truthy (imagePreview s)
        then None else handleGenerate s).
Proof.
  assert (Hguard :
    (Js.isNull (selectedFile s) && negb (Js.truthy (imagePreview s)))
      || Js.isEmpty (Js.trim (prompt s)) = true <->
    (selectedFile s = None /\ Js.truthy (imagePreview s) = false)
      \/ Js.trim (prompt s) = "").
  { rewrite orb_true_iff, andb_true_iff, negb_true_iff, isEmpty_true.
    destruct (selectedFile s); simpl; intuition congruence. }
  assert (Hform : view s = FormView -> clickGenerate s = handleGenerate s).
  { intros Hv. unfold clickGenerate. rewrite Hv. unfold handleGenerate.
    now destruct (_ || _). }
  repeat split.
  - unfold handleGenerate. rewrite <- Hguard.
    destruct (_ || _); [trivial | discriminate].
  - intros H. apply Hguard in H. unfold handleGenerate. now rewrite H.
  - unfold handleGenerate in H. destruct (_ || _); [discriminate|].
    now inversion H.
  - unfold handleGenerate in H. destruct (_ || _); [discriminate|].
    now inversion H.
  - unfold handleGenerate in H. destruct (_ || _); [discriminate|].
    now inversion H.
  - intros H. unfold clickGenerate, view. now rewrite H.
  - intros [H | H]; apply Hform; unfold view; now rewrite H.
  - intros H.
    destruct (Js.truthy (generatedImage s) && Js.truthy (imagePreview s)) eqn:Hr.
    + unfold clickGenerate, view. now rewrite H, Hr.
    + apply Hform. unfold view. now rewrite H, Hr.
Qed.

(** C2: the invariant of the working image is lost by [handleLoadDesign]
    on a stored record with no history and no result.  The fallback branch
    sets the working image to the record's root and leaves
    [pastIterations] as the session had it, where the other branch and
    both branches of [handleEditDesign] set it. *)
Theorem handleLoadDesign_fallback_keeps_old_history :
  workingImageInvariant refinedSession
  /\ pastIterations (handleLoadDesign degenerateDesign refinedSession) = [stepA]
  /\ imagePreview (handleLoadDesign degenerateDesign refinedSession)
     = Some "https://firebasestorage.example/o/root.png"
  /\ ~ workingImageInvariant (handleLoadDesign degenerateDesign refinedSession)
  /\ workingImageInvariant (handleEditDesign degenerateDesign refinedSession).
Proof.
  repeat split; try reflexivity. intros H. discriminate H.
Qed.

(** C3: round trip.  A session with one completed step [A], a result [R]
    and a working image (both set: non-empty strings, as the guard of
    [confirmSaveDesign] tests them) and the prompt [P] is promoted to a
    lineage, and viewing that lineage, from any session, gives back
    [pastIterations = [A]], [lastResult = R] and [prompt = P] (and the
    image of [A] as working image). *)
Theorem promote_then_view (fresh : Fresh) (u : User.t) (s s0 : AppModel)
    (A : DesignIteration.t) (R P W : string) :
  pastIterations s = [A] ->
  generatedImage s = Some R -> R <> "" ->
  imagePreview s = Some W -> W <> "" ->
  prompt s = P ->
  exists lineage,
    promote fresh (Some u) s = Some lineage
    /\ pastIterations (handleLoadDesign lineage s0) = [A]
    /\ generatedImage (handleLoadDesign lineage s0) = Some R
    /\ prompt (handleLoadDesign lineage s0) = P
    /\ imagePreview (handleLoadDesign lineage s0) = Some (DesignIteration.image A).
Proof.
  intros Hp Hg HR Hw HW HP. unfold promote.
  rewrite Hg, Hw, Hp. apply isEmpty_false in HR, HW. rewrite HR, HW. simpl.
  eexists; split; [reflexivity|].
  subst P. repeat split.
Qed.

Lemma promote_then_view_witness :
  exists lineage,
    promote someFresh (Some someUser) succeededSession = Some lineage
    /\ pastIterations (handleLoadDesign lineage initial) = [stepA]
    /\ generatedImage (handleLoadDesign lineage initial)
       = Some "data:image/png;base64,CCCC"
    /\ prompt (handleLoadDesign lineage initial) = "add a hedge"
    /\ imagePreview (handleLoadDesign lineage initial)
       = Some (DesignIteration.image stepA).
Proof.
  apply (promote_then_view someFresh someUser succeededSession initial stepA
           "data:image/png;base64,CCCC" "add a hedge" "data:image/png;base64,BBBB");
    first [reflexivity | discriminate].
Defined.

(** C4: refine.  In SUCCEEDED with a result [R] (set: a non-empty string),
    [handleRefine] appends the step made of a fresh id, the current prompt
    and [R] to [pastIterations], makes [R] the working image, clears the
    result and the prompt, and moves to IDLE. *)
Theorem handleRefine_commits (uuid : string) (now : Z) (s : AppModel) (R : string) :
  appState s = SUCCESS ->
  generatedImage s = Some R -> R <> "" ->
  let s' := handleRefine uuid now s in
  pastIterations s' = pastIterations s ++ [DesignIteration.mk uuid (prompt s) R now]
  /\ imagePreview s' = Some R
  /\ generatedImage s' = None
  /\ prompt s' = ""
  /\ appState s' = IDLE.
Proof.
  intros _ Hg HR. unfold handleRefine. rewrite Hg.
  apply isEmpty_false in HR. rewrite HR. repeat split.
Qed.

Lemma handleRefine_commits_witness :
  let s' := handleRefine "it-9" 4000 succeededSession in
  pastIterations s' =
    [stepA; DesignIteration.mk "it-9" "add a hedge" "data:image/png;base64,CCCC" 4000]
  /\ imagePreview s' = Some "data:image/png;base64,CCCC"
  /\ generatedImage s' = None
  /\ prompt s' = ""
  /\ appState s' = IDLE.
Proof.
  apply (handleRefine_commits "it-9" 4000 succeededSession "data:image/png;base64,CCCC");
    first [reflexivity | discriminate].
Defined.

(** C7: reconstruction for editing.  For a lineage with N >= 1 iterations,
    [handleEditDesign] leaves no result and the state IDLE; the working
    image is the image of iteration N-2 when N >= 2 and the root image
    when N = 1; [pastIterations] is the first N-1 iterations and the prompt
    is the one of iteration N-1. *)
Theorem handleEditDesign_reopens_last_step (design : SavedDesign.t)
    (s : AppModel) (iterations : list DesignIteration.t) (N : nat) :
  SavedDesign.iterations design = Some iterations ->
  length iterations = N -> (1 <= N)%nat ->
  let s' := handleEditDesign design s in
  generatedImage s' = None
  /\ appState s' = IDLE
  /\ imagePreview s' =
     (if (2 <=? N)%nat
      then DesignIteration.image <$> iterations !! (N - 2)%nat
      else Some (SavedDesign.originalImage design))
  /\ pastIterations s' = take (N - 1) iterations
  /\ Some (prompt s') = DesignIteration.prompt <$> iterations !! (N - 1)%nat.
Proof.
  intros Hi HN H1. unfold handleEditDesign. rewrite Hi. cbn [mbind option_bind default].
  pose proof (last_lookup iterations) as Hl.
  destruct (last iterations) as [l|] eqn:El.
  2: { apply last_None in El. subst iterations. simpl in HN. lia. }
  rewrite HN in Hl. replace (Nat.pred N) with (N - 1)%nat in Hl by lia.
  cbn -[slice_0_minus1 Nat.leb Nat.sub lookup take].
  rewrite last_slice_lookup, HN.
  repeat split.
  - destruct (2 <=? N)%nat eqn:E2; [|reflexivity].
    apply Nat.leb_le in E2.
    destruct (lookup_lt_is_Some_2 iterations (N - 2)) as [x Hx]; [lia|].
    now rewrite Hx.
  - unfold slice_0_minus1. now rewrite HN.
  - now rewrite <- Hl.
Qed.

Lemma handleEditDesign_reopens_last_step_witness :
  let s' := handleEditDesign twoStepDesign succeededSession in
  generatedImage s' = None
  /\ appState s' = IDLE
  /\ imagePreview s' = Some "data:image/png;base64,BBBB"
  /\ pastIterations s' = [stepA]
  /\ Some (prompt s') = Some "add a hedge".
Proof.
  apply (handleEditDesign_reopens_last_step twoStepDesign succeededSession
           [stepA; stepB] 2); first [reflexivity | lia].
Defined.

(** C8: a legacy lineage (no iterations, a result [G] that is set, the
    prompt [P], the timestamp [T]) viewed from any session gives
    [pastIterations = []], the root image as working image, [G] as result
    and [P] as prompt, in the state SUCCEEDED. *)
Theorem handleLoadDesign_legacy (design : SavedDesign.t) (s : AppModel)
    (G P : string) (T : Z) :
  iterationsOf design = [] ->
  SavedDesign.generatedImage design = G -> G <> "" ->
  SavedDesign.prompt design = P ->
  SavedDesign.timestamp design = T ->
  let s' := handleLoadDesign design s in
  pastIterations s' = []
  /\ imagePreview s' = Some (SavedDesign.originalImage design)
  /\ generatedImage s' = Some G
  /\ prompt s' = P
  /\ appState s' = SUCCESS.
Proof.
  intros Hi Hg HG HP _. unfold handleLoadDesign. unfold iterationsOf in Hi.
  rewrite Hi, Hg. apply isEmpty_false in HG. rewrite HG. subst P.
  repeat split.
Qed.

Lemma handleLoadDesign_legacy_witness :
  let s' := handleLoadDesign legacyDesign succeededSession in
  pastIterations s' = []
  /\ imagePreview s' = Some "https://firebasestorage.example/o/root.png"
  /\ generatedImage s' = Some "https://firebasestorage.example/o/gen.png"
  /\ prompt s' = "a lawn"
  /\ appState s' = SUCCESS.
Proof.
  apply (handleLoadDesign_legacy legacyDesign succeededSession
           "https://firebasestorage.example/o/gen.png" "a lawn" 500);
    first [reflexivity | discriminate].
Defined.

End Engine.

(** ** The storage service *)

Module StorageFacts.
Import storageService Sync.

Lemma count_app p a b : count p (a ++ b) = (count p a + count p b)%nat.
Proof. unfold count. now rewrite filter_app, length_app. Qed.

Lemma eventsOf_eq {A} (m : M A) c evs :
  log (cloud_of (m c)) = log c ++ evs -> eventsOf m c = evs.
Proof. intros H. unfold eventsOf. rewrite H. apply drop_app_length. Qed.

Lemma isInline_negb image :
  isInline image = negb (Js.isEmpty image || Js.startsWith "http" image).
Proof. unfold isInline. now rewrite negb_orb. Qed.

Lemma UploadsOnly_nil {A} c (a : A) (P : A -> Prop) :
  P a -> UploadsOnly c (c, Ok a) 0 P [].
Proof. intros H. unfold UploadsOnly; simpl. rewrite app_nil_r. repeat split. exact H. Qed.

(** Two runs of uploads, one after the other. *)
Lemma UploadsOnly_seq {A B} c (x : Cloud * Res A) (y : Cloud * Res B) n m P Q ups1 ups2 :
  UploadsOnly c x n P ups1 ->
  UploadsOnly (cloud_of x) y m Q ups2 ->
  log (cloud_of y) = log c ++ ups1 ++ ups2
  /\ docs (cloud_of y) = docs c
  /\ forallb isArtifactEvent (ups1 ++ ups2) = true
  /\ (existsb isFailedUpload (ups1 ++ ups2)
      = existsb isFailedUpload ups1 || existsb isFailedUpload ups2)
  /\ count isUploadCall (ups1 ++ ups2)
     = (count isUploadCall ups1 + count isUploadCall ups2)%nat.
Proof.
  intros (L1 & D1 & F1 & _) (L2 & D2 & F2 & _).
  rewrite L2, L1, D2, D1, forallb_app, F1, F2, existsb_app, count_app, <- app_assoc.
  repeat split.
Qed.

Section WithEnv.

Variable env : Env.

Lemma uploadImageToStorage_run path image c :
  exists ups,
    UploadsOnly c (uploadImageToStorage env path image c)
      (if isInline image then 1 else 0) (rewritten env image) ups.
Proof.
  unfold uploadImageToStorage, rewritten. rewrite isInline_negb.
  destruct (Js.isEmpty image || Js.startsWith "http" image); simpl.
  - exists []. now apply UploadsOnly_nil.
  - unfold tryCatch, bind, uploadString.
    destruct (uploadString_throws env c path).
    + exists [EvUploadString path image false]. repeat split.
    + unfold getDownloadURL.
      match goal with |- context [downloadURL env ?c1 path] =>
        destruct (downloadURL env c1 path) as [url|] eqn:Hd end.
      * exists [EvUploadString path image true; EvGetDownloadURL path (Some url)].
        unfold UploadsOnly; simpl. rewrite <- app_assoc. repeat split. eauto.
      * exists [EvUploadString path image true; EvGetDownloadURL path None].
        unfold UploadsOnly; simpl. rewrite <- app_assoc. repeat split.
Qed.

Lemma uploadIteration_run userId id iter c :
  exists ups,
    UploadsOnly c (uploadIteration env userId id iter c)
      (if isInline (DesignIteration.image iter) then 1 else 0)
      (rewrittenIteration env iter) ups.
Proof.
  unfold uploadIteration, bind.
  destruct (uploadImageToStorage_run
              (iterationPath userId id (DesignIteration.id iter))
              (DesignIteration.image iter) c) as [ups H].
  exists ups. revert H. unfold UploadsOnly.
  destruct (uploadImageToStorage env _ _ c) as [c1 [url|e]]; simpl; [|trivial].
  intros (L & D & F & X & N & R). repeat split; assumption.
Qed.

Lemma promiseAll_uploads {X A} (f : X -> M A) (n : X -> nat) (P : X -> A -> Prop) :
  (forall x c, exists ups, UploadsOnly c (f x c) (n x) (P x) ups) ->
  forall l c, exists ups,
    UploadsOnly c (promiseAll (map f l) c) (sum_list (map n l)) (Forall2 P l) ups.
Proof.
  intros Hf. induction l as [|x l IH]; intros c.
  - exists []. apply UploadsOnly_nil. constructor.
  - destruct (Hf x c) as [ups1 H1]. simpl.
    destruct (f x c) as [c1 r] eqn:E1.
    destruct (IH c1) as [ups2 H2].
    destruct (promiseAll (map f l) c1) as [c2 rs] eqn:E2.
    exists (ups1 ++ ups2).
    destruct (UploadsOnly_seq _ _ _ _ _ _ _ _ _ H1 H2) as (L & D & F & X' & N).
    unfold UploadsOnly. rewrite X', N. simpl in L, D |- *.
    split; [exact L|]. split; [exact D|]. split; [exact F|].
    destruct H1 as (_ & _ & _ & R1), H2 as (_ & _ & _ & R2). simpl in R1, R2.
    destruct r as [a|e].
    + destruct R1 as (X1 & N1 & P1). rewrite X1, N1. simpl.
      destruct rs as [k|e]; [|exact R2].
      destruct R2 as (X2 & N2 & P2). rewrite N2.
      repeat split; [exact X2 | now constructor].
    + now rewrite R1.
Qed.

(** The third step of [saveDesign]. *)
Lemma uploadIterations_run design userId c :
  exists ups,
    UploadsOnly c
      (match SavedDesign.iterations design with
       | Some ((_ :: _) as iterations) =>
           promiseAll (map (uploadIteration env userId (SavedDesign.id design))
                         iterations)
       | _ => ret []
       end c)
      (sum_list (map (fun it => if isInline (DesignIteration.image it) then 1 else 0)%nat
                   (Lineage.iterationsOf design)))
      (Forall2 (rewrittenIteration env) (Lineage.iterationsOf design)) ups.
Proof.
  unfold Lineage.iterationsOf.
  destruct (SavedDesign.iterations design) as [[|it its]|]; simpl default.
  - exists []. apply UploadsOnly_nil. constructor.
  - refine (promiseAll_uploads
              (uploadIteration env userId (SavedDesign.id design))
              (fun it => if isInline (DesignIteration.image it) then 1 else 0)%nat
              (rewrittenIteration env) _ (it :: its) c).
    intros x c0. apply uploadIteration_run.
  - exists []. apply UploadsOnly_nil. constructor.
Qed.

(** A run of uploads that ended well, followed by another one. *)
Lemma UploadsOnly_then {A B} c c1 (a : A) (y : Cloud * Res B) n m P Q ups1 ups2 :
  UploadsOnly c (c1, Ok a) n P ups1 ->
  UploadsOnly c1 y m Q ups2 ->
  UploadsOnly c y (n + m) Q (ups1 ++ ups2).
Proof.
  intros H1 H2.
  destruct (UploadsOnly_seq _ _ _ _ _ _ _ _ _ H1 H2) as (L & D & F & X & N).
  destruct H1 as (_ & _ & _ & X1 & N1 & _), H2 as (_ & _ & _ & R2).
  unfold UploadsOnly. rewrite X, N, X1, N1. simpl.
  repeat split; try assumption.
  destruct (value_of y); [|exact R2].
  destruct R2 as (X2 & N2 & Q2). rewrite N2. repeat split; assumption.
Qed.

(** Every run of [saveDesign]: a run of uploads [ups], then either
    nothing more, one of the uploads having failed, or the one call to
    [setDoc], none of them having failed. *)
Lemma saveDesign_run design userId c :
  exists ups,
    forallb isArtifactEvent ups = true
    /\ ((existsb isFailedUpload ups = true
         /\ value_of (saveDesign env design userId c) = Ok false
         /\ log (cloud_of (saveDesign env design userId c)) = log c ++ ups
         /\ docs (cloud_of (saveDesign env design userId c)) = docs c)
        \/ (existsb isFailedUpload ups = false
            /\ count isUploadCall ups = inlineCount design
            /\ exists d ok,
                savedFrom env userId design d
                /\ log (cloud_of (saveDesign env design userId c))
                   = log c ++ ups ++ [EvSetDoc (SavedDesign.id design) d ok]
                /\ value_of (saveDesign env design userId c) = Ok ok
                /\ docs (cloud_of (saveDesign env design userId c))
                   = if ok then <[SavedDesign.id design := d]> (docs c) else docs c)).
Proof.
  unfold saveDesign, tryCatch, bind.
  destruct (uploadImageToStorage_run
              (originalPath userId (SavedDesign.id design))
              (SavedDesign.originalImage design) c) as [u1 H1].
  destruct (uploadImageToStorage env (originalPath userId (SavedDesign.id design))
              (SavedDesign.originalImage design) c) as [c1 [originalUrl|e]].
  2: { exists u1. destruct H1 as (L & D & F & X). split; [exact F|]. left.
       repeat split; assumption. }
  destruct (uploadImageToStorage_run
              (generatedPath userId (SavedDesign.id design))
              (SavedDesign.generatedImage design) c1) as [u2 H2].
  pose proof (UploadsOnly_then _ _ _ _ _ _ _ _ _ _ H1 H2) as H12.
  destruct (uploadImageToStorage env (generatedPath userId (SavedDesign.id design))
              (SavedDesign.generatedImage design) c1) as [c2 [generatedUrl|e]].
  2: { exists (u1 ++ u2). destruct H12 as (L & D & F & X). split; [exact F|]. left.
       repeat split; assumption. }
  destruct (uploadIterations_run design userId c2) as [u3 H3].
  pose proof (UploadsOnly_then _ _ _ _ _ _ _ _ _ _ H12 H3) as H123.
  destruct (match SavedDesign.iterations design with
            | Some ((_ :: _) as iterations) =>
                promiseAll (map (uploadIteration env userId (SavedDesign.id design))
                              iterations)
            | _ => ret []
            end c2) as [c3 [processed|e]].
  2: { exists ((u1 ++ u2) ++ u3). destruct H123 as (L & D & F & X).
       split; [exact F|]. left. repeat split; assumption. }
  exists ((u1 ++ u2) ++ u3).
  destruct H123 as (L & D & F & X & N & P3). simpl in L, D.
  destruct H1 as (_ & _ & _ & _ & _ & P1), H2 as (_ & _ & _ & _ & _ & P2).
  simpl in P1, P2.
  split; [exact F|]. right. split; [exact X|].
  split; [rewrite N; unfold inlineCount; lia|].
  exists (SavedDesign.mk (SavedDesign.id design) (Some userId)
            (SavedDesign.timestamp design) originalUrl generatedUrl
            (SavedDesign.prompt design) (Some processed)).
  unfold setDoc.
  destruct (setDoc_throws env c3 (SavedDesign.id design)).
  - exists false. simpl. rewrite L, D, <- app_assoc.
    repeat split; try assumption. eexists; split; [reflexivity | exact P3].
  - exists true. simpl. rewrite L, D, <- app_assoc.
    repeat split; try assumption. eexists; split; [reflexivity | exact P3].
Qed.

(** *** Deletion *)

Lemma safeDelete_run path c :
  exists outcome,
    value_of (safeDelete env path c) = Ok tt
    /\ log (cloud_of (safeDelete env path c)) = log c ++ [EvDeleteObject path outcome]
    /\ docs (cloud_of (safeDelete env path c)) = docs c.
Proof.
  unfold safeDelete, tryCatch, deleteObject.
  destruct (deleteObject_throws env c path); [eexists; repeat split|].
  destruct (objects c !! path); eexists; repeat split.
Qed.

Lemma deletesAmong_cons path paths e :
  deletesAmong paths e -> deletesAmong (path :: paths) e.
Proof. intros (p & o & -> & Hin). exists p, o. split; [reflexivity|]. now right. Qed.

Lemma promiseAll_safeDelete paths c :
  exists dels units,
    value_of (promiseAll (map (safeDelete env) paths) c) = Ok units
    /\ log (cloud_of (promiseAll (map (safeDelete env) paths) c)) = log c ++ dels
    /\ docs (cloud_of (promiseAll (map (safeDelete env) paths) c)) = docs c
    /\ Forall (deletesAmong paths) dels.
Proof.
  revert c. induction paths as [|path paths IH]; intros c.
  - exists [], []. simpl. rewrite app_nil_r. repeat split. constructor.
  - destruct (safeDelete_run path c) as (o & V & L & D). simpl.
    destruct (safeDelete env path c) as [c1 r]. simpl in V, L, D. subst r.
    destruct (IH c1) as (dels & units & V' & L' & D' & F').
    destruct (promiseAll (map (safeDelete env) paths) c1) as [c2 rs].
    simpl in V', L', D' |- *. subst rs.
    exists (EvDeleteObject path o :: dels), (tt :: units).
    rewrite L', L, D', D, <- app_assoc. repeat split.
    constructor.
    + exists path, o. split; [reflexivity | now left].
    + eapply Forall_impl; [exact F' | apply deletesAmong_cons].
Qed.

Lemma deletePromises_paths design id userId :
  deletePromises env design id userId
  = map (safeDelete env) (deletePaths design id userId).
Proof.
  unfold deletePromises, deletePaths, Lineage.iterationsOf.
  rewrite !map_app. f_equal; [now destruct (uploaded _)|].
  f_equal; [now destruct (uploaded _)|].
  destruct (SavedDesign.iterations design) as [its|]; [|reflexivity].
  simpl default. induction its as [|it its IH]; [reflexivity|].
  simpl. rewrite map_app, IH. now destruct (uploaded _).
Qed.

(** Every run of [deleteDesign]. *)
Lemma deleteDesign_run id userId c :
  (getDoc_throws env c id = true
   /\ log (cloud_of (deleteDesign env id userId c)) = log c ++ [EvGetDoc id false]
   /\ value_of (deleteDesign env id userId c) = Ok []
   /\ docs (cloud_of (deleteDesign env id userId c)) = docs c)
  \/ (getDoc_throws env c id = false
      /\ exists dels tail,
          Forall (deletesAmong
                    match docs c !! id with
                    | Some design => deletePaths design id userId
                    | None => []
                    end) dels
          /\ log (cloud_of (deleteDesign env id userId c))
             = log c ++ EvGetDoc id true :: dels ++ tail
          /\ ((tail = [EvDeleteDoc id false]
               /\ (exists c2, deleteDoc_throws env c2 id = true)
               /\ value_of (deleteDesign env id userId c) = Ok []
               /\ docs (cloud_of (deleteDesign env id userId c)) = docs c)
              \/ (docs (cloud_of (deleteDesign env id userId c)) = delete id (docs c)
                  /\ ((tail = [EvDeleteDoc id true]
                       /\ userId = ""
                       /\ value_of (deleteDesign env id userId c) = Ok [])
                      \/ (tail = [EvDeleteDoc id true; EvGetDocs userId false]
                          /\ value_of (deleteDesign env id userId c) = Ok [])
                      \/ (tail = [EvDeleteDoc id true; EvGetDocs userId true]
                          /\ value_of (deleteDesign env id userId c)
                             = Ok (sortNewestFirst
                                     (filter (fun d => SavedDesign.userId d = Some userId)
                                        (snd <$> map_to_list (delete id (docs c)))))))))).
Proof.
  unfold deleteDesign, tryCatch, bind, getDoc.
  destruct (getDoc_throws env c id) eqn:Hg; [left; repeat split|].
  right. split; [reflexivity|].
  set (c1 := emit (EvGetDoc id true) c).
  assert (Hstep : exists dels c2,
             (match docs c !! id with
              | Some design =>
                  fun c0 => match promiseAll (deletePromises env design id userId) c0 with
                            | (c3, Ok _) => ret tt c3
                            | (c3, Throw e) => (c3, Throw e)
                            end
              | None => ret tt
              end) c1 = (c2, Ok tt)
             /\ log c2 = log c ++ EvGetDoc id true :: dels
             /\ docs c2 = docs c
             /\ Forall (deletesAmong
                          match docs c !! id with
                          | Some design => deletePaths design id userId
                          | None => []
                          end) dels).
  { destruct (docs c !! id) as [design|].
    - rewrite deletePromises_paths.
      destruct (promiseAll_safeDelete (deletePaths design id userId) c1)
        as (dels & units & V & L & D & F).
      destruct (promiseAll _ c1) as [c2 r]. simpl in V, L, D. subst r.
      exists dels, c2. unfold ret. rewrite L, D. simpl. rewrite <- app_assoc.
      repeat split. exact F.
    - exists [], c1. repeat split. constructor. }
  destruct Hstep as (dels & c2 & E & L & D & F).
  exists dels.
  match goal with |- context [match ?m c1 with _ => _ end] =>
    change (m c1) with
      ((match docs c !! id with
        | Some design =>
            fun c0 => match promiseAll (deletePromises env design id userId) c0 with
                      | (c3, Ok _) => ret tt c3
                      | (c3, Throw e) => (c3, Throw e)
                      end
        | None => ret tt
        end) c1) end.
  rewrite E. unfold deleteDoc.
  destruct (deleteDoc_throws env c2 id) eqn:Hd.
  { exists [EvDeleteDoc id false]. simpl. rewrite L, D, <- app_assoc.
    split; [exact F|]. split; [reflexivity|]. left. repeat split. now exists c2. }
  unfold getSavedDesigns.
  destruct (Js.isEmpty userId) eqn:Hu.
  { exists [EvDeleteDoc id true]. simpl. rewrite L, D, <- app_assoc.
    split; [exact F|]. split; [reflexivity|]. right. split; [reflexivity|].
    left. repeat split. now destruct userId. }
  unfold tryCatch, bind, getDocs.
  match goal with |- context [getDocs_throws env ?c3 userId] =>
    destruct (getDocs_throws env c3 userId) end.
  - exists [EvDeleteDoc id true; EvGetDocs userId false]. simpl.
    rewrite L, D, <- !app_assoc.
    split; [exact F|]. split; [reflexivity|]. right. split; [reflexivity|].
    right. left. repeat split.
  - exists [EvDeleteDoc id true; EvGetDocs userId true]. simpl.
    rewrite L, D, <- !app_assoc.
    split; [exact F|]. split; [reflexivity|]. right. split; [reflexivity|].
    right. right. repeat split.
Qed.

(** *** Storage paths *)




(** *** The calls of a save that goes through *)

Lemma uploadImageToStorage_ok path image c c' url :
  uploadImageToStorage env path image c = (c', Ok url) ->
  log c' = log c ++ uploadEvents path image url
  /\ docs c' = docs c
  /\ rewritten env image url.
Proof.
  unfold uploadImageToStorage, uploadEvents, rewritten. rewrite isInline_negb.
  destruct (Js.isEmpty image || Js.startsWith "http" image); simpl.
  - intros [= <- <-]. now rewrite app_nil_r.
  - unfold tryCatch, bind, uploadString.
    destruct (uploadString_throws env c path); [discriminate|].
    unfold getDownloadURL.
    match goal with |- context [downloadURL env ?c1 path] =>
      destruct (downloadURL env c1 path) as [u|] eqn:Hd end; [|discriminate].
    intros [= <- <-]. simpl. rewrite <- app_assoc. repeat split. eauto.
Qed.

Lemma uploadIterations_ok userId id iterations c c' processed :
  promiseAll (map (uploadIteration env userId id) iterations) c = (c', Ok processed) ->
  log c' = log c ++ iterationEvents userId id iterations processed
  /\ docs c' = docs c
  /\ Forall2 (fun it it' =>
                it' = withImage (DesignIteration.image it') it
                /\ rewritten env (DesignIteration.image it) (DesignIteration.image it'))
       iterations processed.
Proof.
  revert c processed. induction iterations as [|it its IH]; intros c processed; simpl.
  - intros [= <- <-]. unfold iterationEvents. simpl. rewrite app_nil_r.
    repeat split. constructor.
  - destruct (uploadIteration env userId id it c) as [c1 r1] eqn:E1.
    destruct (promiseAll (map (uploadIteration env userId id) its) c1) as [c2 rs] eqn:E2.
    destruct r1 as [it'|e]; [|discriminate]. destruct rs as [k|e]; [|discriminate].
    intros [= <- <-].
    unfold uploadIteration, bind in E1.
    destruct (uploadImageToStorage env (iterationPath userId id (DesignIteration.id it))
                (DesignIteration.image it) c) as [c0 [u|e]] eqn:E0; [|discriminate].
    injection E1 as <- <-.
    destruct (uploadImageToStorage_ok _ _ _ _ _ E0) as (L0 & D0 & R0).
    destruct (IH _ _ E2) as (L2 & D2 & F2).
    unfold iterationEvents in *. simpl. rewrite L2, L0, D2, D0, <- app_assoc.
    repeat split. constructor; [now split | exact F2].
Qed.

(** A run of [saveDesign] in which no upload failed: its calls are the
    upload of the original at [original.png], of the generated image at
    [generated.png] and of every iteration at [iterations/<id>.png], each
    for the references that are inline, then [setDoc] with the lineage
    carrying the answers. *)
Lemma saveDesign_success_trace design userId c :
  existsb isFailedUpload (eventsOf (saveDesign env design userId) c) = false ->
  exists originalUrl generatedUrl processed ok,
    eventsOf (saveDesign env design userId) c
    = uploadEvents (originalPath userId (SavedDesign.id design))
        (SavedDesign.originalImage design) originalUrl
      ++ uploadEvents (generatedPath userId (SavedDesign.id design))
           (SavedDesign.generatedImage design) generatedUrl
      ++ iterationEvents userId (SavedDesign.id design)
           (Lineage.iterationsOf design) processed
      ++ [EvSetDoc (SavedDesign.id design)
            (SavedDesign.mk (SavedDesign.id design) (Some userId)
               (SavedDesign.timestamp design) originalUrl generatedUrl
               (SavedDesign.prompt design) (Some processed)) ok]
    /\ rewritten env (SavedDesign.originalImage design) originalUrl
    /\ rewritten env (SavedDesign.generatedImage design) generatedUrl
    /\ Forall2 (fun it it' =>
                  it' = withImage (DesignIteration.image it') it
                  /\ rewritten env (DesignIteration.image it) (DesignIteration.image it'))
         (Lineage.iterationsOf design) processed
    /\ value_of (saveDesign env design userId c) = Ok ok
    /\ docs (cloud_of (saveDesign env design userId c))
       = if ok
         then <[SavedDesign.id design :=
                  SavedDesign.mk (SavedDesign.id design) (Some userId)
                    (SavedDesign.timestamp design) originalUrl generatedUrl
                    (SavedDesign.prompt design) (Some processed)]> (docs c)
         else docs c.
Proof.
  unfold eventsOf, saveDesign, tryCatch, bind.
  destruct (uploadImageToStorage_run
              (originalPath userId (SavedDesign.id design))
              (SavedDesign.originalImage design) c) as [u1 H1].
  destruct (uploadImageToStorage env (originalPath userId (SavedDesign.id design))
              (SavedDesign.originalImage design) c) as [c1 [originalUrl|e]] eqn:E1.
  2: { destruct H1 as (L & D & F & X). simpl in L, X |- *.
       rewrite L, drop_app_length. congruence. }
  destruct (uploadImageToStorage_run
              (generatedPath userId (SavedDesign.id design))
              (SavedDesign.generatedImage design) c1) as [u2 H2].
  pose proof (UploadsOnly_then _ _ _ _ _ _ _ _ _ _ H1 H2) as H12.
  destruct (uploadImageToStorage env (generatedPath userId (SavedDesign.id design))
              (SavedDesign.generatedImage design) c1) as [c2 [generatedUrl|e]] eqn:E2.
  2: { destruct H12 as (L & D & F & X). simpl in L, X |- *.
       rewrite L, drop_app_length. congruence. }
  destruct (uploadIterations_run design userId c2) as [u3 H3].
  pose proof (UploadsOnly_then _ _ _ _ _ _ _ _ _ _ H12 H3) as H123.
  assert (Hfan : forall c3 processed,
            (match SavedDesign.iterations design with
             | Some ((_ :: _) as iterations) =>
                 promiseAll (map (uploadIteration env userId (SavedDesign.id design))
                               iterations)
             | _ => ret []
             end) c2 = (c3, Ok processed) ->
            log c3 = log c2 ++ iterationEvents userId (SavedDesign.id design)
                                 (Lineage.iterationsOf design) processed
            /\ docs c3 = docs c2
            /\ Forall2 (fun it it' =>
                          it' = withImage (DesignIteration.image it') it
                          /\ rewritten env (DesignIteration.image it)
                               (DesignIteration.image it'))
                 (Lineage.iterationsOf design) processed).
  { intros c3 processed. unfold Lineage.iterationsOf.
    destruct (SavedDesign.iterations design) as [[|it its]|]; simpl default.
    - intros [= <- <-]. unfold iterationEvents. simpl. rewrite app_nil_r.
      repeat split. constructor.
    - apply uploadIterations_ok.
    - intros [= <- <-]. unfold iterationEvents. simpl. rewrite app_nil_r.
      repeat split. constructor. }
  destruct (match SavedDesign.iterations design with
            | Some ((_ :: _) as iterations) =>
                promiseAll (map (uploadIteration env userId (SavedDesign.id design))
                              iterations)
            | _ => ret []
            end c2) as [c3 [processed|e]] eqn:E3.
  2: { destruct H123 as (L & D & F & X). simpl in L, X |- *.
       rewrite L, drop_app_length. congruence. }
  intros _.
  destruct (uploadImageToStorage_ok _ _ _ _ _ E1) as (L1 & D1 & R1).
  destruct (uploadImageToStorage_ok _ _ _ _ _ E2) as (L2 & D2 & R2).
  destruct (Hfan _ _ eq_refl) as (L3 & D3 & R3).
  exists originalUrl, generatedUrl, processed.
  unfold setDoc. destruct (setDoc_throws env c3 (SavedDesign.id design)).
  - exists false. simpl. rewrite L3, L2, L1, D3, D2, D1, <- !app_assoc, drop_app_length.
    repeat split; assumption.
  - exists true. simpl. rewrite L3, L2, L1, D3, D2, D1, <- !app_assoc, drop_app_length.
    repeat split; assumption.
Qed.

End WithEnv.

End StorageFacts.

Module Durable.
Import storageService Sync StorageFacts.

(** *** Lists of events *)

Lemma artifact_events_only ups :
  forallb isArtifactEvent ups = true ->
  existsb isMetadataWrite ups = false
  /\ count isMetadataWrite ups = 0%nat
  /\ writtenRecords ups = [].
Proof.
  induction ups as [|e ups IH]; [now repeat split|].
  simpl. intros H. apply andb_true_iff in H. destruct H as [He Hups].
  destruct (IH Hups) as (X & N & W).
  destruct e; try discriminate He; simpl; unfold count in *; simpl;
    rewrite ?decide_False by discriminate; repeat split; assumption.
Qed.

Lemma deletes_only paths dels e :
  Forall (deletesAmong paths) dels -> In e dels ->
  exists path outcome, e = EvDeleteObject path outcome /\ path ∈ paths.
Proof.
  intros F Hin. rewrite Forall_forall in F.
  apply F. now apply list_elem_of_In.
Qed.


(** What the caller makes of a failed save: the dialog closes and the
    message of a failure is shown; the list of saved designs is the one it
    was. *)
Lemma confirmSaveDesign_failure env fresh u s c newDesign :
  App.promote fresh (Some u) s = Some newDesign ->
  value_of (saveDesign env newDesign (User.id u) c) = Ok false ->
  value_of (App.confirmSaveDesign env fresh (Some u) s c)
  = Ok (App.setErrorMsg (Some "Failed to save. Storage limit reached.")
          (App.setShowSaveDialog false
             (App.setIsSaving false (App.setIsSaving true s)))).
Proof.
  intros Hp Hv. unfold App.confirmSaveDesign, bind. rewrite Hp.
  destruct (saveDesign env newDesign (User.id u) c) as [c1 r].
  simpl in Hv. now subst r.
Qed.

(** C5: a save in which an artifact upload fails ([uploadString] or
    [getDownloadURL] throws) answers [false], writes no metadata record and
    leaves the metadata store as it was.  In every save the calls are a run
    of artifact uploads followed by at most one metadata write, which is
    the last call and is issued only when no upload has failed. *)
Theorem saveDesign_all_or_nothing (env : Env) (design : SavedDesign.t)
    (userId : string) (c : Cloud) :
  let run := saveDesign env design userId c in
  let evs := eventsOf (saveDesign env design userId) c in
  (existsb isFailedUpload evs = true ->
     value_of run = Ok false
     /\ docs (cloud_of run) = docs c
     /\ existsb isMetadataWrite evs = false)
  /\ exists ups,
       forallb isArtifactEvent ups = true
       /\ (evs = ups
           \/ exists d ok,
                evs = ups ++ [EvSetDoc (SavedDesign.id design) d ok]
                /\ existsb isFailedUpload ups = false).
Proof.
  cbv zeta.
  destruct (saveDesign_run env design userId c)
    as (ups & F & [(X & V & L & D) | (X & N & d & ok & S & L & V & D)]);
    rewrite (eventsOf_eq _ _ _ L).
  - split.
    + intros _. repeat split; try assumption. now apply artifact_events_only.
    + exists ups. split; [exact F | now left].
  - split.
    + rewrite existsb_app, X. simpl. discriminate.
    + exists ups. split; [exact F|]. right. now exists d, ok.
Qed.

Lemma saveDesign_all_or_nothing_witness :
  value_of (saveDesign quotaHit Lineage.twoStepDesign "u1" emptyCloud) = Ok false
  /\ docs (cloud_of (saveDesign quotaHit Lineage.twoStepDesign "u1" emptyCloud))
     = docs emptyCloud
  /\ existsb isMetadataWrite
       (eventsOf (saveDesign quotaHit Lineage.twoStepDesign "u1") emptyCloud) = false.
Proof.
  apply (proj1 (saveDesign_all_or_nothing quotaHit Lineage.twoStepDesign "u1" emptyCloud)).
  vm_compute. reflexivity.
Defined.

(** C6: a save of a lineage with two iterations whose references are all
    inline, on a storage whose download URLs are locators and in a run in
    which no upload fails.  Its uploads are, in this order, the original
    image at [original.png], the generated image at [generated.png], the
    image of the first iteration at [iterations/<its id>.png] and the image
    of the second at [iterations/<its id>.png]: 4 uploads, one per
    reference, each of the image it stands for.  Besides them the run
    requests the download URL of each of the four paths and then writes the
    metadata once, as its last call, and issues nothing else.  The record
    written carries the lineage's id, owner, timestamp and prompt, the two
    iterations with their ids, prompts and timestamps, and in place of each
    inline reference the URL answered for its path, all of them locators;
    when the write goes through, that record is the one stored under the
    lineage's id. *)
Theorem saveDesign_two_inline_iterations (env : Env) (design : SavedDesign.t)
    (userId : string) (c : Cloud) (i1 i2 : DesignIteration.t) :
  SavedDesign.iterations design = Some [i1; i2] ->
  allInline design = true ->
  (forall c0 path url, downloadURL env c0 path = Some url -> isLocator url = true) ->
  existsb isFailedUpload (eventsOf (saveDesign env design userId) c) = false ->
  let run := saveDesign env design userId c in
  let evs := eventsOf (saveDesign env design userId) c in
  let id := SavedDesign.id design in
  count isUploadCall evs = 4%nat
  /\ count isMetadataWrite evs = 1%nat
  /\ filter (fun e => isUploadCall e = true) evs
     = [EvUploadString (originalPath userId id) (SavedDesign.originalImage design) true;
        EvUploadString (generatedPath userId id) (SavedDesign.generatedImage design) true;
        EvUploadString (iterationPath userId id (DesignIteration.id i1))
          (DesignIteration.image i1) true;
        EvUploadString (iterationPath userId id (DesignIteration.id i2))
          (DesignIteration.image i2) true]
  /\ exists d ok,
       writtenRecords evs = [d]
       /\ last evs = Some (EvSetDoc id d ok)
       /\ allLocators d = true
       /\ length (Lineage.iterationsOf d) = 2%nat
       /\ value_of run = Ok ok
       /\ (ok = true -> docs (cloud_of run) !! id = Some d)
       /\ exists originalUrl generatedUrl url1 url2,
            d = SavedDesign.mk id (Some userId) (SavedDesign.timestamp design)
                  originalUrl generatedUrl (SavedDesign.prompt design)
                  (Some [withImage url1 i1; withImage url2 i2])
            /\ evs ≡ₚ
                 [EvUploadString (originalPath userId id)
                    (SavedDesign.originalImage design) true;
                  EvGetDownloadURL (originalPath userId id) (Some originalUrl);
                  EvUploadString (generatedPath userId id)
                    (SavedDesign.generatedImage design) true;
                  EvGetDownloadURL (generatedPath userId id) (Some generatedUrl);
                  EvUploadString (iterationPath userId id (DesignIteration.id i1))
                    (DesignIteration.image i1) true;
                  EvGetDownloadURL (iterationPath userId id (DesignIteration.id i1))
                    (Some url1);
                  EvUploadString (iterationPath userId id (DesignIteration.id i2))
                    (DesignIteration.image i2) true;
                  EvGetDownloadURL (iterationPath userId id (DesignIteration.id i2))
                    (Some url2);
                  EvSetDoc id d ok].
Proof.
  intros Hits Hinline Hurl Hok. cbv zeta.
  unfold allInline, Lineage.iterationsOf in Hinline. rewrite Hits in Hinline.
  simpl in Hinline. rewrite !andb_true_iff in Hinline.
  destruct Hinline as [[Ho Hg] (H1 & H2 & _)].
  destruct (saveDesign_success_trace env design userId c Hok)
    as (originalUrl & generatedUrl & processed & ok & E & Ro & Rg & Rits & V & D).
  unfold Lineage.iterationsOf in E, Rits. rewrite Hits in E, Rits. simpl in E, Rits.
  apply Forall2_cons_inv_l in Rits. destruct Rits as (j1 & k & [J1 R1] & Rits & ->).
  apply Forall2_cons_inv_l in Rits. destruct Rits as (j2 & k' & [J2 R2] & Rits & ->).
  apply Forall2_nil_inv_l in Rits. subst k'.
  unfold rewritten in Ro, Rg, R1, R2.
  rewrite Ho in Ro. rewrite Hg in Rg. rewrite H1 in R1. rewrite H2 in R2.
  destruct Ro as (co & po & Ro), Rg as (cg & pg & Rg).
  destruct R1 as (ca & pa & R1), R2 as (cb & pb & R2).
  unfold iterationEvents, uploadEvents in E. simpl in E.
  rewrite Ho, Hg, H1, H2 in E. simpl in E.
  rewrite E. clear E.
  split; [reflexivity|]. split; [reflexivity|]. split; [reflexivity|].
  eexists _, ok. split; [reflexivity|]. split; [reflexivity|].
  split.
  { unfold allLocators, Lineage.iterationsOf. simpl.
    now rewrite (Hurl _ _ _ Ro), (Hurl _ _ _ Rg), (Hurl _ _ _ R1), (Hurl _ _ _ R2). }
  split; [reflexivity|]. split; [exact V|].
  split.
  { intros ->. rewrite D. apply lookup_insert_eq. }
  exists originalUrl, generatedUrl, (DesignIteration.image j1), (DesignIteration.image j2).
  rewrite <- J1, <- J2. split; reflexivity.
Qed.

Lemma saveDesign_two_inline_iterations_witness :
  let run := saveDesign reliable Lineage.twoStepDesign "u1" emptyCloud in
  let evs := eventsOf (saveDesign reliable Lineage.twoStepDesign "u1") emptyCloud in
  count isUploadCall evs = 4%nat
  /\ count isMetadataWrite evs = 1%nat
  /\ filter (fun e => isUploadCall e = true) evs
     = [EvUploadString (originalPath "u1" "d2")
          (SavedDesign.originalImage Lineage.twoStepDesign) true;
        EvUploadString (generatedPath "u1" "d2")
          (SavedDesign.generatedImage Lineage.twoStepDesign) true;
        EvUploadString (iterationPath "u1" "d2" (DesignIteration.id Lineage.stepA))
          (DesignIteration.image Lineage.stepA) true;
        EvUploadString (iterationPath "u1" "d2" (DesignIteration.id Lineage.stepB))
          (DesignIteration.image Lineage.stepB) true]
  /\ exists d ok,
       writtenRecords evs = [d]
       /\ last evs = Some (EvSetDoc "d2" d ok)
       /\ allLocators d = true
       /\ length (Lineage.iterationsOf d) = 2%nat
       /\ value_of run = Ok ok
       /\ (ok = true -> docs (cloud_of run) !! "d2" = Some d)
       /\ exists originalUrl generatedUrl url1 url2,
            d = SavedDesign.mk "d2" (Some "u1")
                  (SavedDesign.timestamp Lineage.twoStepDesign)
                  originalUrl generatedUrl (SavedDesign.prompt Lineage.twoStepDesign)
                  (Some [withImage url1 Lineage.stepA; withImage url2 Lineage.stepB])
            /\ evs ≡ₚ
                 [EvUploadString (originalPath "u1" "d2")
                    (SavedDesign.originalImage Lineage.twoStepDesign) true;
                  EvGetDownloadURL (originalPath "u1" "d2") (Some originalUrl);
                  EvUploadString (generatedPath "u1" "d2")
                    (SavedDesign.generatedImage Lineage.twoStepDesign) true;
                  EvGetDownloadURL (generatedPath "u1" "d2") (Some generatedUrl);
                  EvUploadString (iterationPath "u1" "d2" (DesignIteration.id Lineage.stepA))
                    (DesignIteration.image Lineage.stepA) true;
                  EvGetDownloadURL
                    (iterationPath "u1" "d2" (DesignIteration.id Lineage.stepA))
                    (Some url1);
                  EvUploadString (iterationPath "u1" "d2" (DesignIteration.id Lineage.stepB))
                    (DesignIteration.image Lineage.stepB) true;
                  EvGetDownloadURL
                    (iterationPath "u1" "d2" (DesignIteration.id Lineage.stepB))
                    (Some url2);
                  EvSetDoc "d2" d ok].
Proof.
  apply (saveDesign_two_inline_iterations reliable Lineage.twoStepDesign "u1"
           emptyCloud Lineage.stepA Lineage.stepB).
  - reflexivity.
  - reflexivity.
  - intros c0 path url H. injection H as <-. reflexivity.
  - vm_compute. reflexivity.
Defined.




(** C10: when fetching the record, deleting the record or fetching the
    owner's designs again throws, [deleteDesign] answers the empty list;
    when it is the first fetch that throws, the metadata store is left as
    it was and no [deleteDoc] is issued. *)
Theorem deleteDesign_swallows_failures (env : Env) (id userId : string) (c : Cloud) :
  let run := deleteDesign env id userId c in
  let evs := eventsOf (deleteDesign env id userId) c in
  In (EvGetDoc id false) evs \/ In (EvDeleteDoc id false) evs
    \/ In (EvGetDocs userId false) evs ->
  value_of run = Ok []
  /\ (In (EvGetDoc id false) evs ->
      getDoc_throws env c id = true
      /\ docs (cloud_of run) = docs c
      /\ existsb (isDeleteDocOf id) evs = false).
Proof.
  cbv zeta.
  destruct (deleteDesign_run env id userId c)
    as [(Hg & L & V & D) | (Hg & dels & tail & F & L & Htail)];
    rewrite (eventsOf_eq _ _ _ L).
  { intros _. split; [exact V|]. intros _. repeat split; assumption. }
  assert (Hdel : forall e, In e dels -> exists path o, e = EvDeleteObject path o).
  { intros e Hin. destruct (deletes_only _ _ _ F Hin) as (path & o & -> & _). eauto. }
  assert (Hnot : forall e, (forall path o, e <> EvDeleteObject path o) ->
                   In e (EvGetDoc id true :: dels ++ tail) ->
                   e = EvGetDoc id true \/ In e tail).
  { intros e Hne [<- | Hin]; [now left|].
    apply in_app_iff in Hin. destruct Hin as [Hin | Hin]; [|now right].
    destruct (Hdel e Hin) as (path & o & ->). now destruct (Hne path o). }
  intros H. split.
  - destruct Htail as [(-> & _ & V & _)
                      | (D & [(-> & _ & V) | [(-> & V) | (-> & V)]])];
      try exact V.
    exfalso.
    destruct H as [H | [H | H]]; apply Hnot in H; try discriminate;
      simpl in H; intuition discriminate.
  - intros H1. exfalso. apply Hnot in H1; [|discriminate].
    destruct H1 as [H1 | H1]; [discriminate H1|].
    destruct Htail as [(-> & _) | (_ & [(-> & _) | [(-> & _) | (-> & _)]])];
      simpl in H1; intuition discriminate.
Qed.

Lemma deleteDesign_swallows_failures_witness :
  (value_of (deleteDesign getDocDown "d3" "u1" cloudWithTwo) = Ok []
   /\ docs (cloud_of (deleteDesign getDocDown "d3" "u1" cloudWithTwo))
      = docs cloudWithTwo)
  /\ (value_of (deleteDesign deleteDocDown "d3" "u1" cloudWithTwo) = Ok []
      /\ docs (cloud_of (deleteDesign deleteDocDown "d3" "u1" cloudWithTwo)) !! "d4"
         = Some otherDesign)
  /\ (value_of (deleteDesign getDocsDown "d3" "u1" cloudWithTwo) = Ok []
      /\ docs (cloud_of (deleteDesign getDocsDown "d3" "u1" cloudWithTwo)) !! "d4"
         = Some otherDesign).
Proof.
  split; [|split].
  - destruct (deleteDesign_swallows_failures getDocDown "d3" "u1" cloudWithTwo)
      as [V H]; [left; vm_compute; now left|].
    split; [exact V|]. apply H. vm_compute. now left.
  - split; [|vm_compute; reflexivity].
    apply (deleteDesign_swallows_failures deleteDocDown "d3" "u1" cloudWithTwo).
    right; left. vm_compute. tauto.
  - split; [|vm_compute; reflexivity].
    apply (deleteDesign_swallows_failures getDocsDown "d3" "u1" cloudWithTwo).
    right; right. vm_compute. tauto.
Defined.

End Durable.

(** ** What the storage service leaves alone *)

Module FrameFacts.
Import Frame storageService Sync StorageFacts.

Lemma Keeps_ret {A X} (view : Cloud -> X) (a : A) : Keeps view (ret a).
Proof. intros c. reflexivity. Qed.

Lemma Keeps_throw {A X} (view : Cloud -> X) e : Keeps view (@throw A e).
Proof. intros c. reflexivity. Qed.

Lemma Keeps_bind {A B X} (view : Cloud -> X) (m : M A) (k : A -> M B) :
  Keeps view m -> (forall a, Keeps view (k a)) -> Keeps view (bind m k).
Proof.
  intros Hm Hk c. unfold bind. specialize (Hm c).
  destruct (m c) as [c1 [a|e]]; simpl in *; [|exact Hm].
  now rewrite (Hk a c1).
Qed.

Lemma Keeps_tryCatch {A X} (view : Cloud -> X) (m : M A) (h : Exn -> M A) :
  Keeps view m -> (forall e, Keeps view (h e)) -> Keeps view (tryCatch m h).
Proof.
  intros Hm Hh c. unfold tryCatch. specialize (Hm c).
  destruct (m c) as [c1 [a|e]]; simpl in *; [exact Hm|].
  now rewrite (Hh e c1).
Qed.

Lemma Keeps_promiseAll {A X} (view : Cloud -> X) (ps : list (M A)) :
  Forall (Keeps view) ps -> Keeps view (promiseAll ps).
Proof.
  induction 1 as [|p ps Hp _ IH]; intros c; [reflexivity|].
  simpl. specialize (Hp c). destruct (p c) as [c1 r]. specialize (IH c1).
  destruct (promiseAll ps c1) as [c2 rs]. simpl in *. congruence.
Qed.

Lemma NeverRejects_tryCatch {A} (m : M A) (h : Exn -> M A) :
  (forall e, NeverRejects (h e)) -> NeverRejects (tryCatch m h).
Proof.
  intros Hh c. unfold tryCatch. destruct (m c) as [c1 [a|e]]; [now exists a|].
  apply Hh.
Qed.

Lemma NeverRejects_ret {A} (a : A) : NeverRejects (ret a).
Proof. intros c. now exists a. Qed.

Section WithEnv.

Variable env : Env.

Section Views.

Context {X : Type} (view : Cloud -> X).
Hypothesis Hlog : blindToLog view.

Lemma getDownloadURL_keeps path : Keeps view (getDownloadURL env path).
Proof. intros c. unfold getDownloadURL. case_match; apply Hlog. Qed.

Lemma getDoc_keeps id : Keeps view (getDoc env id).
Proof. intros c. unfold getDoc. case_match; apply Hlog. Qed.

Lemma getDocs_keeps userId : Keeps view (getDocs env userId).
Proof. intros c. unfold getDocs. case_match; apply Hlog. Qed.

Lemma idbGet_keeps : Keeps view (idbGet env).
Proof. intros c. unfold idbGet. case_match; apply Hlog. Qed.

Lemma getSavedDesigns_keeps userId : Keeps view (getSavedDesigns env userId).
Proof.
  unfold getSavedDesigns. destruct userId as [u|]; [|apply Keeps_ret].
  destruct (Js.isEmpty u); [apply Keeps_ret|].
  apply Keeps_tryCatch; [|intros; apply Keeps_ret].
  apply Keeps_bind; [apply getDocs_keeps | intros; apply Keeps_ret].
Qed.

Lemma getDraft_keeps : Keeps view (getDraft env).
Proof.
  apply Keeps_tryCatch; [apply idbGet_keeps | intros; apply Keeps_ret].
Qed.

(** Uploads change the log and the objects only. *)
Lemma uploadString_keeps path data :
  (forall c, view (setObjects (<[path := data]> (objects c)) c) = view c) ->
  Keeps view (uploadString env path data).
Proof.
  intros Hobj c. unfold uploadString. case_match; simpl; [apply Hlog|].
  rewrite <- (Hlog (EvUploadString path data true) c).
  apply (Hobj (emit (EvUploadString path data true) c)).
Qed.

Lemma uploadImageToStorage_keeps path image :
  (forall c, view (setObjects (<[path := image]> (objects c)) c) = view c) ->
  Keeps view (uploadImageToStorage env path image).
Proof.
  intros Hobj. unfold uploadImageToStorage. case_match; [apply Keeps_ret|].
  apply Keeps_tryCatch; [|intros; apply Keeps_throw].
  apply Keeps_bind; [now apply uploadString_keeps|]. intros _.
  apply Keeps_bind; [apply getDownloadURL_keeps | intros; apply Keeps_ret].
Qed.

Lemma deleteObject_keeps path :
  (forall c, view (setObjects (delete path (objects c)) c) = view c) ->
  Keeps view (deleteObject env path).
Proof.
  intros Hobj c. unfold deleteObject. repeat case_match; simpl; try apply Hlog.
  rewrite <- (Hlog (EvDeleteObject path None) c).
  apply (Hobj (emit (EvDeleteObject path None) c)).
Qed.

Lemma safeDelete_keeps path :
  (forall c, view (setObjects (delete path (objects c)) c) = view c) ->
  Keeps view (safeDelete env path).
Proof.
  intros Hobj. apply Keeps_tryCatch; [now apply deleteObject_keeps|].
  intros; apply Keeps_ret.
Qed.

Lemma setDoc_keeps id d :
  (forall c, view (setDocs (<[id := d]> (docs c)) c) = view c) ->
  Keeps view (setDoc env id d).
Proof.
  intros Hdoc c. unfold setDoc. case_match; simpl; [apply Hlog|].
  rewrite <- (Hlog (EvSetDoc id d true) c).
  apply (Hdoc (emit (EvSetDoc id d true) c)).
Qed.

Lemma deleteDoc_keeps id :
  (forall c, view (setDocs (delete id (docs c)) c) = view c) ->
  Keeps view (deleteDoc env id).
Proof.
  intros Hdoc c. unfold deleteDoc. case_match; simpl; [apply Hlog|].
  rewrite <- (Hlog (EvDeleteDoc id true) c).
  apply (Hdoc (emit (EvDeleteDoc id true) c)).
Qed.

Lemma saveDraft_keeps state :
  blindToDraft view -> Keeps view (saveDraft env state).
Proof.
  intros Hd. apply Keeps_tryCatch; [|intros; apply Keeps_ret].
  intros c. unfold idbSet. case_match; simpl; [apply Hlog|].
  now rewrite Hd, Hlog.
Qed.

Lemma clearDraft_keeps :
  blindToDraft view -> Keeps view (clearDraft env).
Proof.
  intros Hd. apply Keeps_tryCatch; [|intros; apply Keeps_ret].
  intros c. unfold idbDel. case_match; simpl; [apply Hlog|].
  now rewrite Hd, Hlog.
Qed.

(** [saveDesign] writes objects at the paths of the lineage and one record,
    nothing else. *)
Lemma saveDesign_keeps design userId :
  (forall path data c, path ∈ savePaths design userId ->
     view (setObjects (<[path := data]> (objects c)) c) = view c) ->
  (forall d c, view (setDocs (<[SavedDesign.id design := d]> (docs c)) c) = view c) ->
  Keeps view (saveDesign env design userId).
Proof.
  intros Hobj Hdoc. unfold saveDesign.
  apply Keeps_tryCatch; [|intros; apply Keeps_ret].
  apply Keeps_bind.
  { apply uploadImageToStorage_keeps. intros c. apply Hobj. now left. }
  intros originalUrl. apply Keeps_bind.
  { apply uploadImageToStorage_keeps. intros c. apply Hobj. right. now left. }
  intros generatedUrl. apply Keeps_bind.
  { assert (Hall : forall its,
              (forall it, it ∈ its -> it ∈ Lineage.iterationsOf design) ->
              Keeps view (promiseAll (map (uploadIteration env userId (SavedDesign.id design)) its))).
    { intros its Hsub. apply Keeps_promiseAll, Forall_forall.
      intros p Hp. apply list_elem_of_fmap in Hp. destruct Hp as (it & -> & Hit).
      unfold uploadIteration. apply Keeps_bind; [|intros; apply Keeps_ret].
      apply uploadImageToStorage_keeps. intros c. apply Hobj.
      right. right. apply list_elem_of_fmap. exists it. split; [reflexivity|].
      now apply Hsub. }
    unfold Lineage.iterationsOf in Hall.
    destruct (SavedDesign.iterations design) as [[|it its]|];
      [apply Keeps_ret | | apply Keeps_ret].
    apply Hall. now intros. }
  intros processed. apply Keeps_bind; [now apply setDoc_keeps|].
  intros; apply Keeps_ret.
Qed.

(** [deleteDesign] deletes objects at the paths of the stored record and the
    record itself, nothing else. *)
Lemma deleteDesign_keeps id userId :
  (forall design path c, path ∈ deletePaths design id userId ->
     view (setObjects (delete path (objects c)) c) = view c) ->
  (forall c, view (setDocs (delete id (docs c)) c) = view c) ->
  Keeps view (deleteDesign env id userId).
Proof.
  intros Hobj Hdoc. unfold deleteDesign.
  apply Keeps_tryCatch; [|intros; apply Keeps_ret].
  apply Keeps_bind; [apply getDoc_keeps|]. intros [design|].
  - apply Keeps_bind.
    { apply Keeps_bind; [|intros; apply Keeps_ret].
      rewrite deletePromises_paths. apply Keeps_promiseAll, Forall_forall.
      intros p Hp. apply list_elem_of_fmap in Hp. destruct Hp as (path & -> & Hpath).
      apply safeDelete_keeps. intros c. now apply (Hobj design). }
    intros _. apply Keeps_bind; [now apply deleteDoc_keeps|].
    intros _. apply getSavedDesigns_keeps.
  - apply Keeps_bind; [apply Keeps_ret|].
    intros _. apply Keeps_bind; [now apply deleteDoc_keeps|].
    intros _. apply getSavedDesigns_keeps.
Qed.

End Views.

End WithEnv.

End FrameFacts.

(** ** More on the storage service *)

Module StorageMore.
Import Frame storageService Sync StorageFacts FrameFacts.

(** *** Sorting *)

Lemma insertNewestFirst_perm x l : insertNewestFirst x l ≡ₚ x :: l.
Proof.
  induction l as [|y l IH]; simpl; [reflexivity|].
  destruct (_ <? _)%Z; [|reflexivity].
  rewrite IH. apply Permutation_swap.
Qed.

Lemma sortNewestFirst_perm l : sortNewestFirst l ≡ₚ l.
Proof.
  induction l as [|x l IH]; simpl; [reflexivity|].
  unfold sortNewestFirst in *. simpl. now rewrite insertNewestFirst_perm, IH.
Qed.

Lemma insertNewestFirst_sorted x l :
  Sorted newerOrEqual l -> Sorted newerOrEqual (insertNewestFirst x l).
Proof.
  induction 1 as [|y l Hs IH Hhd]; simpl; [repeat constructor|].
  destruct (SavedDesign.timestamp x <? SavedDesign.timestamp y)%Z eqn:E.
  - constructor; [exact IH|].
    apply Z.ltb_lt in E.
    destruct l as [|z l]; simpl.
    + constructor. unfold newerOrEqual. lia.
    + destruct (_ <? _)%Z; constructor.
      * now inversion Hhd.
      * unfold newerOrEqual. lia.
  - apply Z.ltb_ge in E. constructor; [now constructor|].
    constructor. exact E.
Qed.

Lemma sortNewestFirst_sorted l : Sorted newerOrEqual (sortNewestFirst l).
Proof.
  induction l as [|x l IH]; [constructor|].
  unfold sortNewestFirst in *. simpl. now apply insertNewestFirst_sorted.
Qed.

Lemma isEmpty_false_ne (s : string) : s <> "" -> Js.isEmpty s = false.
Proof. now destruct s. Qed.

(** *** Promises that never reject *)

Lemma getSavedDesigns_never_rejects env userId : NeverRejects (getSavedDesigns env userId).
Proof.
  unfold getSavedDesigns. destruct userId as [u|]; [|apply NeverRejects_ret].
  destruct (Js.isEmpty u); [apply NeverRejects_ret|].
  apply NeverRejects_tryCatch. intros e. apply NeverRejects_ret.
Qed.

Lemma getSavedDesigns_lists env userId c :
  userId <> "" ->
  getDocs_throws env c userId = false ->
  exists designs,
    value_of (getSavedDesigns env (Some userId) c) = Ok designs
    /\ designs ≡ₚ ownedBy userId c.
Proof.
  intros Hu Hg. unfold getSavedDesigns, tryCatch, bind, getDocs.
  rewrite (isEmpty_false_ne _ Hu), Hg. simpl.
  eexists. split; [reflexivity|]. apply sortNewestFirst_perm.
Qed.

Lemma saveDraft_never_rejects env state c : value_of (saveDraft env state c) = Ok tt.
Proof.
  unfold saveDraft, tryCatch, idbSet. now destruct (idb_throws env c).
Qed.

Lemma getDraft_never_rejects env : NeverRejects (getDraft env).
Proof.
  apply NeverRejects_tryCatch. intros e. apply NeverRejects_ret.
Qed.

Lemma clearDraft_never_rejects env c :
  value_of (clearDraft env c) = Ok tt
  /\ docs (cloud_of (clearDraft env c)) = docs c
  /\ objects (cloud_of (clearDraft env c)) = objects c.
Proof.
  unfold clearDraft, tryCatch, idbDel. now destruct (idb_throws env c).
Qed.

Lemma saveDesign_never_rejects env design userId c :
  exists ok,
    value_of (saveDesign env design userId c) = Ok ok
    /\ (ok = false -> docs (cloud_of (saveDesign env design userId c)) = docs c).
Proof.
  destruct (saveDesign_run env design userId c)
    as (ups & F & [(X & V & L & D) | (X & N & d & ok & S & L & V & D)]).
  - exists false. now split.
  - exists ok. split; [exact V|]. now intros ->.
Qed.

(** X1: for a user id that is set and a [getDocs] that answers,
    [getSavedDesigns] gives exactly the records of that user in the store,
    each once, ordered newest first. *)
Theorem getSavedDesigns_newest_first (env : Env) (userId : string) (c : Cloud) :
  userId <> "" ->
  getDocs_throws env c userId = false ->
  exists designs,
    value_of (getSavedDesigns env (Some userId) c) = Ok designs
    /\ designs ≡ₚ ownedBy userId c
    /\ Sorted newerOrEqual designs.
Proof.
  intros Hu Hg. unfold getSavedDesigns, tryCatch, bind, getDocs.
  rewrite (isEmpty_false_ne _ Hu), Hg. simpl.
  eexists. split; [reflexivity|]. split.
  - apply sortNewestFirst_perm.
  - apply sortNewestFirst_sorted.
Qed.

Lemma getSavedDesigns_newest_first_witness :
  exists designs,
    value_of (getSavedDesigns reliable (Some "u1") cloudWithTwo) = Ok designs
    /\ designs ≡ₚ ownedBy "u1" cloudWithTwo
    /\ Sorted newerOrEqual designs.
Proof.
  apply (getSavedDesigns_newest_first reliable "u1" cloudWithTwo);
    [discriminate | reflexivity].
Defined.

(** X2: [getSavedDesigns] never rejects and never writes: the records, the
    objects and the draft are as before.  Without a user id (absent or
    empty) it answers the empty list without a call; when [getDocs] throws
    it answers the empty list. *)
Theorem getSavedDesigns_reads_only (env : Env) (userId : option string) (c : Cloud) :
  (exists designs, value_of (getSavedDesigns env userId c) = Ok designs)
  /\ docs (cloud_of (getSavedDesigns env userId c)) = docs c
  /\ objects (cloud_of (getSavedDesigns env userId c)) = objects c
  /\ draft (cloud_of (getSavedDesigns env userId c)) = draft c
  /\ (Js.truthy userId = false ->
      getSavedDesigns env userId c = (c, Ok []))
  /\ (forall u, userId = Some u -> getDocs_throws env c u = true ->
      value_of (getSavedDesigns env userId c) = Ok []).
Proof.
  split; [|split; [|split; [|split; [|split]]]].
  - unfold getSavedDesigns. destruct userId as [u|]; [|now exists []].
    destruct (Js.isEmpty u); [now exists []|].
    apply NeverRejects_tryCatch. intros e. apply NeverRejects_ret.
  - now apply (getSavedDesigns_keeps env docs).
  - now apply (getSavedDesigns_keeps env objects).
  - now apply (getSavedDesigns_keeps env draft).
  - unfold getSavedDesigns. destruct userId as [u|]; [|reflexivity].
    simpl. destruct (Js.isEmpty u); [reflexivity | discriminate].
  - intros u -> Hg. unfold getSavedDesigns.
    destruct (Js.isEmpty u); [reflexivity|].
    unfold tryCatch, bind, getDocs. now rewrite Hg.
Qed.

(** *** Drafts *)

(** X3: on a healthy browser store the draft slot is a cell: a draft saved
    is the draft read back, whatever was there before, and after
    [clearDraft] there is no draft. *)
Theorem draft_roundtrip (env : Env) (state : AutoSaveState.t) (c : Cloud) :
  idbHealthy env ->
  value_of (getDraft env (cloud_of (saveDraft env state c))) = Ok (Some state)
  /\ value_of (getDraft env (cloud_of (clearDraft env c))) = Ok None.
Proof.
  intros H. split.
  - unfold saveDraft, tryCatch, idbSet. rewrite (H c). simpl.
    unfold getDraft, tryCatch, idbGet. now rewrite H.
  - unfold clearDraft, tryCatch, idbDel. rewrite (H c). simpl.
    unfold getDraft, tryCatch, idbGet. now rewrite H.
Qed.

Lemma reliable_idbHealthy : idbHealthy reliable.
Proof. intros c. reflexivity. Qed.

Lemma draft_roundtrip_witness :
  let state := AutoSaveState.mk 5000 "add a pool" (Some "data:image/png;base64,AAAA")
                 None [] (Some "data:image/png;base64,AAAA") IDLE in
  value_of (getDraft reliable (cloud_of (saveDraft reliable state emptyCloud)))
  = Ok (Some state)
  /\ value_of (getDraft reliable (cloud_of (clearDraft reliable emptyCloud))) = Ok None.
Proof.
  apply (draft_roundtrip reliable _ emptyCloud). exact reliable_idbHealthy.
Defined.

(** X4: the draft functions are best effort.  None of [saveDraft],
    [getDraft] and [clearDraft] ever rejects, none touches the records or
    the objects, [getDraft] leaves the slot as it is too, and answers what
    the slot holds when the browser store answers; when the browser store
    throws, the slot keeps what it held and [getDraft] answers
    [undefined]. *)
Theorem draft_best_effort (env : Env) (state : AutoSaveState.t) (c : Cloud) :
  value_of (saveDraft env state c) = Ok tt
  /\ value_of (clearDraft env c) = Ok tt
  /\ (exists d, value_of (getDraft env c) = Ok d)
  /\ (docs (cloud_of (saveDraft env state c)) = docs c
      /\ objects (cloud_of (saveDraft env state c)) = objects c)
  /\ (docs (cloud_of (clearDraft env c)) = docs c
      /\ objects (cloud_of (clearDraft env c)) = objects c)
  /\ (idb_throws env c = true ->
      draft (cloud_of (saveDraft env state c)) = draft c
      /\ draft (cloud_of (clearDraft env c)) = draft c
      /\ value_of (getDraft env c) = Ok None)
  /\ (docs (cloud_of (getDraft env c)) = docs c
      /\ objects (cloud_of (getDraft env c)) = objects c
      /\ draft (cloud_of (getDraft env c)) = draft c)
  /\ (idb_throws env c = false -> value_of (getDraft env c) = Ok (draft c)).
Proof.
  unfold saveDraft, clearDraft, getDraft, tryCatch, idbSet, idbDel, idbGet.
  destruct (idb_throws env c); simpl; repeat split; eauto; discriminate.
Qed.

(** *** Saving *)

Lemma startsWith_app_head p s t :
  Js.startsWith (p +:+ s) (p +:+ t) = Js.startsWith s t.
Proof.
  induction p as [|a p IH]; [reflexivity|].
  change (Js.startsWith (String a (p +:+ s)) (String a (p +:+ t)) = Js.startsWith s t).
  simpl. now rewrite Ascii.eqb_refl.
Qed.

Lemma paths_in_folder userId id :
  Js.startsWith (designFolder userId id) (originalPath userId id) = true
  /\ Js.startsWith (designFolder userId id) (generatedPath userId id) = true
  /\ forall iterId,
       Js.startsWith (designFolder userId id) (iterationPath userId id iterId) = true.
Proof.
  unfold designFolder, originalPath, generatedPath, iterationPath.
  repeat split; intros; now rewrite !startsWith_app_head.
Qed.

Lemma savePaths_in_folder design userId path :
  path ∈ savePaths design userId ->
  Js.startsWith (designFolder userId (SavedDesign.id design)) path = true.
Proof.
  destruct (paths_in_folder userId (SavedDesign.id design)) as (Ho & Hg & Hi).
  unfold savePaths. rewrite !elem_of_cons, list_elem_of_fmap.
  intros [-> | [-> | (it & -> & _)]]; auto.
Qed.

Lemma deletePaths_in_folder design id userId path :
  path ∈ deletePaths design id userId ->
  Js.startsWith (designFolder userId id) path = true.
Proof.
  destruct (paths_in_folder userId id) as (Ho & Hg & Hi).
  unfold deletePaths. rewrite !elem_of_app. intros [H | [H | H]].
  - destruct (uploaded _); [|now apply not_elem_of_nil in H].
    apply list_elem_of_singleton in H. now subst.
  - destruct (uploaded _); [|now apply not_elem_of_nil in H].
    apply list_elem_of_singleton in H. now subst.
  - apply list_elem_of_In, in_flat_map in H. destruct H as (it & _ & H).
    destruct (uploaded _); [|destruct H]. destruct H as [<- | []]. apply Hi.
Qed.

Lemma uploadImageToStorage_skip env path image c :
  isInline image = false -> uploadImageToStorage env path image c = (c, Ok image).
Proof.
  intros H. unfold uploadImageToStorage. rewrite isInline_negb in H.
  apply negb_false_iff in H. now rewrite H.
Qed.

Lemma uploadIterations_skip env userId id iterations c :
  forallb (fun it => negb (isInline (DesignIteration.image it))) iterations = true ->
  promiseAll (map (uploadIteration env userId id) iterations) c = (c, Ok iterations).
Proof.
  induction iterations as [|it its IH]; [reflexivity|].
  simpl. intros H. apply andb_true_iff in H. destruct H as [Hit Hits].
  apply negb_true_iff in Hit.
  unfold uploadIteration at 1. unfold bind.
  rewrite (uploadImageToStorage_skip _ _ _ _ Hit). unfold ret at 1.
  rewrite (IH Hits). now destruct it.
Qed.

(** X5: saving a lineage none of whose references is inline (one that was
    saved before) uploads nothing: the only call is the metadata write, of
    the same lineage under the user's id, and the objects are untouched.
    When the lineage already names that user and has its list of
    iterations, the record written is the lineage itself. *)
Theorem saveDesign_resave (env : Env) (design : SavedDesign.t) (userId : string)
    (c : Cloud) :
  noInline design = true ->
  let d := SavedDesign.mk (SavedDesign.id design) (Some userId)
             (SavedDesign.timestamp design) (SavedDesign.originalImage design)
             (SavedDesign.generatedImage design) (SavedDesign.prompt design)
             (Some (Lineage.iterationsOf design)) in
  exists ok,
    eventsOf (saveDesign env design userId) c = [EvSetDoc (SavedDesign.id design) d ok]
    /\ value_of (saveDesign env design userId c) = Ok ok
    /\ objects (cloud_of (saveDesign env design userId c)) = objects c
    /\ (ok = true ->
        docs (cloud_of (saveDesign env design userId c))
        = <[SavedDesign.id design := d]> (docs c))
    /\ (SavedDesign.userId design = Some userId ->
        is_Some (SavedDesign.iterations design) -> d = design).
Proof.
  intros H. cbv zeta. unfold noInline in H. rewrite !andb_true_iff in H.
  destruct H as [[Ho Hg] Hi]. apply negb_true_iff in Ho, Hg.
  assert (Hits : (match SavedDesign.iterations design with
                  | Some ((_ :: _) as iterations) =>
                      promiseAll (map (uploadIteration env userId (SavedDesign.id design))
                                    iterations)
                  | _ => ret []
                  end) c = (c, Ok (Lineage.iterationsOf design))).
  { unfold Lineage.iterationsOf in *.
    destruct (SavedDesign.iterations design) as [[|it its]|]; try reflexivity.
    now apply uploadIterations_skip. }
  set (d := SavedDesign.mk (SavedDesign.id design) (Some userId)
              (SavedDesign.timestamp design) (SavedDesign.originalImage design)
              (SavedDesign.generatedImage design) (SavedDesign.prompt design)
              (Some (Lineage.iterationsOf design))).
  assert (Hrun : exists ok,
            saveDesign env design userId c
            = (if ok : bool
               then setDocs (<[SavedDesign.id design := d]> (docs c))
                      (emit (EvSetDoc (SavedDesign.id design) d ok) c)
               else emit (EvSetDoc (SavedDesign.id design) d ok) c, Ok ok)).
  { unfold saveDesign, tryCatch, bind.
    rewrite (uploadImageToStorage_skip _ _ _ _ Ho),
      (uploadImageToStorage_skip _ _ _ _ Hg), Hits.
    unfold setDoc. fold d. destruct (setDoc_throws env c (SavedDesign.id design));
      [now exists false | now exists true]. }
  destruct Hrun as (ok & Hrun). exists ok. rewrite Hrun.
  split. { unfold eventsOf. rewrite Hrun. destruct ok; simpl; apply drop_app_length. }
  split; [reflexivity|]. split; [now destruct ok|]. split; [now intros ->|].
  intros Hu [its Hsome]. subst d. unfold Lineage.iterationsOf. rewrite Hsome. simpl.
  destruct design; simpl in *. now subst.
Qed.

Lemma saveDesign_resave_witness :
  exists ok,
    eventsOf (saveDesign reliable otherDesign "u1") cloudWithTwo
    = [EvSetDoc "d4" otherDesign ok]
    /\ value_of (saveDesign reliable otherDesign "u1" cloudWithTwo) = Ok ok
    /\ objects (cloud_of (saveDesign reliable otherDesign "u1" cloudWithTwo))
       = objects cloudWithTwo
    /\ (ok = true ->
        docs (cloud_of (saveDesign reliable otherDesign "u1" cloudWithTwo))
        = <["d4" := otherDesign]> (docs cloudWithTwo))
    /\ (SavedDesign.userId otherDesign = Some "u1" ->
        is_Some (SavedDesign.iterations otherDesign) -> otherDesign = otherDesign).
Proof.
  apply (saveDesign_resave reliable otherDesign "u1" cloudWithTwo). reflexivity.
Defined.

(** X6: [saveDesign] never rejects and its boolean is exact: on [false] the
    metadata store is as it was, on [true] it differs by the one record of
    this lineage, whose fields are those of the lineage with each inline
    reference replaced by a download URL. *)
Theorem saveDesign_answer_is_exact (env : Env) (design : SavedDesign.t)
    (userId : string) (c : Cloud) :
  exists ok,
    value_of (saveDesign env design userId c) = Ok ok
    /\ (ok = false -> docs (cloud_of (saveDesign env design userId c)) = docs c)
    /\ (ok = true ->
        exists d, savedFrom env userId design d
                  /\ docs (cloud_of (saveDesign env design userId c))
                     = <[SavedDesign.id design := d]> (docs c)).
Proof.
  destruct (saveDesign_run env design userId c)
    as (ups & F & [(X & V & L & D) | (X & N & d & ok & S & L & V & D)]).
  - exists false. split; [exact V|]. split; [now intros _ | discriminate].
  - exists ok. split; [exact V|]. split; intros ->; [exact D|].
    exists d. now split.
Qed.

(** X7: a lineage saved is a lineage listed.  When [saveDesign] answers
    [true] for a user id that is set, the record is in the store under the
    id of the lineage, and [getSavedDesigns] for that user, run next,
    lists it (if [getDocs] answers). *)
Theorem saved_design_is_listed (env : Env) (design : SavedDesign.t)
    (userId : string) (c : Cloud) :
  userId <> "" ->
  value_of (saveDesign env design userId c) = Ok true ->
  getDocs_throws env (cloud_of (saveDesign env design userId c)) userId = false ->
  exists d designs,
    docs (cloud_of (saveDesign env design userId c)) !! SavedDesign.id design = Some d
    /\ savedFrom env userId design d
    /\ value_of (getSavedDesigns env (Some userId)
                   (cloud_of (saveDesign env design userId c))) = Ok designs
    /\ d ∈ designs.
Proof.
  intros Hu Hv Hg.
  destruct (saveDesign_run env design userId c)
    as (ups & F & [(X & V & L & D) | (X & N & d & ok & S & L & V & D)]);
    rewrite Hv in V; [discriminate|]. injection V as <-.
  destruct (getSavedDesigns_lists env userId _ Hu Hg) as (designs & Vd & P).
  exists d, designs. split; [rewrite D; apply lookup_insert_eq|].
  split; [exact S|]. split; [exact Vd|].
  rewrite P. unfold ownedBy. apply list_elem_of_filter. split.
  - now destruct S as (_ & Hid & _).
  - apply list_elem_of_fmap. exists (SavedDesign.id design, d). split; [reflexivity|].
    apply elem_of_map_to_list. rewrite D. apply lookup_insert_eq.
Qed.

Lemma saved_design_is_listed_witness :
  exists d designs,
    docs (cloud_of (saveDesign reliable Lineage.twoStepDesign "u1" cloudWithTwo)) !! "d2"
    = Some d
    /\ savedFrom reliable "u1" Lineage.twoStepDesign d
    /\ value_of (getSavedDesigns reliable (Some "u1")
                   (cloud_of (saveDesign reliable Lineage.twoStepDesign "u1" cloudWithTwo)))
       = Ok designs
    /\ d ∈ designs.
Proof.
  apply (saved_design_is_listed reliable Lineage.twoStepDesign "u1" cloudWithTwo);
    [discriminate | vm_compute; reflexivity | reflexivity].
Defined.

(** X8: [saveDesign] stays in its folder.  Every object outside
    [users/<userId>/<id>/] is as before, so is every record stored under
    another id, and so is the draft - whether the save goes through or
    not. *)
Theorem saveDesign_stays_in_folder (env : Env) (design : SavedDesign.t)
    (userId : string) (c : Cloud) :
  (forall path,
     Js.startsWith (designFolder userId (SavedDesign.id design)) path = false ->
     objects (cloud_of (saveDesign env design userId c)) !! path = objects c !! path)
  /\ (forall id, id <> SavedDesign.id design ->
      docs (cloud_of (saveDesign env design userId c)) !! id = docs c !! id)
  /\ draft (cloud_of (saveDesign env design userId c)) = draft c.
Proof.
  split; [|split].
  - intros path Hout.
    apply (saveDesign_keeps env (fun c => objects c !! path)); [easy | | easy].
    intros p data c0 Hin. simpl. apply lookup_insert_ne. intros ->.
    apply savePaths_in_folder in Hin. congruence.
  - intros id Hne.
    apply (saveDesign_keeps env (fun c => docs c !! id)); [easy | easy |].
    intros d c0. simpl. now apply lookup_insert_ne.
  - now apply (saveDesign_keeps env draft).
Qed.

(** *** Deleting *)

(** X9: [deleteDesign] stays in its folder.  Every object outside
    [users/<userId>/<id>/] is as before, so is every record stored under
    another id, and so is the draft - whatever throws. *)
Theorem deleteDesign_stays_in_folder (env : Env) (id userId : string) (c : Cloud) :
  (forall path,
     Js.startsWith (designFolder userId id) path = false ->
     objects (cloud_of (deleteDesign env id userId c)) !! path = objects c !! path)
  /\ (forall other, other <> id ->
      docs (cloud_of (deleteDesign env id userId c)) !! other = docs c !! other)
  /\ draft (cloud_of (deleteDesign env id userId c)) = draft c.
Proof.
  split; [|split].
  - intros path Hout.
    apply (deleteDesign_keeps env (fun c => objects c !! path)); [easy | | easy].
    intros design p c0 Hin. simpl. apply lookup_delete_ne. intros ->.
    apply deletePaths_in_folder in Hin. congruence.
  - intros other Hne.
    apply (deleteDesign_keeps env (fun c => docs c !! other)); [easy | easy |].
    intros c0. simpl. now apply lookup_delete_ne.
  - now apply (deleteDesign_keeps env draft).
Qed.

(** X10: when the run of [deleteDesign] ends with [getDocs] answering, the
    record is gone from the store and the list returned is, newest first,
    exactly the user's records stored under the other ids. *)
Theorem deleteDesign_lists_survivors (env : Env) (id userId : string) (c : Cloud) :
  In (EvGetDocs userId true) (eventsOf (deleteDesign env id userId) c) ->
  exists designs,
    value_of (deleteDesign env id userId c) = Ok designs
    /\ docs (cloud_of (deleteDesign env id userId c)) = delete id (docs c)
    /\ Sorted newerOrEqual designs
    /\ forall d, d ∈ designs <->
                 SavedDesign.userId d = Some userId
                 /\ exists other, other <> id /\ docs c !! other = Some d.
Proof.
  destruct (deleteDesign_run env id userId c)
    as [(Hg & L & V & D) | (Hg & dels & tail & F & L & Htail)];
    rewrite (eventsOf_eq _ _ _ L).
  { simpl. intuition discriminate. }
  intros Hin. destruct Hin as [Hin | Hin]; [discriminate|].
  apply in_app_iff in Hin. destruct Hin as [Hin | Hin].
  { rewrite Forall_forall in F. apply list_elem_of_In, F in Hin.
    destruct Hin as (path & o & Hin & _). discriminate. }
  destruct Htail as [(-> & _) | (D & [(-> & _) | [(-> & _) | (-> & V)]])];
    try (simpl in Hin; intuition discriminate).
  eexists. split; [exact V|]. split; [exact D|].
  split; [apply sortNewestFirst_sorted|].
  intros d. rewrite sortNewestFirst_perm, list_elem_of_filter, list_elem_of_fmap.
  split.
  - intros (Hu & [other d'] & -> & Hd). split; [exact Hu|].
    apply elem_of_map_to_list, lookup_delete_Some in Hd. destruct Hd as [Hne Hd].
    exists other. split; [congruence | exact Hd].
  - intros (Hu & other & Hne & Hd). split; [exact Hu|].
    exists (other, d). split; [reflexivity|].
    apply elem_of_map_to_list, lookup_delete_Some. split; [congruence | exact Hd].
Qed.

Lemma deleteDesign_lists_survivors_witness :
  exists designs,
    value_of (deleteDesign reliable "d3" "u1" cloudWithTwo) = Ok designs
    /\ docs (cloud_of (deleteDesign reliable "d3" "u1" cloudWithTwo))
       = delete "d3" (docs cloudWithTwo)
    /\ Sorted newerOrEqual designs
    /\ forall d, d ∈ designs <->
                 SavedDesign.userId d = Some "u1"
                 /\ exists other, other <> "d3" /\ docs cloudWithTwo !! other = Some d.
Proof.
  apply (deleteDesign_lists_survivors reliable "d3" "u1" cloudWithTwo).
  vm_compute. tauto.
Defined.

(** X11: deleting an id that is not in the store (and [getDoc] answers)
    issues no storage call at all; [deleteDoc] is still issued, and the
    records and the objects are as before. *)
Theorem deleteDesign_missing_record (env : Env) (id userId : string) (c : Cloud) :
  docs c !! id = None ->
  getDoc_throws env c id = false ->
  existsb (fun e => match e with EvDeleteObject _ _ => true | _ => false end)
    (eventsOf (deleteDesign env id userId) c) = false
  /\ existsb (isDeleteDocOf id) (eventsOf (deleteDesign env id userId) c) = true
  /\ docs (cloud_of (deleteDesign env id userId c)) = docs c
  /\ objects (cloud_of (deleteDesign env id userId c)) = objects c.
Proof.
  intros Hnone Hget.
  assert (Hobj : objects (cloud_of (deleteDesign env id userId c)) = objects c).
  { unfold deleteDesign, tryCatch, bind, getDoc. rewrite Hget, Hnone.
    unfold ret at 1. unfold deleteDoc. cbn [emit docs objects].
    destruct (deleteDoc_throws env _ id); [reflexivity|].
    match goal with |- context [getSavedDesigns env ?u ?c0] =>
      pose proof (getSavedDesigns_keeps env objects (fun _ _ => eq_refl) u c0) as K;
      destruct (getSavedDesigns env u c0) as [c1 [l|e]] end; exact K. }
  destruct (deleteDesign_run env id userId c)
    as [(Hg & _) | (_ & dels & tail & F & L & Htail)]; [congruence|].
  rewrite Hnone in F. rewrite (eventsOf_eq _ _ _ L).
  assert (dels = []) as ->.
  { destruct F as [|e dels (path & o & _ & Hin) _]; [reflexivity|].
    now apply not_elem_of_nil in Hin. }
  simpl.
  destruct Htail as [(-> & _ & _ & D) | (D & [(-> & _) | [(-> & _) | (-> & _)]])];
    simpl; rewrite ?bool_decide_eq_true_2 by reflexivity;
    rewrite ?D, ?(delete_id _ _ Hnone); repeat split; assumption.
Qed.

Lemma deleteDesign_missing_record_witness :
  existsb (fun e => match e with EvDeleteObject _ _ => true | _ => false end)
    (eventsOf (deleteDesign reliable "nope" "u1") cloudWithTwo) = false
  /\ existsb (isDeleteDocOf "nope") (eventsOf (deleteDesign reliable "nope" "u1") cloudWithTwo)
     = true
  /\ docs (cloud_of (deleteDesign reliable "nope" "u1" cloudWithTwo)) = docs cloudWithTwo
  /\ objects (cloud_of (deleteDesign reliable "nope" "u1" cloudWithTwo))
     = objects cloudWithTwo.
Proof.
  apply (deleteDesign_missing_record reliable "nope" "u1" cloudWithTwo);
    vm_compute; reflexivity.
Defined.

End StorageMore.

(** ** More on the session *)

Module SessionMore.
Import App AppEffects Lineage AppFacts Frame Sync StorageMore.

Lemma length_snoc_eqb {A} (l : list A) (x : A) : (length (l ++ [x]) =? 0)%nat = false.
Proof. rewrite length_app. simpl. apply Nat.eqb_neq. lia. Qed.

Lemma promote_Some fresh u s R W :
  generatedImage s = Some R -> R <> "" -> imagePreview s = Some W -> W <> "" ->
  promote fresh (Some u) s
  = Some (SavedDesign.mk (designId fresh) (Some (User.id u)) (designTime fresh)
            (default W (Js.orElse (originalImageRef s) (Some W))) R (prompt s)
            (Some (pastIterations s
                   ++ [DesignIteration.mk (iterationId fresh) (prompt s) R
                         (iterationTime fresh)]))).
Proof.
  intros Hg HR Hw HW. unfold promote. rewrite Hg, Hw.
  apply isEmpty_false in HR, HW. now rewrite HR, HW.
Qed.

Lemma invariant_working_image s W :
  workingImageInvariant s -> imagePreview s = Some W -> W <> "" ->
  Some match last (pastIterations s) with
       | Some previous => DesignIteration.image previous
       | None => default W (Js.orElse (originalImageRef s) (Some W))
       end = imagePreview s.
Proof.
  unfold workingImageInvariant. intros Hinv Hw HW.
  destruct (last (pastIterations s)); [congruence|].
  rewrite Hw in Hinv. rewrite <- Hinv. unfold Js.orElse.
  now rewrite (truthy_Some _ HW).
Qed.

(** X12: round trip through a lineage, for any history.  A session with a
    result and a working image (both set) is promoted, and viewing the
    lineage from any session gives back the history, the result and the
    prompt, in the state SUCCEEDED with no file selected, and satisfies the
    invariant of the working image; when the session satisfied it too, the
    working image is given back as well. *)
Theorem promote_then_view_any_history (fresh : Fresh) (u : User.t)
    (s s0 : AppModel) (R W : string) :
  generatedImage s = Some R -> R <> "" ->
  imagePreview s = Some W -> W <> "" ->
  exists lineage,
    promote fresh (Some u) s = Some lineage
    /\ pastIterations (handleLoadDesign lineage s0) = pastIterations s
    /\ generatedImage (handleLoadDesign lineage s0) = Some R
    /\ prompt (handleLoadDesign lineage s0) = prompt s
    /\ appState (handleLoadDesign lineage s0) = SUCCESS
    /\ selectedFile (handleLoadDesign lineage s0) = None
    /\ workingImageInvariant (handleLoadDesign lineage s0)
    /\ (workingImageInvariant s ->
        imagePreview (handleLoadDesign lineage s0) = imagePreview s).
Proof.
  intros Hg HR Hw HW. eexists. split; [apply promote_Some; eassumption|].
  unfold handleLoadDesign. cbn [SavedDesign.iterations default from_option id].
  rewrite length_snoc_eqb. cbn [andb]. rewrite last_snoc.
  cbn -[slice_0_minus1]. rewrite slice_snoc.
  repeat split.
  - unfold workingImageInvariant. cbn.
    now destruct (last (pastIterations s)).
  - intros Hinv. now apply invariant_working_image.
Qed.

Lemma promote_then_view_any_history_witness :
  exists lineage,
    promote someFresh (Some someUser) succeededSession = Some lineage
    /\ pastIterations (handleLoadDesign lineage initial) = pastIterations succeededSession
    /\ generatedImage (handleLoadDesign lineage initial)
       = Some "data:image/png;base64,CCCC"
    /\ prompt (handleLoadDesign lineage initial) = prompt succeededSession
    /\ appState (handleLoadDesign lineage initial) = SUCCESS
    /\ selectedFile (handleLoadDesign lineage initial) = None
    /\ workingImageInvariant (handleLoadDesign lineage initial)
    /\ (workingImageInvariant succeededSession ->
        imagePreview (handleLoadDesign lineage initial) = imagePreview succeededSession).
Proof.
  apply (promote_then_view_any_history someFresh someUser succeededSession initial
           "data:image/png;base64,CCCC" "data:image/png;base64,BBBB");
    first [reflexivity | discriminate].
Defined.

(** X13: promotion followed by reconstruction for editing gives back the
    history and the prompt with no result, in the state IDLE; when the
    session satisfied the invariant of the working image, the working image
    is given back too: the session is the one that preceded the
    generation. *)
Theorem promote_then_edit (fresh : Fresh) (u : User.t) (s s0 : AppModel)
    (R W : string) :
  generatedImage s = Some R -> R <> "" ->
  imagePreview s = Some W -> W <> "" ->
  exists lineage,
    promote fresh (Some u) s = Some lineage
    /\ pastIterations (handleEditDesign lineage s0) = pastIterations s
    /\ generatedImage (handleEditDesign lineage s0) = None
    /\ prompt (handleEditDesign lineage s0) = prompt s
    /\ appState (handleEditDesign lineage s0) = IDLE
    /\ (workingImageInvariant s ->
        imagePreview (handleEditDesign lineage s0) = imagePreview s).
Proof.
  intros Hg HR Hw HW. eexists. split; [apply promote_Some; eassumption|].
  unfold handleEditDesign.
  cbn [SavedDesign.iterations default from_option id mbind option_bind].
  rewrite last_snoc. cbn -[slice_0_minus1]. rewrite slice_snoc.
  repeat split. intros Hinv. now apply invariant_working_image.
Qed.

Lemma promote_then_edit_witness :
  exists lineage,
    promote someFresh (Some someUser) succeededSession = Some lineage
    /\ pastIterations (handleEditDesign lineage initial) = pastIterations succeededSession
    /\ generatedImage (handleEditDesign lineage initial) = None
    /\ prompt (handleEditDesign lineage initial) = prompt succeededSession
    /\ appState (handleEditDesign lineage initial) = IDLE
    /\ (workingImageInvariant succeededSession ->
        imagePreview (handleEditDesign lineage initial) = imagePreview succeededSession).
Proof.
  apply (promote_then_edit someFresh someUser succeededSession initial
           "data:image/png;base64,CCCC" "data:image/png;base64,BBBB");
    first [reflexivity | discriminate].
Defined.

(** X14: what [confirmSaveDesign] builds.  There is a lineage exactly when
    a user is signed in and the result and the working image are set; its
    history is the history of the session and one more step, which carries
    the result and the prompt of the lineage; its root is the root of the
    session when that is set, and the working image otherwise. *)
Theorem promote_builds_a_lineage (fresh : Fresh) (user : option User.t) (s : AppModel) :
  (promote fresh user s = None <->
     user = None \/ Js.truthy (generatedImage s) = false
     \/ Js.truthy (imagePreview s) = false)
  /\ forall lineage,
       promote fresh user s = Some lineage ->
       wellFormed lineage
       /\ slice_0_minus1 (iterationsOf lineage) = pastIterations s
       /\ Some (SavedDesign.generatedImage lineage) = generatedImage s
       /\ Some (SavedDesign.originalImage lineage)
          = Js.orElse (originalImageRef s) (imagePreview s).
Proof.
  unfold promote. split.
  - destruct (generatedImage s) as [r|], (imagePreview s) as [w|], user as [u|];
      simpl; try (split; [tauto | trivial]).
    destruct (Js.isEmpty r), (Js.isEmpty w); simpl;
      split; try tauto; try discriminate;
      intros [H | [H | H]]; discriminate.
  - intros lineage.
    destruct (generatedImage s) as [r|], (imagePreview s) as [w|], user as [u|];
      try discriminate.
    destruct (Js.isEmpty r) eqn:Er, (Js.isEmpty w) eqn:Ew; try discriminate.
    simpl. intros [= <-]. unfold wellFormed, iterationsOf. simpl.
    rewrite last_snoc, slice_snoc. repeat split.
    + eexists. repeat split.
    + unfold Js.orElse. destruct (Js.truthy (originalImageRef s)) eqn:Et; [|reflexivity].
      destruct (originalImageRef s); [reflexivity | discriminate].
Qed.

(** X15: viewing and editing a stored lineage recover the same input: the
    same root, the same working image and the same prompt, and - unless the
    record has neither a history nor a result - the same history.  Editing
    then shows no result, in the state IDLE. *)
Theorem view_and_edit_agree (design : SavedDesign.t) (s : AppModel) :
  originalImageRef (handleEditDesign design s) = originalImageRef (handleLoadDesign design s)
  /\ imagePreview (handleEditDesign design s) = imagePreview (handleLoadDesign design s)
  /\ prompt (handleEditDesign design s) = prompt (handleLoadDesign design s)
  /\ generatedImage (handleEditDesign design s) = None
  /\ appState (handleEditDesign design s) = IDLE
  /\ (iterationsOf design <> [] \/ SavedDesign.generatedImage design <> "" ->
      pastIterations (handleEditDesign design s)
      = pastIterations (handleLoadDesign design s)).
Proof.
  unfold handleEditDesign, handleLoadDesign, iterationsOf.
  destruct (SavedDesign.iterations design) as [its|];
    cbn [default from_option id mbind option_bind].
  - destruct (last its) as [l|] eqn:El.
    + assert (Hlen : (length its =? 0)%nat = false).
      { destruct its; [discriminate El | reflexivity]. }
      rewrite Hlen. cbn [andb]. rewrite El. cbn -[slice_0_minus1]. repeat split.
    + apply last_None in El. subst its. cbn [length Nat.eqb andb].
      destruct (Js.isEmpty (SavedDesign.generatedImage design)) eqn:Eg; cbn;
        repeat split.
      intros [H | H]; [congruence|]. apply isEmpty_true in Eg. congruence.
  - cbn [length Nat.eqb andb].
    destruct (Js.isEmpty (SavedDesign.generatedImage design)) eqn:Eg; cbn;
      repeat split.
    intros [H | H]; [congruence|]. apply isEmpty_true in Eg. congruence.
Qed.

(** *** The draft across a reload *)

Lemma saveDraft_healthy env state c :
  idbHealthy env ->
  storageService.saveDraft env state c
  = (setDraftSlot (Some state) (emit (EvDraftSet true) c), Ok tt).
Proof.
  intros H. unfold storageService.saveDraft, tryCatch, storageService.idbSet.
  now rewrite H.
Qed.

Lemma getDraft_healthy env c :
  idbHealthy env ->
  storageService.getDraft env c = (emit (EvDraftGet true) c, Ok (draft c)).
Proof.
  intros H. unfold storageService.getDraft, tryCatch, storageService.idbGet.
  now rewrite H.
Qed.

Lemma clearDraft_healthy env c :
  idbHealthy env ->
  storageService.clearDraft env c
  = (setDraftSlot None (emit (EvDraftDel true) c), Ok tt).
Proof.
  intros H. unfold storageService.clearDraft, tryCatch, storageService.idbDel.
  now rewrite H.
Qed.

(** A fresh mount, with nobody signed in, over a cloud that holds the draft
    [d]. *)
Lemma init_restores env d c :
  idbHealthy env -> draft c = Some d -> AutoSaveState.timestamp d <> 0 ->
  value_of (init env None initial id id c)
  = Ok (restoreDraft d (setSavedDesigns [] initial)).
Proof.
  intros H Hd Ht. unfold init, bind. unfold ret at 1.
  rewrite (getDraft_healthy _ _ H), Hd.
  apply Z.eqb_neq in Ht. now rewrite Ht.
Qed.

(** X16: the auto-save does nothing for an empty session, and what it
    saves comes back.  With no working image and an empty prompt the
    interval callback issues no call and changes nothing.  Otherwise, on a
    healthy browser store and with a clock that does not read 0, a fresh
    mount after the tick restores the state, the working image, the
    result, the history, the root and the prompt of the session; the
    selected file is not restored. *)
Theorem autoSave_then_reload (env : Env) (now1 now2 : Z) (s : AppModel) (c : Cloud) :
  (Js.truthy (imagePreview s) = false -> prompt s = "" ->
   autoSave env now1 now2 s c = (c, Ok s))
  /\ (idbHealthy env -> now1 <> 0 ->
      Js.truthy (imagePreview s) = true \/ prompt s <> "" ->
      exists s',
        value_of (init env None initial id id
                    (cloud_of (autoSave env now1 now2 s c))) = Ok s'
        /\ appState s' = appState s
        /\ imagePreview s' = imagePreview s
        /\ generatedImage s' = generatedImage s
        /\ pastIterations s' = pastIterations s
        /\ originalImageRef s' = originalImageRef s
        /\ prompt s' = prompt s
        /\ selectedFile s' = None
        /\ lastAutoSave s' = Some now1).
Proof.
  split.
  - intros Hi Hp. unfold autoSave. now rewrite Hi, Hp.
  - intros H Hnow Hcontent.
    assert (Hguard : Js.truthy (imagePreview s) || negb (Js.isEmpty (prompt s)) = true).
    { destruct Hcontent as [-> | Hp]; [reflexivity|].
      apply isEmpty_false in Hp. rewrite Hp. apply orb_true_r. }
    unfold autoSave. rewrite Hguard. unfold bind.
    rewrite (saveDraft_healthy _ _ _ H). cbn [ret cloud_of fst].
    eexists. split.
    + apply init_restores; [exact H | reflexivity | exact Hnow].
    + repeat split.
Qed.

Lemma autoSave_then_reload_witness :
  exists s',
    value_of (init reliable None initial id id
                (cloud_of (autoSave reliable 5000 5001 succeededSession emptyCloud)))
    = Ok s'
    /\ appState s' = appState succeededSession
    /\ imagePreview s' = imagePreview succeededSession
    /\ generatedImage s' = generatedImage succeededSession
    /\ pastIterations s' = pastIterations succeededSession
    /\ originalImageRef s' = originalImageRef succeededSession
    /\ prompt s' = prompt succeededSession
    /\ selectedFile s' = None
    /\ lastAutoSave s' = Some 5000.
Proof.
  apply (proj2 (autoSave_then_reload reliable 5000 5001 succeededSession emptyCloud));
    [exact reliable_idbHealthy | discriminate | now left].
Defined.

(** X17: a result survives a reload.  When a generation succeeds, the draft
    written right away (on a healthy browser store, by a clock that does
    not read 0) carries the new result: a fresh mount restores the state
    SUCCEEDED with that result over the working image, the history, the
    root and the prompt the generation was started with. *)
Theorem result_survives_reload (env : Env) (now1 now2 : Z) (snapshot s : AppModel)
    (resultImage : string) (c : Cloud) :
  idbHealthy env -> now1 <> 0 ->
  exists s',
    value_of (init env None initial id id
                (cloud_of (handleGenerate_settled env snapshot now1 now2
                             (inl resultImage) s c))) = Ok s'
    /\ appState s' = SUCCESS
    /\ generatedImage s' = Some resultImage
    /\ imagePreview s' = imagePreview snapshot
    /\ pastIterations s' = pastIterations snapshot
    /\ originalImageRef s' = originalImageRef snapshot
    /\ prompt s' = prompt snapshot.
Proof.
  intros H Hnow. unfold handleGenerate_settled, bind.
  rewrite (saveDraft_healthy _ _ _ H). cbn [ret cloud_of fst].
  eexists. split.
  - apply init_restores; [exact H | reflexivity | exact Hnow].
  - repeat split.
Qed.

Lemma result_survives_reload_witness :
  exists s',
    value_of (init reliable None initial id id
                (cloud_of (handleGenerate_settled reliable refinedSession 7000 7001
                             (inl "data:image/png;base64,DDDD") refinedSession
                             emptyCloud))) = Ok s'
    /\ appState s' = SUCCESS
    /\ generatedImage s' = Some "data:image/png;base64,DDDD"
    /\ imagePreview s' = imagePreview refinedSession
    /\ pastIterations s' = pastIterations refinedSession
    /\ originalImageRef s' = originalImageRef refinedSession
    /\ prompt s' = prompt refinedSession.
Proof.
  apply (result_survives_reload reliable 7000 7001 refinedSession refinedSession
           "data:image/png;base64,DDDD" emptyCloud);
    [exact reliable_idbHealthy | discriminate].
Defined.

(** X18: [init] decides on the render it closed over, not on the session
    of the moment, and never rejects.  Whatever the handlers of the session
    do while its two requests are awaited, it sets the saved designs (those
    [getSavedDesigns] answers for the user; the empty list, at once, when
    nobody is signed in).  When the render it closed over has a file, a
    working image or a prompt, that is all it changes, whatever the draft
    holds.  When that render is clean and the browser store answers a draft
    with a timestamp, the draft lands on the session as it is by then: the
    state, the working image, the result, the history, the root and the
    prompt the session gained in the meantime are overwritten. *)
Theorem init_decides_on_its_render (env : Env) (user : option User.t)
    (render : AppModel) (whileLoading whileReading : AppModel -> AppModel)
    (c : Cloud) :
  exists designs,
    (user = None -> designs = [])
    /\ (forall u, user = Some u ->
        value_of (storageService.getSavedDesigns env (Some (User.id u)) c) = Ok designs)
    /\ let s2 := whileReading
                   (setSavedDesigns designs
                      (match user with Some _ => whileLoading render | None => render end)) in
       (exists s', value_of (init env user render whileLoading whileReading c) = Ok s')
       /\ (selectedFile render <> None \/ Js.truthy (imagePreview render) = true
           \/ prompt render <> "" ->
           value_of (init env user render whileLoading whileReading c) = Ok s2)
       /\ (selectedFile render = None -> Js.truthy (imagePreview render) = false ->
           prompt render = "" ->
           forall d, idbHealthy env -> draft c = Some d ->
                     AutoSaveState.timestamp d <> 0 ->
           exists s',
             value_of (init env user render whileLoading whileReading c) = Ok s'
             /\ s' = restoreDraft d s2
             /\ appState s' = AutoSaveState.appState d
             /\ imagePreview s' = AutoSaveState.imagePreview d
             /\ generatedImage s' = AutoSaveState.generatedImage d
             /\ pastIterations s' = AutoSaveState.pastIterations d
             /\ originalImageRef s' = AutoSaveState.originalImageRef d
             /\ prompt s' = AutoSaveState.prompt d
             /\ selectedFile s' = selectedFile s2
             /\ savedDesigns s' = savedDesigns s2).
Proof.
  assert (Hrun : forall c1,
            exists c2 dr,
              storageService.getDraft env c1 = (c2, Ok dr)
              /\ (idbHealthy env -> dr = draft c1)).
  { intros c1. destruct (getDraft_never_rejects env c1) as (dr & Hdr).
    pose proof (getDraft_healthy env c1) as Hh.
    destruct (storageService.getDraft env c1) as [c2 r]. simpl in Hdr. subst r.
    exists c2, dr. split; [reflexivity|]. intros H. specialize (Hh H). congruence. }
  assert (Hinit : exists designs c1,
            (user = None -> designs = [])
            /\ (forall u, user = Some u ->
                value_of (storageService.getSavedDesigns env (Some (User.id u)) c)
                = Ok designs)
            /\ draft c1 = draft c
            /\ init env user render whileLoading whileReading c
               = (let s2 := whileReading
                              (setSavedDesigns designs
                                 (match user with
                                  | Some _ => whileLoading render
                                  | None => render
                                  end)) in
                  await draft <- storageService.getDraft env ;;
                  match draft with
                  | Some d =>
                      if negb (AutoSaveState.timestamp d =? 0)
                      then if Js.isNull (selectedFile render)
                              && negb (Js.truthy (imagePreview render))
                              && Js.isEmpty (prompt render)
                           then ret (restoreDraft d s2)
                           else ret s2
                      else ret s2
                  | None => ret s2
                  end) c1).
  { unfold init. destruct user as [u|].
    - destruct (getSavedDesigns_never_rejects env (Some (User.id u)) c) as (l & Hl).
      pose proof (FrameFacts.getSavedDesigns_keeps env draft
                    (fun _ _ => eq_refl) (Some (User.id u)) c) as Hk.
      unfold bind at 1 2.
      destruct (storageService.getSavedDesigns env (Some (User.id u)) c)
        as [c1 r] eqn:E.
      simpl in Hl, Hk. subst r. exists l, c1.
      split; [discriminate|]. split; [intros u' [= <-]; now rewrite E|].
      split; [exact Hk|]. reflexivity.
    - exists [], c. split; [reflexivity|]. split; [discriminate|]. now split. }
  destruct Hinit as (designs & c1 & Hnone & Hsome & Hdraft & ->).
  exists designs. split; [exact Hnone|]. split; [exact Hsome|].
  cbv zeta. set (s2 := whileReading _). unfold bind.
  destruct (Hrun c1) as (c2 & dr & -> & Hhealthy).
  split; [|split].
  - destruct dr as [d|]; [|now eexists].
    destruct (AutoSaveState.timestamp d =? 0); [now eexists|].
    cbn [negb]. destruct (_ && _); now eexists.
  - intros Hcontent.
    assert (Hclean : Js.isNull (selectedFile render)
                     && negb (Js.truthy (imagePreview render))
                     && Js.isEmpty (prompt render) = false).
    { destruct Hcontent as [Hf | [Hi | Hp]].
      - destruct (selectedFile render); [reflexivity | congruence].
      - rewrite Hi. simpl. now rewrite andb_false_r.
      - apply isEmpty_false in Hp. rewrite Hp. apply andb_false_r. }
    destruct dr as [d|]; [|reflexivity]. rewrite Hclean.
    destruct (AutoSaveState.timestamp d =? 0); reflexivity.
  - intros Hf Hi Hp d H Hd Ht. rewrite (Hhealthy H), Hdraft, Hd.
    apply Z.eqb_neq in Ht. rewrite Ht, Hf, Hi, Hp. simpl.
    eexists. split; [reflexivity|]. split; [reflexivity|]. repeat split.
Qed.

(** A first render with nobody signed in, over a cloud that holds a draft;
    while [getDraft] is awaited the user picks a file, which is read.  The
    draft replaces the image just read. *)
Lemma init_decides_on_its_render_witness :
  exists s',
    value_of (init reliable None initial id
                (fun s => processFile_onload "data:image/png;base64,NEW"
                            (processFile (File.mk "image/png" 1024
                                            "data:image/png;base64,NEW") s))
                cloudWithDraft) = Ok s'
    /\ imagePreview s' = Some "data:image/png;base64,BBBB"
    /\ generatedImage s' = Some "data:image/png;base64,CCCC"
    /\ pastIterations s' = [Lineage.stepA]
    /\ prompt s' = "add a hedge"
    /\ appState s' = SUCCESS
    /\ selectedFile s' = Some (File.mk "image/png" 1024 "data:image/png;base64,NEW").
Proof.
  destruct (init_decides_on_its_render reliable None initial id
              (fun s => processFile_onload "data:image/png;base64,NEW"
                          (processFile (File.mk "image/png" 1024
                                          "data:image/png;base64,NEW") s))
              cloudWithDraft) as (designs & Hnone & _ & _ & _ & Hrestore).
  rewrite (Hnone eq_refl) in Hrestore.
  destruct (Hrestore eq_refl eq_refl eq_refl _ reliable_idbHealthy eq_refl)
    as (s' & V & -> & _); [discriminate|].
  eexists. split; [exact V|]. repeat split.
Defined.

(** X19: reset forgets everything of the session.  From any state,
    [handleReset] never rejects and leaves the state IDLE with no file, no
    working image, no root, no result, no history, an empty prompt and no
    error; it touches neither the records nor the objects.  On a healthy
    browser store the draft is gone, so a fresh mount after a reset
    restores nothing. *)
Theorem handleReset_clears (env : Env) (s : AppModel) (c : Cloud) :
  exists s',
    value_of (handleReset env s c) = Ok s'
    /\ appState s' = IDLE /\ selectedFile s' = None /\ imagePreview s' = None
    /\ originalImageRef s' = None /\ generatedImage s' = None
    /\ pastIterations s' = [] /\ prompt s' = "" /\ errorMsg s' = None
    /\ lastAutoSave s' = None /\ savedDesigns s' = savedDesigns s
    /\ docs (cloud_of (handleReset env s c)) = docs c
    /\ objects (cloud_of (handleReset env s c)) = objects c
    /\ (idbHealthy env ->
        draft (cloud_of (handleReset env s c)) = None
        /\ value_of (init env None initial id id (cloud_of (handleReset env s c)))
           = Ok (setSavedDesigns [] initial)).
Proof.
  unfold handleReset, bind.
  destruct (clearDraft_never_rejects env c) as (V & D & O).
  assert (Hh : idbHealthy env ->
               storageService.clearDraft env c
               = (setDraftSlot None (emit (EvDraftDel true) c), Ok tt))
    by apply clearDraft_healthy.
  destruct (storageService.clearDraft env c) as [c1 r]. simpl in V, D, O. subst r.
  eexists. split; [reflexivity|].
  repeat (split; [first [reflexivity | assumption]|]).
  intros Hhealthy. specialize (Hh Hhealthy). injection Hh as ->.
  split; [reflexivity|].
  unfold init, bind. unfold ret at 1. now rewrite (getDraft_healthy _ _ Hhealthy).
Qed.

(** *** The session under its operations *)

Lemma settled_value env snapshot now1 now2 result s c :
  value_of (handleGenerate_settled env snapshot now1 now2 result s c)
  = Ok match result with
       | inl resultImage =>
           setLastAutoSave (Some now2)
             (setAppState SUCCESS (setGeneratedImage (Some resultImage) s))
       | inr message =>
           setAppState ERROR
             (setErrorMsg
                (Js.orElse message
                   (Some "An unexpected error occurred while generating the vision."))
                s)
       end.
Proof.
  unfold handleGenerate_settled, bind. destruct result as [r|m]; [|reflexivity].
  pose proof (saveDraft_never_rejects env
                (AutoSaveState.mk now1 (prompt snapshot) (imagePreview snapshot) (Some r)
                   (pastIterations snapshot) (originalImageRef snapshot) SUCCESS) c)
    as V.
  destruct (storageService.saveDraft env _ c) as [c1 x]. simpl in V. now subst x.
Qed.

Lemma confirmSaveDesign_value env fresh user s c :
  exists designs msg saving dialog last,
    value_of (confirmSaveDesign env fresh user s c)
    = Ok (setLastAutoSave last
            (setErrorMsg msg
               (setShowSaveDialog dialog
                  (setIsSaving saving (setSavedDesigns designs s))))).
Proof.
  unfold confirmSaveDesign, bind.
  destruct (promote fresh user s) as [d|], user as [u|];
    try (exists (savedDesigns s), (errorMsg s), (isSaving s), (showSaveDialog s),
           (lastAutoSave s); now destruct s).
  destruct (saveDesign_never_rejects env d (User.id u) c) as (ok & V & _).
  destruct (storageService.saveDesign env d (User.id u) c) as [c1 r].
  simpl in V. subst r. destruct ok.
  - destruct (getSavedDesigns_never_rejects env (Some (User.id u)) c1) as (l & Hl).
    destruct (storageService.getSavedDesigns env (Some (User.id u)) c1) as [c2 r].
    simpl in Hl. subst r.
    destruct (clearDraft_never_rejects env c2) as (V & _).
    destruct (storageService.clearDraft env c2) as [c3 r]. simpl in V. subst r.
    exists l, (errorMsg s), true, (showSaveDialog s), None. now destruct s.
  - exists (savedDesigns s), (Some "Failed to save. Storage limit reached."),
      false, false, (lastAutoSave s). now destruct s.
Qed.

(** X20: the invariant of the working image (the working image is the
    root while the history is empty, and the image of the last step
    afterwards) is kept by every operation of the session but one: selecting
    a file (before and after it is read), clearing the image from the form,
    starting a generation and receiving its outcome, retry, refine, crop,
    reset, saving, the auto-save, reconstruction for editing, and
    reconstruction for viewing of a record that has a history or a
    result. *)
Theorem workingImage_invariant_is_kept (env : Env) (s : AppModel) :
  workingImageInvariant s ->
  (forall file, workingImageInvariant (processFile file s)
                /\ workingImageInvariant (selectFile file s))
  /\ (forall s', clickClearImage s = Some s' -> workingImageInvariant s')
  /\ (forall s' req, handleGenerate s = Some (s', req) -> workingImageInvariant s')
  /\ (forall snapshot now1 now2 result c s',
        value_of (handleGenerate_settled env snapshot now1 now2 result s c) = Ok s' ->
        workingImageInvariant s')
  /\ workingImageInvariant (handleRetry s)
  /\ (forall uuid now, workingImageInvariant (handleRefine uuid now s))
  /\ (forall newImage, workingImageInvariant (handleCropUpdate newImage s))
  /\ (forall c s', value_of (handleReset env s c) = Ok s' -> workingImageInvariant s')
  /\ (forall fresh user c s',
        value_of (confirmSaveDesign env fresh user s c) = Ok s' ->
        workingImageInvariant s')
  /\ (forall now1 now2 c s',
        value_of (autoSave env now1 now2 s c) = Ok s' -> workingImageInvariant s')
  /\ (forall design, workingImageInvariant (handleEditDesign design s))
  /\ (forall design,
        iterationsOf design <> [] \/ SavedDesign.generatedImage design <> "" ->
        workingImageInvariant (handleLoadDesign design s)).
Proof.
  intros Hinv.
  split. { intros file. split; [now apply processFile_invariant
                               | now apply selectFile_invariant]. }
  split.
  { intros s'. unfold clickClearImage. destruct (view s); try discriminate.
    destruct (Js.truthy (imagePreview s)); [|discriminate]. simpl.
    destruct (pastIterations s) eqn:Ep; [|discriminate]. simpl.
    intros [= <-]. unfold workingImageInvariant. cbn. now rewrite Ep. }
  split.
  { intros s' req H. unfold handleGenerate in H.
    destruct (_ || _); [discriminate|]. injection H as <- _. exact Hinv. }
  split.
  { intros snapshot now1 now2 result c s'. rewrite settled_value.
    intros [= <-]. now destruct result. }
  split; [exact Hinv|].
  split; [intros; now apply handleRefine_invariant|].
  split; [intros; exact Hinv|].
  split.
  { intros c s' H. pose proof (handleReset_invariant env s c) as K.
    rewrite H in K. exact K. }
  split.
  { intros fresh user c s'.
    destruct (confirmSaveDesign_value env fresh user s c)
      as (designs & msg & saving & dialog & la & ->).
    intros [= <-]. exact Hinv. }
  split.
  { intros now1 now2 c s'. unfold autoSave. destruct (_ || _); [|now intros [= <-]].
    unfold bind.
    pose proof (saveDraft_never_rejects env
                  (AutoSaveState.mk now1 (prompt s) (imagePreview s) (generatedImage s)
                     (pastIterations s) (originalImageRef s) (appState s)) c) as V.
    destruct (storageService.saveDraft env _ c) as [c1 r]. simpl in V. subst r.
    intros [= <-]. exact Hinv. }
  split; [intros; apply handleEditDesign_invariant|].
  intros design H. apply handleLoadDesign_invariant. tauto.
Qed.

Lemma workingImage_invariant_is_kept_witness :
  workingImageInvariant (handleRefine "it-9" 4000 succeededSession).
Proof.
  apply (workingImage_invariant_is_kept reliable succeededSession). reflexivity.
Defined.

(** X21: refine commits a step once.  In the result view the Refine button
    always appends exactly one step, made of the result on screen and the
    prompt, and leaves the form with that result as working image; a second
    call of [handleRefine] changes nothing, as the result is cleared. *)
Theorem refine_commits_once (uuid uuid' : string) (now now' : Z) (s : AppModel) :
  handleRefine uuid' now' (handleRefine uuid now s) = handleRefine uuid now s
  /\ forall s',
       clickRefine uuid now s = Some s' ->
       exists R,
         generatedImage s = Some R
         /\ pastIterations s'
            = pastIterations s ++ [DesignIteration.mk uuid (prompt s) R now]
         /\ imagePreview s' = Some R
         /\ selectedFile s' = None
         /\ view s' = FormView
         /\ clickRefine uuid' now' s' = None.
Proof.
  split.
  - unfold handleRefine. destruct (generatedImage s) as [r|] eqn:Eg.
    + destruct (Js.isEmpty r) eqn:Er; [now rewrite Eg, Er | reflexivity].
    + now rewrite Eg.
  - intros s'. unfold clickRefine, view.
    destruct (appState s); try discriminate.
    destruct (Js.truthy (generatedImage s) && Js.truthy (imagePreview s)) eqn:Et;
      [|discriminate].
    apply andb_true_iff in Et. destruct Et as [Eg _].
    intros [= <-]. unfold handleRefine.
    destruct (generatedImage s) as [r|]; [|discriminate].
    simpl in Eg. apply negb_true_iff in Eg. rewrite Eg.
    exists r. repeat split.
Qed.

(** X22: a failed generation loses nothing.  After a request was accepted
    and its call failed, the session is FAILED with a message that is not
    empty, the form is on screen, and the file, the working image, the
    root, the history, the prompt and the absence of a result are as they
    were at the click; no draft is written; and the same request is
    accepted again. *)
Theorem failed_generation_loses_nothing (env : Env) (s s1 : AppModel)
    (req : GenRequest) (now1 now2 : Z) (message : option string) (c : Cloud) :
  handleGenerate s = Some (s1, req) ->
  exists s2,
    handleGenerate_settled env s now1 now2 (inr message) s1 c = (c, Ok s2)
    /\ appState s2 = ERROR
    /\ Js.truthy (errorMsg s2) = true
    /\ view s2 = FormView
    /\ selectedFile s2 = selectedFile s /\ imagePreview s2 = imagePreview s
    /\ originalImageRef s2 = originalImageRef s
    /\ pastIterations s2 = pastIterations s
    /\ prompt s2 = prompt s /\ generatedImage s2 = generatedImage s
    /\ exists s3, clickGenerate s2 = Some (s3, req).
Proof.
  unfold handleGenerate. destruct (_ || _) eqn:Eguard; [discriminate|].
  intros [= <- <-]. eexists. split; [reflexivity|].
  split; [reflexivity|]. split.
  { unfold Js.orElse. cbn. now destruct (Js.truthy message) eqn:Em. }
  split; [reflexivity|].
  repeat (split; [reflexivity|]).
  destruct s as [st file preview root result past autosave history msg designs saving dialog].
  unfold clickGenerate, handleGenerate, prompt in *. cbn in Eguard |- *.
  rewrite Eguard. eexists. reflexivity.
Qed.

Lemma failed_generation_loses_nothing_witness :
  exists s2,
    handleGenerate_settled reliable refinedSession 1 2 (inr None)
      (setErrorMsg None (setAppState LOADING (setPrompt "add a hedge" refinedSession)))
      emptyCloud = (emptyCloud, Ok s2)
    /\ appState s2 = ERROR
    /\ Js.truthy (errorMsg s2) = true
    /\ view s2 = FormView
    /\ selectedFile s2 = selectedFile (setPrompt "add a hedge" refinedSession)
    /\ imagePreview s2 = imagePreview (setPrompt "add a hedge" refinedSession)
    /\ originalImageRef s2 = originalImageRef (setPrompt "add a hedge" refinedSession)
    /\ pastIterations s2 = pastIterations (setPrompt "add a hedge" refinedSession)
    /\ prompt s2 = prompt (setPrompt "add a hedge" refinedSession)
    /\ generatedImage s2 = generatedImage (setPrompt "add a hedge" refinedSession)
    /\ exists s3,
         clickGenerate s2
         = Some (s3, mkReq (inr "data:image/png;base64,BBBB") "add a hedge").
Proof.
  apply (failed_generation_loses_nothing reliable
           (setPrompt "add a hedge" refinedSession) _ _ 1 2 None emptyCloud).
  reflexivity.
Defined.

(** X23: what the next generation is run on.  After a refine, a view or an
    edit no file is selected, so an accepted request carries the working
    image - the result just committed, or the input of the lineage's last
    step - and never a file chosen earlier; with a file selected, the
    request carries the file. *)
Theorem next_generation_input (uuid : string) (now : Z) (design : SavedDesign.t)
    (s : AppModel) :
  (forall R p s' req,
     generatedImage s = Some R -> R <> "" ->
     handleGenerate (setPrompt p (handleRefine uuid now s)) = Some (s', req) ->
     inputSource req = inr R /\ instruction req = p)
  /\ (forall p s' req,
        handleGenerate (setPrompt p (handleLoadDesign design s)) = Some (s', req) ->
        Some (inputSource req) = inr <$> imagePreview (handleLoadDesign design s))
  /\ (forall p s' req,
        handleGenerate (setPrompt p (handleEditDesign design s)) = Some (s', req) ->
        Some (inputSource req) = inr <$> imagePreview (handleEditDesign design s))
  /\ (forall file s' req,
        selectedFile s = Some file -> handleGenerate s = Some (s', req) ->
        inputSource req = inl file).
Proof.
  split; [|split; [|split]].
  - intros R p s' req Hg HR. unfold handleRefine. rewrite Hg.
    apply isEmpty_false in HR. rewrite HR. unfold handleGenerate.
    destruct (_ || _); [discriminate|]. now intros [= <- <-].
  - intros p s' req. unfold handleGenerate. destruct (_ || _); [discriminate|].
    intros [= <- <-]. cbn [inputSource].
    replace (selectedFile (setPrompt p (handleLoadDesign design s))) with (@None File.t)
      by reflexivity.
    replace (imagePreview (setPrompt p (handleLoadDesign design s)))
      with (imagePreview (handleLoadDesign design s)) by reflexivity.
    unfold handleLoadDesign.
    match goal with |- context [last ?l] => destruct (last l) end; reflexivity.
  - intros p s' req. unfold handleGenerate. destruct (_ || _); [discriminate|].
    intros [= <- <-]. cbn [inputSource].
    replace (selectedFile (setPrompt p (handleEditDesign design s))) with (@None File.t)
      by reflexivity.
    replace (imagePreview (setPrompt p (handleEditDesign design s)))
      with (imagePreview (handleEditDesign design s)) by reflexivity.
    unfold handleEditDesign.
    destruct (SavedDesign.iterations design ≫= last); reflexivity.
  - intros file s' req Hf. unfold handleGenerate. destruct (_ || _); [discriminate|].
    intros [= <- <-]. cbn [inputSource]. now rewrite Hf.
Qed.

(** X24: the outcomes of [confirmSaveDesign].  Without a lineage to
    promote it issues no call and changes nothing.  When [saveDesign]
    answers [false], the draft and the records are as before and the
    session shows the failure with its lineage intact.  When it answers
    [true], the list of saved designs is the one [getSavedDesigns] gives
    next, and on a healthy browser store the draft is cleared. *)
Theorem confirmSaveDesign_outcomes (env : Env) (fresh : Fresh) (user : option User.t)
    (s : AppModel) (c : Cloud) :
  (promote fresh user s = None -> confirmSaveDesign env fresh user s c = (c, Ok s))
  /\ forall u newDesign,
       user = Some u -> promote fresh user s = Some newDesign ->
       (value_of (storageService.saveDesign env newDesign (User.id u) c) = Ok false ->
        draft (cloud_of (confirmSaveDesign env fresh user s c)) = draft c
        /\ docs (cloud_of (confirmSaveDesign env fresh user s c)) = docs c
        /\ value_of (confirmSaveDesign env fresh user s c)
           = Ok (setErrorMsg (Some "Failed to save. Storage limit reached.")
                   (setShowSaveDialog false (setIsSaving false s))))
       /\ (value_of (storageService.saveDesign env newDesign (User.id u) c) = Ok true ->
           exists designs,
             value_of (storageService.getSavedDesigns env (Some (User.id u))
                         (cloud_of (storageService.saveDesign env newDesign (User.id u) c)))
             = Ok designs
             /\ value_of (confirmSaveDesign env fresh user s c)
                = Ok (setLastAutoSave None
                        (setSavedDesigns designs (setIsSaving true s)))
             /\ (idbHealthy env ->
                 draft (cloud_of (confirmSaveDesign env fresh user s c)) = None)).
Proof.
  split.
  - intros Hp. unfold confirmSaveDesign. now rewrite Hp.
  - intros u d -> Hp. unfold confirmSaveDesign, bind. rewrite Hp.
    assert (Hdraft : draft (cloud_of (storageService.saveDesign env d (User.id u) c))
                     = draft c)
      by now apply (FrameFacts.saveDesign_keeps env draft).
    pose proof (saveDesign_never_rejects env d (User.id u) c) as (ok & V & Hfalse).
    destruct (storageService.saveDesign env d (User.id u) c) as [c1 r].
    simpl in Hdraft, V, Hfalse. cbn [cloud_of value_of fst snd]. subst r. split.
    + intros [= ->]. cbn [cloud_of value_of fst snd ret].
      split; [exact Hdraft|]. split; [now apply Hfalse|]. now destruct s.
    + intros [= ->].
      destruct (getSavedDesigns_never_rejects env (Some (User.id u)) c1) as (l & Hl).
      destruct (storageService.getSavedDesigns env (Some (User.id u)) c1) as [c2 r].
      simpl in Hl. subst r. exists l. split; [reflexivity|].
      pose proof (clearDraft_never_rejects env c2) as (V2 & _).
      pose proof (clearDraft_healthy env c2) as Hh.
      destruct (storageService.clearDraft env c2) as [c3 r]. simpl in V2. subst r.
      split; [reflexivity|].
      intros H. specialize (Hh H). now injection Hh as ->.
Qed.

Lemma confirmSaveDesign_outcomes_witness :
  draft (cloud_of (confirmSaveDesign storageDown someFresh (Some someUser)
                     succeededSession cloudWithDraft)) = draft cloudWithDraft
  /\ docs (cloud_of (confirmSaveDesign storageDown someFresh (Some someUser)
                       succeededSession cloudWithDraft)) = docs cloudWithDraft
  /\ value_of (confirmSaveDesign storageDown someFresh (Some someUser)
                 succeededSession cloudWithDraft)
     = Ok (setErrorMsg (Some "Failed to save. Storage limit reached.")
             (setShowSaveDialog false (setIsSaving false succeededSession))).
Proof.
  destruct (confirmSaveDesign_outcomes storageDown someFresh (Some someUser)
              succeededSession cloudWithDraft) as [_ H].
  eapply H; [reflexivity | reflexivity | vm_compute; reflexivity].
Defined.

End SessionMore.

(** ** The generation service *)

Module GeminiFacts.
Import geminiService JsString.

Lemma stripPrefix_app p s : stripPrefix p (p +:+ s) = Some s.
Proof.
  induction p as [|a p IH]; [reflexivity|].
  change (stripPrefix (String a p) (String a (p +:+ s)) = Some s).
  simpl. now rewrite Ascii.eqb_refl.
Qed.

Lemma stripPrefix_Some p s r : stripPrefix p s = Some r -> s = p +:+ r.
Proof.
  revert s. induction p as [|a p IH]; intros s; simpl.
  - now intros [= ->].
  - destruct s as [|b s]; [discriminate|].
    destruct (Ascii.eqb_spec a b) as [->|]; [|discriminate].
    intros H. apply IH in H. subst s. reflexivity.
Qed.

Lemma breakAt_app c m rest :
  contains c m = false -> breakAt c (m +:+ String c rest) = Some (m, rest).
Proof.
  induction m as [|a m IH].
  - intros _. change (breakAt c (String c rest) = Some ("", rest)).
    simpl. now rewrite Ascii.eqb_refl.
  - change (contains c (String a m) = false ->
            breakAt c (String a (m +:+ String c rest)) = Some (String a m, rest)).
    simpl. intros H. apply orb_false_iff in H. destruct H as [Ha Hm].
    now rewrite Ha, (IH Hm).
Qed.

Lemma breakAt_Some c s before after :
  breakAt c s = Some (before, after) ->
  s = before +:+ String c after /\ contains c before = false.
Proof.
  revert before. induction s as [|a s IH]; intros before; simpl; [discriminate|].
  destruct (Ascii.eqb_spec a c) as [->|Hne].
  - intros [= <- <-]. now split.
  - destruct (breakAt c s) as [[b a']|]; [|discriminate].
    intros [= <- <-]. destruct (IH b eq_refl) as [-> Hb]. split; [reflexivity|].
    simpl. rewrite Hb. apply Ascii.eqb_neq in Hne. now rewrite Hne.
Qed.

Lemma isEmpty_iff (s : string) : Js.isEmpty s = false <-> s <> "".
Proof. destruct s; simpl; split; congruence. Qed.

Lemma breakAt_None c s : contains c s = false -> breakAt c s = None.
Proof.
  induction s as [|a s IH]; simpl; [reflexivity|].
  intros H. apply orb_false_iff in H. destruct H as [Ha Hs].
  now rewrite Ha, (IH Hs).
Qed.

(** A well-formed data URL is accepted. *)
Lemma base64ToPart_data_url mime payload :
  mime <> "" -> contains ";"%char mime = false ->
  payload <> "" -> hasLineTerminator payload = false ->
  base64ToPart ("data:" +:+ mime +:+ ";base64," +:+ payload)
  = Ok (mkPart mime (Some payload)).
Proof.
  intros Hm Hc Hp Hl. unfold base64ToPart.
  rewrite stripPrefix_app.
  change (";base64," +:+ payload) with (String ";"%char ("base64," +:+ payload)).
  rewrite (breakAt_app _ _ _ Hc), stripPrefix_app.
  apply isEmpty_iff in Hm, Hp. now rewrite Hm, Hp, Hl.
Qed.

(** What [base64ToPart] answers is a part with a payload, or the one error. *)
Lemma base64ToPart_answers base64String :
  (exists mime payload, base64ToPart base64String = Ok (mkPart mime (Some payload)))
  \/ base64ToPart base64String = Throw (Error "Invalid image data format").
Proof.
  unfold base64ToPart.
  destruct (stripPrefix "data:" base64String) as [rest|]; [|now right].
  destruct (breakAt ";"%char rest) as [[m after]|]; [|now right].
  destruct (stripPrefix "base64," after) as [p|]; [|now right].
  destruct (_ || _); [now right | left; eauto].
Qed.

(** X25: what [base64ToPart] accepts, what it gives, and what it does with
    the rest.  A string is accepted exactly when it is
    [data:<mime>;base64,<payload>] with a MIME type that is not empty and
    has no [;], and a payload that is not empty and has no line terminator;
    the part is then that MIME type and that payload.  Every other string
    throws ['Invalid image data format']: the function has no other answer
    than such a part or that error, and a URL, which starts with [http],
    gets the error. *)
Theorem base64ToPart_accepts (base64String mime payload : string) :
  (base64ToPart base64String = Ok (mkPart mime (Some payload))
   <-> base64String = "data:" +:+ mime +:+ ";base64," +:+ payload
       /\ mime <> "" /\ contains ";"%char mime = false
       /\ payload <> "" /\ hasLineTerminator payload = false)
  /\ ((exists m p, base64ToPart base64String = Ok (mkPart m (Some p)))
      \/ base64ToPart base64String = Throw (Error "Invalid image data format"))
  /\ (~ (exists m p,
           base64String = "data:" +:+ m +:+ ";base64," +:+ p
           /\ m <> "" /\ contains ";"%char m = false
           /\ p <> "" /\ hasLineTerminator p = false) ->
      base64ToPart base64String = Throw (Error "Invalid image data format"))
  /\ (Js.startsWith "http" base64String = true ->
      base64ToPart base64String = Throw (Error "Invalid image data format")).
Proof.
  assert (Hinv : forall m p,
            base64ToPart base64String = Ok (mkPart m (Some p)) ->
            base64String = "data:" +:+ m +:+ ";base64," +:+ p
            /\ m <> "" /\ contains ";"%char m = false
            /\ p <> "" /\ hasLineTerminator p = false).
  { intros m0 p0. unfold base64ToPart.
    destruct (stripPrefix "data:" base64String) as [rest|] eqn:E1; [|discriminate].
    destruct (breakAt ";"%char rest) as [[m after]|] eqn:E2; [|discriminate].
    destruct (stripPrefix "base64," after) as [p|] eqn:E3; [|discriminate].
    destruct (Js.isEmpty m) eqn:Em; [discriminate|].
    destruct (Js.isEmpty p) eqn:Ep; [discriminate|].
    destruct (hasLineTerminator p) eqn:El; [discriminate|].
    simpl. intros [= <- <-].
    apply stripPrefix_Some in E1, E3. apply breakAt_Some in E2. destruct E2 as [-> Hc].
    subst. repeat split; try assumption; now apply isEmpty_iff. }
  split; [|split; [|split]].
  - split; [apply Hinv|].
    intros (-> & Hm & Hc & Hp & Hl). now apply base64ToPart_data_url.
  - apply base64ToPart_answers.
  - intros Hnot. destruct (base64ToPart_answers base64String) as [(m & p & H)|H];
      [|exact H].
    exfalso. apply Hnot. exists m, p. now apply Hinv.
  - intros Hhttp. destruct base64String as [|a s]; [discriminate|].
    change (Js.startsWith "http" (String a s))
      with (if Ascii.eqb "h" a then Js.startsWith "ttp" s else false) in Hhttp.
    destruct (Ascii.eqb_spec "h" a) as [<-|]; [reflexivity | discriminate].
Qed.

Lemma firstImage_Ok parts image :
  firstImage parts = Ok image ->
  exists payload, payload <> "" /\ image = "data:image/png;base64," +:+ payload.
Proof.
  induction parts as [|part parts IH]; simpl; [discriminate|].
  destruct (inlineData part) as [d|] eqn:E; simpl; [|exact IH].
  destruct (Js.isEmpty d) eqn:Ed; simpl; [exact IH|].
  intros [= <-]. exists d. split; [now apply isEmpty_iff | reflexivity].
Qed.

(** X26: a generated image is an input of the next generation.  Whatever
    the source and the instruction, a successful generation answers
    [data:image/png;base64,<payload>] with a payload that is not empty;
    when the payload has no line terminator, a generation run on that
    answer fetches nothing and sends the model that very payload as
    [image/png].  A string source that is neither a URL nor an accepted
    data URL throws before the model is called. *)
Theorem generated_image_feeds_next_generation (ai : Backend)
    (imageSource : File.t + string) (instruction : string) :
  (forall image,
     generateLandscapeVisualization ai imageSource instruction = Ok image ->
     exists payload,
       payload <> ""
       /\ image = "data:image/png;base64," +:+ payload
       /\ (hasLineTerminator payload = false ->
           forall ai' instruction',
             generateLandscapeVisualization ai' (inr image) instruction'
             = bindRes (generateContent ai' (mkPart "image/png" (Some payload))
                          (enhancedPrompt instruction'))
                 (fun parts =>
                    match parts with
                    | None => Throw (Error "No content generated")
                    | Some parts => firstImage parts
                    end)))
  /\ (forall source e,
        Js.startsWith "http" source = false -> base64ToPart source = Throw e ->
        generateLandscapeVisualization ai (inr source) instruction = Throw e).
Proof.
  split.
  - intros image H.
    assert (Hfirst : exists parts, firstImage parts = Ok image).
    { unfold generateLandscapeVisualization, bindRes in H.
      destruct (match imageSource with inl _ => _ | inr _ => _ end); [|discriminate].
      destruct (generateContent ai _ _) as [[parts|]|]; try discriminate. eauto. }
    destruct Hfirst as (parts & Hfirst).
    destruct (firstImage_Ok _ _ Hfirst) as (payload & Hp & ->).
    exists payload. split; [exact Hp|]. split; [reflexivity|].
    intros Hl ai' instruction'. unfold generateLandscapeVisualization.
    replace (Js.startsWith "http" ("data:image/png;base64," +:+ payload)) with false
      by reflexivity.
    cbn [bindRes].
    assert (Hb : base64ToPart ("data:image/png;base64," +:+ payload)
                 = Ok (mkPart "image/png" (Some payload))).
    { apply (base64ToPart_data_url "image/png" payload);
        [discriminate | reflexivity | exact Hp | exact Hl]. }
    now rewrite Hb.
  - intros source e Hs Hb. unfold generateLandscapeVisualization.
    rewrite Hs. cbn [bindRes]. now rewrite Hb.
Qed.

End GeminiFacts.

(** ** Accounts *)

Module AuthFacts.
Import Auth.

(** X27: the sign-in form.  [handleSubmit] always ends with [loading]
    false, and calls [onSuccess] exactly when it leaves no error.  A
    password shorter than 6 characters, or a blank name when registering,
    stops it before any call to Firebase; every call it issues carries the
    email and the password of the form; and it reports success only when
    Firebase accepted the sign-in, or created the account and updated its
    profile. *)
Theorem handleSubmit_outcomes (fb : Backend) (f : Form) :
  loading (handleSubmit fb f) = false
  /\ (onSuccessCalled (handleSubmit fb f) = true <-> error (handleSubmit fb f) = None)
  /\ ((String.length (password f) < 6)%nat ->
      calls (handleSubmit fb f) = [] /\ onSuccessCalled (handleSubmit fb f) = false)
  /\ (isLogin f = false -> Js.trim (name f) = "" ->
      calls (handleSubmit fb f) = [] /\ onSuccessCalled (handleSubmit fb f) = false)
  /\ (forall call, In call (calls (handleSubmit fb f)) ->
      match call with
      | SignIn e p | CreateUser e p => e = formEmail f /\ p = password f
      | UpdateProfile _ n => n = name f
      end)
  /\ (onSuccessCalled (handleSubmit fb f) = true ->
      if isLogin f
      then signInWithEmailAndPassword fb (formEmail f) (password f) = true
      else exists newUid,
             createUserWithEmailAndPassword fb (formEmail f) (password f) = Some newUid
             /\ updateProfile fb newUid (name f) = true
             /\ userSet (handleSubmit fb f)
                = Some (User.mk newUid (name f) (formEmail f))).
Proof.
  unfold handleSubmit.
  destruct (String.length (password f) <? 6)%nat eqn:Elen.
  { simpl. repeat split; try discriminate; try tauto. }
  apply Nat.ltb_ge in Elen.
  assert (Hpw : Js.isEmpty (password f) = false).
  { destruct (password f); [simpl in Elen; lia | reflexivity]. }
  destruct (isLogin f) eqn:Elog.
  - unfold login. rewrite Hpw.
    destruct (signInWithEmailAndPassword fb (formEmail f) (password f)) eqn:Es;
      simpl; repeat split; try discriminate; try tauto; try lia;
      intros call [<- | []]; now split.
  - destruct (Js.isEmpty (Js.trim (name f))) eqn:Ename.
    { simpl. repeat split; try discriminate; try tauto. }
    unfold register. rewrite Hpw.
    assert (Hname : Js.trim (name f) = "" -> False).
    { intros H. rewrite H in Ename. discriminate. }
    destruct (createUserWithEmailAndPassword fb (formEmail f) (password f))
      as [newUid|] eqn:Ec.
    + destruct (updateProfile fb newUid (name f)) eqn:Eu; simpl;
        repeat split; try discriminate; try tauto; try lia;
        try (intros call [<- | [<- | []]]; now repeat split).
      exists newUid. now repeat split.
    + simpl. repeat split; try discriminate; try tauto; try lia.
      intros call [<- | []]; now split.
Qed.

(** X28: the name of a signed-in user is never empty.  It is the display
    name whenever Firebase has one.  Failing that it is what precedes the
    first [@] of the email: the whole email when it has no [@], and
    ['User'] when nothing precedes the [@] or the email is empty.  With
    neither a display name nor an email it is ['User']. *)
Theorem user_name_is_never_empty (fu : FirebaseUser) :
  exists u,
    onAuthStateChanged (Some fu) = Some u
    /\ User.id u = uid fu
    /\ User.name u <> ""
    /\ (forall n, displayName fu = Some n -> n <> "" -> User.name u = n)
    /\ (Js.truthy (displayName fu) = false -> email fu = None -> User.name u = "User")
    /\ (Js.truthy (displayName fu) = false ->
        forall e, email fu = Some e ->
          User.name u = (if Js.isEmpty (JsString.splitHead "@"%char e) then "User"
                         else JsString.splitHead "@"%char e)
          /\ (forall before rest,
                e = before +:+ String "@"%char rest ->
                JsString.contains "@"%char before = false ->
                before <> "" -> User.name u = before)
          /\ (forall rest, e = String "@"%char rest -> User.name u = "User")
          /\ (JsString.contains "@"%char e = false -> e <> "" -> User.name u = e)
          /\ (e = "" -> User.name u = "User")).
Proof.
  eexists. split; [reflexivity|]. split; [reflexivity|]. simpl.
  split; [|split; [|split]].
  - unfold Js.orElse.
    destruct (displayName fu) as [[|a n]|], (email fu) as [e|]; simpl;
      try discriminate;
      destruct (JsString.splitHead "@"%char e); simpl; discriminate.
  - intros n Hn Hne. unfold Js.orElse. rewrite Hn.
    destruct n; [congruence | reflexivity].
  - intros Hd He. unfold Js.orElse. now rewrite Hd, He.
  - intros Hd e He.
    assert (Hname : default "User"
                      (Js.orElse
                         (Js.orElse (displayName fu)
                            (JsString.splitHead "@"%char <$> email fu))
                         (Some "User"))
                    = if Js.isEmpty (JsString.splitHead "@"%char e) then "User"
                      else JsString.splitHead "@"%char e).
    { unfold Js.orElse at 2. rewrite Hd, He. simpl.
      unfold Js.orElse. simpl. now destruct (JsString.splitHead "@"%char e). }
    rewrite Hname. split; [reflexivity|]. split; [|split; [|split]].
    + intros before rest -> Hc Hne. unfold JsString.splitHead.
      rewrite (GeminiFacts.breakAt_app _ _ _ Hc).
      now destruct before.
    + intros rest ->. reflexivity.
    + intros Hc Hne. unfold JsString.splitHead.
      rewrite (GeminiFacts.breakAt_None _ _ Hc). now destruct e.
    + intros ->. reflexivity.
Qed.

End AuthFacts.

(** ** The gallery *)

Module GalleryFacts.
Import Gallery JsString.

Lemma startsWith_empty s : Js.startsWith "" s = true.
Proof. now destruct s. Qed.

Lemma includes_empty s : Js.includes "" s = true.
Proof. destruct s; reflexivity. Qed.

Lemma toLowerCaseUnit_idempotent c :
  toLowerCaseUnit (toLowerCaseUnit c) = toLowerCaseUnit c.
Proof. destruct c as [[] [] [] [] [] [] [] []]; reflexivity. Qed.

Lemma toLowerCase_idempotent s : toLowerCase (toLowerCase s) = toLowerCase s.
Proof.
  induction s as [|c s IH]; [reflexivity|].
  simpl. now rewrite toLowerCaseUnit_idempotent, IH.
Qed.

(** X29: the filters of the gallery.  What is listed is always a sublist
    of the designs, in their order; with no keyword and no date every
    design is listed; and the keyword is matched without regard to case: a
    keyword and its lower-case form list the same designs. *)
Theorem filteredDesigns_lists (localDate : Z -> Z * Z * Z)
    (designs : list SavedDesign.t) (searchTerm dateFilter : string) :
  filteredDesigns localDate designs searchTerm dateFilter `sublist_of` designs
  /\ filteredDesigns localDate designs "" "" = designs
  /\ filteredDesigns localDate designs (toLowerCase searchTerm) dateFilter
     = filteredDesigns localDate designs searchTerm dateFilter.
Proof.
  unfold filteredDesigns. split; [|split].
  - induction designs as [|d ds IH]; simpl; [constructor|].
    destruct (_ && _); [now apply sublist_skip | now apply sublist_cons].
  - induction designs as [|d ds IH]; simpl; [reflexivity|].
    rewrite includes_empty. simpl. f_equal. exact IH.
  - now rewrite toLowerCase_idempotent.
Qed.

(** X30: the rotation of the result stays a quarter turn: after any number
    of clicks it is 0, 90, 180 or 270, and four more clicks give it back. *)
Theorem handleRotate_quarter_turns (n : nat) :
  let rotation := Nat.iter n handleRotate 0 in
  (rotation = 0 \/ rotation = 90 \/ rotation = 180 \/ rotation = 270)
  /\ Nat.iter 4 handleRotate rotation = rotation.
Proof.
  cbv zeta.
  assert (H : Nat.iter n handleRotate 0 = 0 \/ Nat.iter n handleRotate 0 = 90
              \/ Nat.iter n handleRotate 0 = 180 \/ Nat.iter n handleRotate 0 = 270).
  { induction n as [|n IH]; [now left|].
    simpl. destruct IH as [-> | [-> | [-> | ->]]]; vm_compute; tauto. }
  split; [exact H|].
  destruct H as [-> | [-> | [-> | ->]]]; reflexivity.
Qed.

End GalleryFacts.
